(** * rag-assistant: the two Streamlit pages, as effectful programs

    The repository holds two page scripts,
    [frontend/pages/1_RAG_Assistant.py] and
    [frontend/pages/1_..._mo7amAI.py].  Both read widget values, call an
    external retrieval-augmented-generation engine and render what comes
    back.  A page script is modelled as a computation that

    - threads the temporary-file area of the disk (a finite map from paths
      to contents),
    - appends to a log of observable events (Streamlit calls, in call
      order, and calls to the external collaborators), and
    - either returns or raises a Python exception.

    The collaborators that live outside the two scripts ([ask_question],
    [run_rag_on_uploaded_docs], [PyPDFLoader], [RAGPipeline], ...) are
    section variables: total functions from their arguments to a returned
    value or a raised exception. *)

From Stdlib Require Import ZArith NArith List String Ascii Lia.
From Stdlib.Strings Require Byte.
From Stdlib Require Import PrimFloat.
From stdpp Require Import gmap strings list pretty.

Local Open Scope string_scope.
Local Open Scope list_scope.

(** ** Python values *)

Module Py.

(** A Python [str] is a sequence of Unicode code points. *)
Abbreviation str := (list N).

(** Source literals are written in this file as UTF-8 byte strings and
    decoded to code points. *)
Fixpoint utf8_decode (bs : list N) : str :=
  match bs with
  | [] => []
  | b0 :: r0 =>
    if (b0 <? 128)%N then b0 :: utf8_decode r0
    else match r0 with
    | [] => []
    | b1 :: r1 =>
      if (b0 <? 224)%N
      then ((b0 - 192) * 64 + (b1 - 128))%N :: utf8_decode r1
      else match r1 with
      | [] => []
      | b2 :: r2 =>
        if (b0 <? 240)%N
        then ((b0 - 224) * 4096 + (b1 - 128) * 64 + (b2 - 128))%N
               :: utf8_decode r2
        else match r2 with
        | [] => []
        | b3 :: r3 =>
          ((b0 - 240) * 262144 + (b1 - 128) * 4096
             + (b2 - 128) * 64 + (b3 - 128))%N :: utf8_decode r3
        end
      end
    end
  end.

Fixpoint bytes_of_string (s : string) : list N :=
  match s with
  | EmptyString => []
  | String a r => N_of_ascii a :: bytes_of_string r
  end.

Definition lit (s : string) : str := utf8_decode (bytes_of_string s).

(** [str.isspace] on one character: the code points CPython's
    [_PyUnicode_IsWhitespace] accepts. *)
Definition isspace (c : N) : bool :=
  ((9 <=? c) && (c <=? 13) || (28 <=? c) && (c <=? 32)
   || (c =? 133) || (c =? 160) || (c =? 5760)
   || (8192 <=? c) && (c <=? 8202) || (c =? 8232) || (c =? 8233)
   || (c =? 8239) || (c =? 8287) || (c =? 12288))%N.

Fixpoint lstrip (s : str) : str :=
  match s with
  | [] => []
  | c :: r => if isspace c then lstrip r else s
  end.

Definition rstrip (s : str) : str := rev (lstrip (rev s)).

(** [s.strip()] with no argument. *)
Definition strip (s : str) : str := rstrip (lstrip s).

(** Truth value of a [str]: false exactly for the empty string. *)
Definition truthy_str (s : str) : bool :=
  match s with [] => false | _ :: _ => true end.

(** [s[:n]] *)
Definition slice_to (n : nat) (s : str) : str := firstn n s.

(** [str(n)] for an [int]. *)
Definition str_of_int (z : Z) : str := bytes_of_string (pretty z).

Definition quote : N := 39.

(** [repr(k)] for a key that is a plain ASCII literal. *)
Definition repr_key (k : string) : str := quote :: bytes_of_string k ++ [quote].

End Py.

(** ** Documents, results, exceptions *)

(** A metadata value of a LangChain [Document]: the loaders store the
    source as a [str] and the page as an [int]. *)
Inductive mval :=
| MStr (s : Py.str)
| MInt (z : Z).

(** What an f-string interpolation [{v}] prints. *)
Definition str_of_mval (v : mval) : Py.str :=
  match v with
  | MStr s => s
  | MInt z => Py.str_of_int z
  end.

Record Document := {
  page_content : Py.str;
  metadata : gmap string mval
}.

(** The values found in the dict a query returns. *)
Inductive pyval :=
| VNone
| VStr (s : Py.str)
| VDocs (l : list Document).

(** [bool(v)] *)
Definition truthy (v : pyval) : bool :=
  match v with
  | VNone => false
  | VStr s => Py.truthy_str s
  | VDocs l => match l with [] => false | _ :: _ => true end
  end.

(** One element of an iteration over a [pyval]: a document of a list, or
    a one-character string of a [str]. *)
Inductive item :=
| IDoc (d : Document)
| IChar (c : N).

Record UploadedFile := {
  uf_name : Py.str;
  uf_bytes : list Byte.byte
}.

Inductive exn_class :=
| AuthenticationError
| ServiceError
| KeyError
| TypeError
| AttributeError
| FileNotFoundError
| OtherException (name : string)
(** a class below [BaseException] but not below [Exception]
    ([KeyboardInterrupt], [SystemExit]) *)
| BaseOnly (name : string).

(** A raised exception: its class and [str(e)]. *)
Record exn := {
  exc_class : exn_class;
  exc_str : Py.str
}.

(** [isinstance(e, Exception)] *)
Definition is_Exception (e : exn) : bool :=
  match exc_class e with
  | BaseOnly _ => false
  | _ => true
  end.

Definition key_error (k : string) : exn :=
  {| exc_class := KeyError; exc_str := Py.repr_key k |}.

Definition none_not_iterable : exn :=
  {| exc_class := TypeError;
     exc_str := Py.lit "'NoneType' object is not iterable" |}.

Definition str_has_no_metadata : exn :=
  {| exc_class := AttributeError;
     exc_str := Py.lit "'str' object has no attribute 'metadata'" |}.

Definition no_such_file (p : Py.str) : exn :=
  {| exc_class := FileNotFoundError;
     exc_str := Py.lit "[Errno 2] No such file or directory: " ++ p |}.

Inductive result (A : Type) :=
| Ok (a : A)
| Raise (e : exn).
Arguments Ok {A} a.
Arguments Raise {A} e.

(** ** Observable events *)

(** The collaborators a page calls. *)
Inductive callee :=
| c_ask_question
| c_run_rag_on_uploaded_docs
| c_PyPDFLoader_load
| c_load_api_key
| c_OpenAILLM
| c_FAISSRetriever
| c_RAGPipeline
| c_pipeline_ask.

(** Streamlit calls that draw something, in call order, and the calls to
    collaborators.  A [with] block contributes an enter and an exit event
    around the events of its body.  Input widgets are not logged: their
    values are the inputs of a run. *)
Inductive event :=
| st_spinner_enter (text : Py.str)
| st_spinner_exit
| st_columns (spec : list nat)
| st_column_enter (i : nat)
| st_column_exit
| st_expander_enter (label : Py.str)
| st_expander_exit
| st_success (body : Py.str)
| st_info (body : Py.str)
| st_warning (body : Py.str)
| st_error (body : Py.str)
| st_markdown (body : pyval) (unsafe_allow_html : bool)
| st_code (body : Py.str) (language : option Py.str)
| st_divider
| st_header (body : Py.str)
| st_write (body : Py.str)
| call (c : callee).

(** ** The script monad: disk state, event log, exceptions *)

Abbreviation disk := (gmap (list N) (list Byte.byte)).

Definition M (A : Type) : Type := disk -> result A * disk * list event.

Definition ret {A} (a : A) : M A := fun d => (Ok a, d, []).

Definition bind {A B} (m : M A) (k : A -> M B) : M B :=
  fun d =>
    match m d with
    | (Ok a, d1, l1) =>
      match k a d1 with
      | (r, d2, l2) => (r, d2, l1 ++ l2)
      end
    | (Raise e, d1, l1) => (Raise e, d1, l1)
    end.

Declare Scope script_scope.
Delimit Scope script_scope with script.
Notation "x <- m ;; k" := (bind m (fun x => k))
  (at level 100, m at next level, right associativity) : script_scope.
Notation "m ;; k" := (bind m (fun _ => k))
  (at level 100, right associativity) : script_scope.
Local Open Scope script_scope.

Definition raise {A} (e : exn) : M A := fun d => (Raise e, d, []).

Definition emit (ev : event) : M unit := fun d => (Ok tt, d, [ev]).

(** The outcome of a pure call that may raise. *)
Definition lift {A} (r : result A) : M A := fun d => (r, d, []).

(** [try: body / except Exception as e: handler e] *)
Definition try_except {A} (body : M A) (handler : exn -> M A) : M A :=
  fun d =>
    match body d with
    | (Ok a, d1, l1) => (Ok a, d1, l1)
    | (Raise e, d1, l1) =>
      if is_Exception e
      then match handler e d1 with
           | (r, d2, l2) => (r, d2, l1 ++ l2)
           end
      else (Raise e, d1, l1)
    end.

(** [with cm: body] for the Streamlit context managers: the exit event is
    emitted whether the body returns or raises. *)
Definition with_ {A} (enter exit : event) (body : M A) : M A :=
  fun d =>
    match body d with
    | (r, d1, l1) => (r, d1, enter :: l1 ++ [exit])
    end.

(** [for x in xs: body x] *)
Fixpoint for_each {A} (xs : list A) (body : A -> M unit) : M unit :=
  match xs with
  | [] => ret tt
  | x :: r => body x ;; for_each r body
  end.

Definition events {A} (o : result A * disk * list event) : list event := o.2.
Definition final_disk {A} (o : result A * disk * list event) : disk := o.1.2.
Definition outcome {A} (o : result A * disk * list event) : result A := o.1.1.

(** ** Dict and iteration primitives *)

(** [d[k]] *)
Definition getitem {V} (d : gmap string V) (k : string) : result V :=
  match d !! k with
  | Some v => Ok v
  | None => Raise (key_error k)
  end.

(** [d.get(k)] on a result dict: [None] when the key is absent. *)
Definition dict_get (d : gmap string pyval) (k : string) : pyval :=
  match d !! k with
  | Some v => v
  | None => VNone
  end.

(** [d.get(k, default)] *)
Definition get_default {V} (d : gmap string V) (k : string) (default : V) : V :=
  match d !! k with
  | Some v => v
  | None => default
  end.

(** [iter(v)], exhausted *)
Definition py_iter (v : pyval) : result (list item) :=
  match v with
  | VNone => Raise none_not_iterable
  | VStr s => Ok (map IChar s)
  | VDocs l => Ok (map IDoc l)
  end.

(** [doc.metadata] and [doc.page_content] *)
Definition attr_metadata (it : item) : result (gmap string mval) :=
  match it with
  | IDoc d => Ok (metadata d)
  | IChar _ => Raise str_has_no_metadata
  end.

Definition attr_page_content (it : item) : result Py.str :=
  match it with
  | IDoc d => Ok (page_content d)
  | IChar _ =>
    Raise {| exc_class := AttributeError;
             exc_str := Py.lit "'str' object has no attribute 'page_content'" |}
  end.

(** [enumerate(xs, start)] *)
Fixpoint enumerate {A} (xs : list A) (start : Z) : list (Z * A) :=
  match xs with
  | [] => []
  | x :: r => (start, x) :: enumerate r (start + 1)
  end.

(** ** Streamlit's upload widget *)

Definition lower (c : N) : N :=
  if ((65 <=? c) && (c <=? 90))%N then (c + 32)%N else c.

(** [s.endswith(suffix)] *)
Definition endswith (s suffix : Py.str) : bool :=
  bool_decide (drop (length s - length suffix) s = suffix).

(** [st.file_uploader(label, type=..., accept_multiple_files=True)]: the
    widget hands the script the offered files whose lower-cased name ends
    with a dot and one of the extensions of [type]; the others are
    refused. *)
Definition file_uploader (type : list string) (offered : list UploadedFile)
  : list UploadedFile :=
  filter
    (fun f =>
       existsb (fun ext => endswith (map lower (uf_name f))
                                    (Py.lit "." ++ map lower (Py.lit ext)))
               type = true)
    offered.

(** [doc.metadata["source"] = name] *)
Definition set_source (name : Py.str) (doc : Document) : Document :=
  {| page_content := page_content doc;
     metadata := <["source" := MStr name]> (metadata doc) |}.

(** A call to a collaborator: logged, then its outcome. *)
Definition invoke {A} (c : callee) (r : result A) : M A :=
  emit (call c) ;; lift r.

(** ** Page 1: RAG Assistant (lines 64-171 of the script) *)

Module RagAssistant.

(** The collaborators of the page that live outside the script. *)
Record engine := {
  (** [app.rag_engine.ask_question(question, model_name, temperature, k,
      user_api_key)] *)
  ask_question :
    Py.str -> Py.str -> float -> Z -> Py.str -> result (gmap string pyval);
  (** [app.rag_temp_engine.run_rag_on_uploaded_docs(docs, question, model,
      temperature, k, user_api_key)] *)
  run_rag_on_uploaded_docs :
    list Document -> Py.str -> Py.str -> float -> Z -> Py.str
    -> result (gmap string pyval);
  (** [PyPDFLoader(path).load()], as a function of the path and of the
      bytes stored there: one document per page, or an exception *)
  pdf_parse : Py.str -> list Byte.byte -> result (list Document);
  (** the name [tempfile.NamedTemporaryFile(suffix=...)] picks, given the
      names in use *)
  mkstemp : Py.str -> gset (list N) -> Py.str;
  (** [traceback.format_exc()] while [e] is being handled *)
  format_exc : exn -> Py.str
}.

(** The widget values of one run of the script. *)
Record inputs := {
  model : Py.str;
  temperature : float;
  k : Z;
  user_api_key : Py.str;
  question : Py.str;
  ask_clicked : bool;
  offered_files : list UploadedFile;
  tmp_question : Py.str;
  tmp_clicked : bool
}.

Section Script.

Variable E : engine.

(** *** Temporary files *)

(** [with tempfile.NamedTemporaryFile(delete=False, suffix=s) as tmp:
    tmp.write(content); tmp_path = tmp.name] *)
Definition NamedTemporaryFile_write (suffix : Py.str) (content : list Byte.byte)
  : M Py.str :=
  fun d =>
    let p := mkstemp E suffix (dom d) in
    (Ok p, <[p := content]> d, []).

(** [PyPDFLoader(path).load()] *)
Definition PyPDFLoader_load (path : Py.str) : M (list Document) :=
  fun d =>
    match d !! path with
    | Some content => (pdf_parse E path content, d, [call c_PyPDFLoader_load])
    | None => (Raise (no_such_file path), d, [call c_PyPDFLoader_load])
    end.

(** [os.remove(path)] *)
Definition os_remove (path : Py.str) : M unit :=
  fun d =>
    match d !! path with
    | Some _ => (Ok tt, delete path d, [])
    | None => (Raise (no_such_file path), d, [])
    end.

(** *** Lines 64-102: the query on the persistent index *)

(** Lines 90-96, the body of the loop over the sources. *)
Definition render_source (entry : Z * item) : M unit :=
  let '(i, doc) := entry in
  md <- lift (attr_metadata doc) ;;
  let title := get_default md "source" (MStr (Py.lit "Document inconnu")) in
  md <- lift (attr_metadata doc) ;;
  let page := get_default md "page" (MStr (Py.lit "?")) in
  text <- lift (attr_page_content doc) ;;
  let content := Py.slice_to 500 text ++ Py.lit "..." in
  with_ (st_expander_enter
           (Py.lit "📄 " ++ str_of_mval title ++ Py.lit " (page "
              ++ str_of_mval page ++ Py.lit ")"))
        st_expander_exit
        (emit (st_markdown (VStr content) false)).

Definition sources_heading : Py.str := Py.lit "
                #### 📄 Sources documentaires utilisées
                ".

Definition no_sources_message : Py.str :=
  Py.lit "Aucune source documentaire n'a été retournée.".

(** Lines 85-98. *)
Definition render_sources (result : gmap string pyval) : M unit :=
  with_ (st_column_enter 1) st_column_exit
    (emit (st_markdown (VStr sources_heading) false) ;;
     if truthy (dict_get result "source_documents")
     then
       docs <- lift (getitem result "source_documents") ;;
       its <- lift (py_iter docs) ;;
       for_each (enumerate its 1) render_source
     else emit (st_info no_sources_message)).

(** Lines 100-102. *)
Definition persistent_handler (e : exn) : M unit :=
  emit (st_error (Py.lit "❌ Une erreur est survenue : " ++ exc_str e)) ;;
  emit (st_code (format_exc E e) (Some (Py.lit "python"))).

(** Lines 68-98, the body of the [try]. *)
Definition persistent_body (inp : inputs) : M unit :=
  result <- invoke c_ask_question
              (ask_question E (question inp) (model inp) (temperature inp)
                 (k inp) (user_api_key inp)) ;;
  emit (st_columns [2; 1]%nat) ;;
  with_ (st_column_enter 0) st_column_exit
    (emit (st_success (Py.lit "✅ Réponse :")) ;;
     answer <- lift (getitem result "result") ;;
     emit (st_markdown answer false)) ;;
  render_sources result.

(** Lines 65-102. *)
Definition persistent_query (inp : inputs) : M unit :=
  if ask_clicked inp && Py.truthy_str (question inp)
  then
    with_ (st_spinner_enter (Py.lit "🤖 Le modèle réfléchit..."))
          st_spinner_exit
          (try_except (persistent_body inp) persistent_handler)
  else ret tt.

(** *** Lines 105-133: the upload *)

(** Lines 115-131, the loop over the uploaded files; [session_docs] is the
    list built so far. *)
Fixpoint upload_loop (files : list UploadedFile) (session_docs : list Document)
  : M (list Document) :=
  match files with
  | [] => ret session_docs
  | uploaded_file :: rest =>
    tmp_path <- NamedTemporaryFile_write (Py.lit ".pdf")
                  (uf_bytes uploaded_file) ;;
    docs <- PyPDFLoader_load tmp_path ;;
    let docs := map (set_source (uf_name uploaded_file)) docs in
    let session_docs := session_docs ++ docs in
    os_remove tmp_path ;;
    upload_loop rest session_docs
  end.

Definition pages_loaded_message (n : nat) : Py.str :=
  Py.lit "✅ " ++ Py.str_of_int (Z.of_nat n)
    ++ Py.lit " page(s) PDF chargée(s) depuis les documents uploadés.".

(** Lines 112-133, given the files the widget returned. *)
Definition upload_step (uploaded_files : list UploadedFile)
  : M (list Document) :=
  match uploaded_files with
  | [] => ret []
  | _ :: _ =>
    session_docs <- upload_loop uploaded_files [] ;;
    emit (st_success (pages_loaded_message (length session_docs))) ;;
    ret session_docs
  end.

(** *** Lines 135-161: the query on the uploaded documents *)

(** Line 158. *)
Definition render_uploaded_source (doc : item) : M unit :=
  md <- lift (attr_metadata doc) ;;
  source <- lift (getitem md "source") ;;
  emit (st_markdown
          (VStr (Py.lit "- `" ++ str_of_mval source ++ Py.lit "`")) false).

(** Lines 160-161. *)
Definition ephemeral_handler (e : exn) : M unit :=
  emit (st_error (Py.lit "❌ Erreur pendant l'exécution : " ++ exc_str e)).

(** Lines 144-158, the body of the [try]. *)
Definition ephemeral_body (inp : inputs) (session_docs : list Document)
  : M unit :=
  result <- invoke c_run_rag_on_uploaded_docs
              (run_rag_on_uploaded_docs E session_docs (tmp_question inp)
                 (model inp) (temperature inp) (k inp) (user_api_key inp)) ;;
  emit (st_success (Py.lit "🧠 Réponse :")) ;;
  answer <- lift (getitem result "result") ;;
  emit (st_markdown answer false) ;;
  emit (st_markdown (VStr (Py.lit "📎 **Sources :**")) false) ;;
  docs <- lift (getitem result "source_documents") ;;
  its <- lift (py_iter docs) ;;
  for_each its render_uploaded_source.

(** Lines 135-161. *)
Definition ephemeral_query (inp : inputs) (session_docs : list Document)
  : M unit :=
  match session_docs with
  | [] => ret tt
  | _ :: _ =>
    emit st_divider ;;
    emit (st_markdown
            (VStr (Py.lit "## 💬 Pose ta question sur le document uploadé"))
            false) ;;
    if tmp_clicked inp && Py.truthy_str (tmp_question inp)
    then
      with_ (st_spinner_enter (Py.lit "💡 Génération en cours..."))
            st_spinner_exit
            (try_except (ephemeral_body inp session_docs) ephemeral_handler)
    else ret tt
  end.

Definition not_saved_warning : Py.str :=
  Py.lit "⚠️ Ce document ne sera **pas sauvegardé**. Il est utilisé uniquement pendant cette session.".

Definition footer : Py.str :=
  Py.lit "<div style='text-align: center; padding-top: 2rem;'><sub>🚀 Créé avec 💪 par <b>Charif EL JAZOULI</b> • <a href='https://github.com/ton-lien-github' target='_blank'>GitHub</a></sub></div>".

(** Lines 64-171: the script from the first query button on. *)
Definition page (inp : inputs) : M unit :=
  persistent_query inp ;;
  emit (st_warning not_saved_warning) ;;
  session_docs <- upload_step (file_uploader ["pdf"] (offered_files inp)) ;;
  ephemeral_query inp session_docs ;;
  emit (st_markdown (VStr footer) true).

End Script.

End RagAssistant.

(** ** Page 2: the consultation page of mo7amAI (lines 108-154) *)

Module Mo7amAI.

(** The collaborators of the page.  The objects the constructors return
    are opaque to the script. *)
Record engine := {
  llm : Type;
  retriever : Type;
  pipeline : Type;
  (** [app.utils.utils.load_api_key(user_api_key)] *)
  load_api_key : Py.str -> result unit;
  (** [OpenAILLM(model_name=, temperature=, user_api_key=)] *)
  OpenAILLM : Py.str -> float -> Py.str -> result llm;
  (** [FAISSRetriever(persist_path=)] *)
  FAISSRetriever : Py.str -> result retriever;
  (** [RAGPipeline(retriever=, llm=)] *)
  RAGPipeline : retriever -> llm -> result pipeline;
  (** [pipeline.ask(question, k=)] *)
  pipeline_ask : pipeline -> Py.str -> Z -> result (gmap string pyval);
  (** [config.VECTORSTORE_PATH] *)
  VECTORSTORE_PATH : Py.str;
  (** [traceback.format_exc()] while [e] is being handled *)
  format_exc : exn -> Py.str
}.

(** The widget values of one run; [nav] is the page selected after the
    redirect of lines 79-80.  The placeholder rotation of lines 118-125
    only picks the hint shown in the empty question field. *)
Record inputs := {
  nav : Py.str;
  model : Py.str;
  temperature : float;
  k : Z;
  user_api_key : Py.str;
  question : Py.str;
  clicked : bool
}.

Section Script.

Variable E : engine.

(** Lines 147-151, the body of the loop over the sources. *)
Definition render_source (doc : item) : M unit :=
  md <- lift (attr_metadata doc) ;;
  let title := get_default md "source" (MStr (Py.lit "Document")) in
  md <- lift (attr_metadata doc) ;;
  let page := get_default md "page" (MStr (Py.lit "?")) in
  with_ (st_expander_enter
           (str_of_mval title ++ Py.lit " – p." ++ str_of_mval page))
        st_expander_exit
        (text <- lift (attr_page_content doc) ;;
         emit (st_markdown (VStr (Py.slice_to 900 text ++ Py.lit "…")) false)).

Definition no_sources_message : Py.str := Py.lit "Aucune source retournée.".

(** Lines 142-151. *)
Definition render_sources (result : gmap string pyval) : M unit :=
  with_ (st_column_enter 1) st_column_exit
    (emit (st_markdown (VStr (Py.lit "## 📑 Sources")) false) ;;
     if negb (truthy (dict_get result "source_documents"))
     then emit (st_info no_sources_message)
     else
       docs <- lift (getitem result "source_documents") ;;
       its <- lift (py_iter docs) ;;
       for_each its render_source).

(** Lines 152-154. *)
Definition handler (e : exn) : M unit :=
  emit (st_error (Py.lit "Erreur : " ++ exc_str e)) ;;
  emit (st_code (format_exc E e) None).

(** Lines 132-136: the page's request to the Query Service, built step
    by step. *)
Definition request (inp : inputs) : M (gmap string pyval) :=
  invoke c_load_api_key (load_api_key E (user_api_key inp)) ;;
  llm <- invoke c_OpenAILLM
           (OpenAILLM E (model inp) (temperature inp) (user_api_key inp)) ;;
  retriever <- invoke c_FAISSRetriever
                 (FAISSRetriever E (VECTORSTORE_PATH E)) ;;
  pipeline <- invoke c_RAGPipeline (RAGPipeline E retriever llm) ;;
  invoke c_pipeline_ask (pipeline_ask E pipeline (question inp) (k inp)).

(** Lines 132-151, the body of the [try]. *)
Definition body (inp : inputs) : M unit :=
  result <- request inp ;;
  emit (st_columns [2; 1]%nat) ;;
  with_ (st_column_enter 0) st_column_exit
    (emit (st_success (Py.lit "## 🧠 Réponse")) ;;
     answer <- lift (getitem result "result") ;;
     emit (st_markdown answer true)) ;;
  render_sources result.

(** Lines 129-154. *)
Definition query (inp : inputs) : M unit :=
  if clicked inp && Py.truthy_str (Py.strip (question inp))
  then
    with_ (st_spinner_enter (Py.lit "Analyse en cours …")) st_spinner_exit
          (try_except (body inp) handler)
  else ret tt.

(** Lines 108-154. *)
Definition consultation (inp : inputs) : M unit :=
  if bool_decide (nav inp = Py.lit "Consultation IA")
  then
    emit (st_header (Py.lit "🤖 Consultation juridique assistée par IA")) ;;
    emit (st_write (Py.lit "Posez votre question, l’IA cite les articles de loi marocains pertinents.")) ;;
    with_ (st_expander_enter (Py.lit "Paramètres avancés du modèle"))
          st_expander_exit (ret tt) ;;
    query inp
  else ret tt.

End Script.

End Mo7amAI.

(** ** Predicates on logs *)

(** Scripts all of whose events satisfy a predicate. *)
Definition all_events {A} (Q : event -> Prop) (m : M A) : Prop :=
  forall d, Forall Q (events (m d)).

(** The collaborator calls of a log, in order. *)
Definition calls (log : list event) : list callee :=
  omap (fun ev => match ev with call c => Some c | _ => None end) log.

(** The calls that belong to a request to the Query Service: every
    collaborator but the PDF loader. *)
Definition query_call (c : callee) : bool :=
  match c with
  | c_PyPDFLoader_load => false
  | _ => true
  end.

(** The call that opens a request to the Query Service.  On the RAG
    Assistant page a request is one call of [ask_question] or of
    [run_rag_on_uploaded_docs]; on the consultation page it is the sequence
    of lines 132-136, which opens with [load_api_key] and ends with
    [pipeline.ask]. *)
Definition opens_request (c : callee) : bool :=
  match c with
  | c_ask_question | c_run_rag_on_uploaded_docs | c_load_api_key => true
  | _ => false
  end.

Definition request_count (log : list event) : nat :=
  length (filter (fun c => opens_request c = true) (calls log)).

(** The steps of a request on the consultation page. *)
Definition request_steps : list callee :=
  [c_load_api_key; c_OpenAILLM; c_FAISSRetriever; c_RAGPipeline;
   c_pipeline_ask].

(** [scoped depth log] follows the nesting of the spinners through [log],
    starting [depth] spinners deep: it is [None] when a call of the Query
    Service happens under no spinner (or a spinner is closed that was not
    opened), and otherwise the depth at the end. *)
Fixpoint scoped (depth : nat) (log : list event) : option nat :=
  match log with
  | [] => Some depth
  | st_spinner_enter _ :: r => scoped (S depth) r
  | st_spinner_exit :: r =>
    match depth with
    | O => None
    | S n => scoped n r
    end
  | call c :: r =>
    if query_call c && (depth =? 0)%nat then None else scoped depth r
  | _ :: r => scoped depth r
  end.

Definition is_spinner (ev : event) : bool :=
  match ev with
  | st_spinner_enter _ | st_spinner_exit => true
  | _ => false
  end.

Definition is_query_call (ev : event) : bool :=
  match ev with
  | call c => query_call c
  | _ => false
  end.

Definition is_call (ev : event) : bool :=
  match ev with
  | call _ => true
  | _ => false
  end.

Definition is_info (ev : event) : bool :=
  match ev with
  | st_info _ => true
  | _ => false
  end.

Definition is_code (ev : event) : bool :=
  match ev with
  | st_code _ _ => true
  | _ => false
  end.


(** ** The Query Service behind the RAG Assistant page *)

Module QueryService.

(** Modelled from the spec: the result of a query (spec section 3,
    QueryResult); the engine that builds it, [app/rag_engine.py] and
    [app/rag_temp_engine.py], is not among the sources. *)
Record QueryResult := {
  answer_text : Py.str;
  source_documents : list Document
}.

(** Modelled from the spec: the Query Service of spec section 4.1, whose
    code ([app/rag_engine.py], [app/rag_temp_engine.py]) is not among the
    sources.  A service has an optional default credential, a verdict on
    API keys, a notion of valid question and an upstream (retriever and
    language model) that answers or fails; [upstream] takes the ephemeral
    document set, if any, and fails ([None]) on an upstream failure such
    as a timeout (spec sections 4.1 and 7). *)
Record service := {
  default_credential : option Py.str;
  accepts : Py.str -> bool;
  valid_question : Py.str -> bool;
  upstream :
    option (list Document) -> Py.str -> Py.str -> float -> Z
    -> option QueryResult;
  auth_failure : Py.str;
  upstream_failure : Py.str
}.

(** Modelled from the spec: the credential a request runs under: the
    user's key when one is supplied and valid, else the default (spec
    sections 4.1 and 6). *)
Definition credential (S : service) (api_key : Py.str) : option Py.str :=
  if Py.truthy_str api_key && accepts S api_key
  then Some api_key
  else default_credential S.

(** Modelled from the spec: the dict handed to the page; the key
    [source_documents] is always present (spec section 4.1). *)
Definition to_dict (r : QueryResult) : gmap string pyval :=
  <["result" := VStr (answer_text r)]>
    (<["source_documents" := VDocs (source_documents r)]> ∅).

(** Modelled from the spec: [ask] and [askEphemeral] of spec section 4.1:
    AuthenticationError if the api key is invalid or missing and no
    default is configured, ServiceError for upstream failures, else the
    result. *)
Definition ask_with (S : service) (docs : option (list Document))
    (question model : Py.str) (temperature : float) (k : Z)
    (api_key : Py.str) : result (gmap string pyval) :=
  match credential S api_key with
  | None =>
    Raise {| exc_class := AuthenticationError; exc_str := auth_failure S |}
  | Some _ =>
    match upstream S docs question model temperature k with
    | None =>
      Raise {| exc_class := ServiceError; exc_str := upstream_failure S |}
    | Some r => Ok (to_dict r)
    end
  end.

Definition ask (S : service) := ask_with S None.

Definition ask_ephemeral (S : service) (docs : list Document) :=
  ask_with S (Some docs).

(** The RAG Assistant page's engine, with its two query functions served
    by [S]. *)
Definition serve (S : service) (E : RagAssistant.engine)
  : RagAssistant.engine :=
  {| RagAssistant.ask_question := ask S;
     RagAssistant.run_rag_on_uploaded_docs := ask_ephemeral S;
     RagAssistant.pdf_parse := RagAssistant.pdf_parse E;
     RagAssistant.mkstemp := RagAssistant.mkstemp E;
     RagAssistant.format_exc := RagAssistant.format_exc E |}.

End QueryService.

(** ** Concrete engines and inputs, for running the pages *)

Module Samples.

Definition doc (text : string) (page : Z) : Document :=
  {| page_content := Py.lit text;
     metadata := <["source" := MStr (Py.lit "/tmp/tmpk3x9.pdf")]>
                   (<["page" := MInt page]> ∅) |}.

Definition pdf_error : exn :=
  {| exc_class := OtherException "PdfStreamError";
     exc_str := Py.lit "Stream has ended unexpectedly" |}.

Definition timeout : exn :=
  {| exc_class := ServiceError; exc_str := Py.lit "upstream timed out" |}.

Definition answer : gmap string pyval :=
  <["result" := VStr (Py.lit "Article 12.")]>
    (<["source_documents" := VDocs []]> ∅).

Definition answer_without_sources_key : gmap string pyval :=
  <["result" := VStr (Py.lit "Article 12.")]> ∅.

Definition traceback (e : exn) : Py.str :=
  Py.lit "Traceback (most recent call last):" ++ exc_str e.

(** An engine that answers every query with [answer] and reads two pages
    out of every file. *)
Definition E_ok : RagAssistant.engine :=
  {| RagAssistant.ask_question := fun _ _ _ _ _ => Ok answer;
     RagAssistant.run_rag_on_uploaded_docs := fun _ _ _ _ _ _ => Ok answer;
     RagAssistant.pdf_parse := fun _ _ => Ok [doc "one" 0; doc "two" 1];
     RagAssistant.mkstemp := fun suffix _ => Py.lit "/tmp/tmpk3x9" ++ suffix;
     RagAssistant.format_exc := traceback |}.

(** The same engine with a PDF loader that rejects every file. *)
Definition E_unreadable : RagAssistant.engine :=
  {| RagAssistant.ask_question := fun _ _ _ _ _ => Ok answer;
     RagAssistant.run_rag_on_uploaded_docs := fun _ _ _ _ _ _ => Ok answer;
     RagAssistant.pdf_parse := fun _ _ => Raise pdf_error;
     RagAssistant.mkstemp := fun suffix _ => Py.lit "/tmp/tmpk3x9" ++ suffix;
     RagAssistant.format_exc := traceback |}.

(** The same engine with query functions that fail. *)
Definition E_down : RagAssistant.engine :=
  {| RagAssistant.ask_question := fun _ _ _ _ _ => Raise timeout;
     RagAssistant.run_rag_on_uploaded_docs := fun _ _ _ _ _ _ => Raise timeout;
     RagAssistant.pdf_parse := fun _ _ => Ok [doc "one" 0; doc "two" 1];
     RagAssistant.mkstemp := fun suffix _ => Py.lit "/tmp/tmpk3x9" ++ suffix;
     RagAssistant.format_exc := traceback |}.

(** The same engine with query functions that leave out the key
    [source_documents]. *)
Definition E_bare : RagAssistant.engine :=
  {| RagAssistant.ask_question := fun _ _ _ _ _ => Ok answer_without_sources_key;
     RagAssistant.run_rag_on_uploaded_docs :=
       fun _ _ _ _ _ _ => Ok answer_without_sources_key;
     RagAssistant.pdf_parse := fun _ _ => Ok [doc "one" 0; doc "two" 1];
     RagAssistant.mkstemp := fun suffix _ => Py.lit "/tmp/tmpk3x9" ++ suffix;
     RagAssistant.format_exc := traceback |}.

Definition contract : UploadedFile :=
  {| uf_name := Py.lit "contrat.pdf"; uf_bytes := [Byte.x25; Byte.x50] |}.

Definition lease : UploadedFile :=
  {| uf_name := Py.lit "bail.PDF"; uf_bytes := [Byte.x25; Byte.x44] |}.

Definition notes : UploadedFile :=
  {| uf_name := Py.lit "notes.txt"; uf_bytes := [Byte.x68; Byte.x69] |}.

(** A run in which the user asks a question on the persistent index. *)
Definition asking : RagAssistant.inputs :=
  {| RagAssistant.model := Py.lit "gpt-4";
     RagAssistant.temperature := 0%float;
     RagAssistant.k := 3;
     RagAssistant.user_api_key := Py.lit "sk-bad";
     RagAssistant.question := Py.lit "Quels délais ?";
     RagAssistant.ask_clicked := true;
     RagAssistant.offered_files := [];
     RagAssistant.tmp_question := [];
     RagAssistant.tmp_clicked := false |}.

(** A run in which the user has uploaded one file and asks nothing yet. *)
Definition uploading : RagAssistant.inputs :=
  {| RagAssistant.model := Py.lit "gpt-4";
     RagAssistant.temperature := 0%float;
     RagAssistant.k := 3;
     RagAssistant.user_api_key := [];
     RagAssistant.question := [];
     RagAssistant.ask_clicked := false;
     RagAssistant.offered_files := [contract];
     RagAssistant.tmp_question := [];
     RagAssistant.tmp_clicked := false |}.

(** A run in which the user has uploaded one file and asks about it. *)
Definition asking_upload : RagAssistant.inputs :=
  {| RagAssistant.model := Py.lit "gpt-4";
     RagAssistant.temperature := 0%float;
     RagAssistant.k := 3;
     RagAssistant.user_api_key := [];
     RagAssistant.question := [];
     RagAssistant.ask_clicked := false;
     RagAssistant.offered_files := [contract];
     RagAssistant.tmp_question := Py.lit "Quels délais ?";
     RagAssistant.tmp_clicked := true |}.

End Samples.

(** ** Vocabulary for the upload *)

(** The PDF loader reads [n] pages out of file [f], wherever its
    temporary copy is stored. *)
Definition has_pages (E : RagAssistant.engine) (f : UploadedFile) (n : nat)
  : Prop :=
  forall path,
    exists pages,
      RagAssistant.pdf_parse E path (uf_bytes f) = Ok pages
      /\ length pages = n.

(** The document carries the name of file [f] as its source. *)
Definition tagged (f : UploadedFile) (doc : Document) : Prop :=
  metadata doc !! "source" = Some (MStr (uf_name f)).

(** The document is one of the pages the PDF loader read from [f]. *)
Definition parsed_from (E : RagAssistant.engine) (f : UploadedFile)
    (doc : Document) : Prop :=
  exists path pages,
    RagAssistant.pdf_parse E path (uf_bytes f) = Ok pages
    /\ In doc (map (set_source (uf_name f)) pages).

(** The name has the extension of a PDF file, in any letter case. *)
Definition pdf_name (name : Py.str) : bool :=
  endswith (map lower name) (Py.lit ".pdf").

(** ** Vocabulary for the queries *)

Arguments Py.lit : simpl never.

(** Line 65: the condition under which the first button issues a query. *)
Definition persistent_gate (inp : RagAssistant.inputs) : bool :=
  RagAssistant.ask_clicked inp && Py.truthy_str (RagAssistant.question inp).

(** What [ask_question] returns in this run. *)
Definition persistent_answer (E : RagAssistant.engine)
    (inp : RagAssistant.inputs) : result (gmap string pyval) :=
  RagAssistant.ask_question E (RagAssistant.question inp)
    (RagAssistant.model inp) (RagAssistant.temperature inp)
    (RagAssistant.k inp) (RagAssistant.user_api_key inp).

(** Line 141: the condition under which the second button issues a
    query. *)
Definition ephemeral_gate (inp : RagAssistant.inputs) : bool :=
  RagAssistant.tmp_clicked inp
  && Py.truthy_str (RagAssistant.tmp_question inp).

(** What [run_rag_on_uploaded_docs] returns in this run. *)
Definition ephemeral_answer (E : RagAssistant.engine)
    (inp : RagAssistant.inputs) (session_docs : list Document)
  : result (gmap string pyval) :=
  RagAssistant.run_rag_on_uploaded_docs E session_docs
    (RagAssistant.tmp_question inp) (RagAssistant.model inp)
    (RagAssistant.temperature inp) (RagAssistant.k inp)
    (RagAssistant.user_api_key inp).

(** Line 129 of the consultation page. *)
Definition consultation_gate (inp : Mo7amAI.inputs) : bool :=
  Mo7amAI.clicked inp && Py.truthy_str (Py.strip (Mo7amAI.question inp)).

(** An event that is neither a spinner boundary nor a call of the Query
    Service. *)
Definition passive (ev : event) : bool :=
  negb (is_spinner ev) && negb (is_query_call ev).

(** An event that draws something other than a spinner. *)
Definition display (ev : event) : bool :=
  negb (is_spinner ev) && negb (is_call ev).

(** Scripts that leave the spinner depth as they found it and never call
    the Query Service outside a spinner, whatever the depth they start
    from. *)
Definition well_scoped {A} (m : M A) : Prop :=
  forall d n, scoped n (events (m d)) = Some n.

(** Truth value of a list. *)
Definition nonempty {A} (l : list A) : bool :=
  match l with
  | [] => false
  | _ :: _ => true
  end.

(** Engines and inputs for the consultation page. *)
Module ConsultationSamples.

Definition no_index : exn :=
  {| exc_class := OtherException "RuntimeError";
     exc_str := Py.lit "could not open index.faiss" |}.

Definition bad_key : exn :=
  {| exc_class := AuthenticationError;
     exc_str := Py.lit "Incorrect API key provided" |}.

(** An engine whose pipeline answers every question with
    [Samples.answer]. *)
Definition C_ok : Mo7amAI.engine :=
  {| Mo7amAI.llm := unit;
     Mo7amAI.retriever := unit;
     Mo7amAI.pipeline := unit;
     Mo7amAI.load_api_key := fun _ => Ok tt;
     Mo7amAI.OpenAILLM := fun _ _ _ => Ok tt;
     Mo7amAI.FAISSRetriever := fun _ => Ok tt;
     Mo7amAI.RAGPipeline := fun _ _ => Ok tt;
     Mo7amAI.pipeline_ask := fun _ _ _ => Ok Samples.answer;
     Mo7amAI.VECTORSTORE_PATH := Py.lit "vectorstore";
     Mo7amAI.format_exc := Samples.traceback |}.

(** The same engine with a pipeline that leaves out the key
    [source_documents]. *)
Definition C_bare : Mo7amAI.engine :=
  {| Mo7amAI.llm := unit;
     Mo7amAI.retriever := unit;
     Mo7amAI.pipeline := unit;
     Mo7amAI.load_api_key := fun _ => Ok tt;
     Mo7amAI.OpenAILLM := fun _ _ _ => Ok tt;
     Mo7amAI.FAISSRetriever := fun _ => Ok tt;
     Mo7amAI.RAGPipeline := fun _ _ => Ok tt;
     Mo7amAI.pipeline_ask := fun _ _ _ => Ok Samples.answer_without_sources_key;
     Mo7amAI.VECTORSTORE_PATH := Py.lit "vectorstore";
     Mo7amAI.format_exc := Samples.traceback |}.

(** An engine that rejects the API key when the language model is built. *)
Definition C_bad_key : Mo7amAI.engine :=
  {| Mo7amAI.llm := unit;
     Mo7amAI.retriever := unit;
     Mo7amAI.pipeline := unit;
     Mo7amAI.load_api_key := fun _ => Ok tt;
     Mo7amAI.OpenAILLM := fun _ _ _ => Raise bad_key;
     Mo7amAI.FAISSRetriever := fun _ => Ok tt;
     Mo7amAI.RAGPipeline := fun _ _ => Ok tt;
     Mo7amAI.pipeline_ask := fun _ _ _ => Ok Samples.answer;
     Mo7amAI.VECTORSTORE_PATH := Py.lit "vectorstore";
     Mo7amAI.format_exc := Samples.traceback |}.

(** A run in which the user asks a question. *)
Definition asking : Mo7amAI.inputs :=
  {| Mo7amAI.nav := Py.lit "Consultation IA";
     Mo7amAI.model := Py.lit "gpt-4";
     Mo7amAI.temperature := 0%float;
     Mo7amAI.k := 3;
     Mo7amAI.user_api_key := Py.lit "sk-bad";
     Mo7amAI.question := Py.lit "Quels délais ?";
     Mo7amAI.clicked := true |}.

(** A run in which the user presses the button on a blank question. *)
Definition asking_blank : Mo7amAI.inputs :=
  {| Mo7amAI.nav := Py.lit "Consultation IA";
     Mo7amAI.model := Py.lit "gpt-4";
     Mo7amAI.temperature := 0%float;
     Mo7amAI.k := 3;
     Mo7amAI.user_api_key := [];
     Mo7amAI.question := Py.lit "   ";
     Mo7amAI.clicked := true |}.

End ConsultationSamples.

(** A run of the first page in which the user presses the first button on
    a blank question. *)
Definition asking_blank : RagAssistant.inputs :=
  {| RagAssistant.model := Py.lit "gpt-4";
     RagAssistant.temperature := 0%float;
     RagAssistant.k := 3;
     RagAssistant.user_api_key := [];
     RagAssistant.question := Py.lit "   ";
     RagAssistant.ask_clicked := true;
     RagAssistant.offered_files := [];
     RagAssistant.tmp_question := [];
     RagAssistant.tmp_clicked := false |}.

(** A Query Service for running the first page: it accepts the key
    "sk-good", takes every non-empty question as valid and answers each
    with the same text and no sources. *)
Module ServiceSamples.

Definition reply : QueryService.QueryResult :=
  {| QueryService.answer_text := Py.lit "Article 12.";
     QueryService.source_documents := [] |}.

Definition service (default : option Py.str) : QueryService.service :=
  {| QueryService.default_credential := default;
     QueryService.accepts := fun key => bool_decide (key = Py.lit "sk-good");
     QueryService.valid_question := Py.truthy_str;
     QueryService.upstream := fun _ _ _ _ _ => Some reply;
     QueryService.auth_failure := Py.lit "Incorrect API key provided";
     QueryService.upstream_failure := Py.lit "upstream timed out" |}.


(** A question asked with the API key field left empty. *)
Definition asking : RagAssistant.inputs :=
  {| RagAssistant.model := Py.lit "gpt-4";
     RagAssistant.temperature := 0%float;
     RagAssistant.k := 3;
     RagAssistant.user_api_key := [];
     RagAssistant.question := Py.lit "Que dit le bail ?";
     RagAssistant.ask_clicked := true;
     RagAssistant.offered_files := [];
     RagAssistant.tmp_question := [];
     RagAssistant.tmp_clicked := false |}.

End ServiceSamples.

(** ** The files that take part in a run *)

(** The offered files whose name has the PDF extension, in the order
    offered. *)
Definition pdf_files (offered : list UploadedFile) : list UploadedFile :=
  List.filter (fun f => pdf_name (uf_name f)) offered.

(** The inputs of a run with [files] offered to the upload widget and
    everything else as in [inp]. *)
Definition with_offered (files : list UploadedFile)
    (inp : RagAssistant.inputs) : RagAssistant.inputs :=
  {| RagAssistant.model := RagAssistant.model inp;
     RagAssistant.temperature := RagAssistant.temperature inp;
     RagAssistant.k := RagAssistant.k inp;
     RagAssistant.user_api_key := RagAssistant.user_api_key inp;
     RagAssistant.question := RagAssistant.question inp;
     RagAssistant.ask_clicked := RagAssistant.ask_clicked inp;
     RagAssistant.offered_files := files;
     RagAssistant.tmp_question := RagAssistant.tmp_question inp;
     RagAssistant.tmp_clicked := RagAssistant.tmp_clicked inp |}.

(** The document carries, as its source, the name of one of the offered
    files with the PDF extension. *)
Definition from_pdf_file (offered : list UploadedFile) (doc : Document)
  : bool :=
  existsb
    (fun f =>
       pdf_name (uf_name f)
       && match metadata doc !! "source" with
          | Some (MStr name) => bool_decide (name = uf_name f)
          | _ => false
          end)
    offered.

Definition refused_document_set : exn :=
  {| exc_class := OtherException "AssertionError";
     exc_str := Py.lit "a document does not come from an offered PDF file" |}.

(** The engine [E] with a check in front of [run_rag_on_uploaded_docs]:
    the query is refused when a document of the set handed over does not
    carry the name of an offered PDF file. *)
Definition checking_documents (offered : list UploadedFile)
    (E : RagAssistant.engine) : RagAssistant.engine :=
  {| RagAssistant.ask_question := RagAssistant.ask_question E;
     RagAssistant.run_rag_on_uploaded_docs :=
       fun docs question model temperature k api_key =>
         if forallb (from_pdf_file offered) docs
         then RagAssistant.run_rag_on_uploaded_docs E docs question model
                temperature k api_key
         else Raise refused_document_set;
     RagAssistant.pdf_parse := RagAssistant.pdf_parse E;
     RagAssistant.mkstemp := RagAssistant.mkstemp E;
     RagAssistant.format_exc := RagAssistant.format_exc E |}.

(** ** Requests that reach the Query Service *)

(** The calls that put a question to the Query Service: [ask_question],
    [run_rag_on_uploaded_docs] and, on the consultation page,
    [pipeline.ask]. *)
Definition puts_question (c : callee) : bool :=
  match c with
  | c_ask_question | c_run_rag_on_uploaded_docs | c_pipeline_ask => true
  | _ => false
  end.

(** How many questions a run put to the Query Service. *)
Definition questions_put (log : list event) : nat :=
  length (List.filter puts_question (calls log)).

(** Lines 132-136 of the consultation page: how many of the five steps of
    a request are called, the last of them being the first that raises,
    or [pipeline.ask]. *)
Definition request_progress (E : Mo7amAI.engine) (inp : Mo7amAI.inputs)
  : nat :=
  match Mo7amAI.load_api_key E (Mo7amAI.user_api_key inp) with
  | Raise _ => 1
  | Ok _ =>
    match Mo7amAI.OpenAILLM E (Mo7amAI.model inp) (Mo7amAI.temperature inp)
            (Mo7amAI.user_api_key inp) with
    | Raise _ => 2
    | Ok llm =>
      match Mo7amAI.FAISSRetriever E (Mo7amAI.VECTORSTORE_PATH E) with
      | Raise _ => 3
      | Ok retriever =>
        match Mo7amAI.RAGPipeline E retriever llm with
        | Raise _ => 4
        | Ok _ => 5
        end
      end
    end
  end.

(** The request gets as far as [pipeline.ask]. *)
Definition pipeline_built (E : Mo7amAI.engine) (inp : Mo7amAI.inputs)
  : bool :=
  (request_progress E inp =? 5)%nat.

(** ** Further vocabulary *)

(** Scripts that end on the disk they started from. *)
Definition keeps_disk {A} (m : M A) : Prop :=
  forall d, final_disk (m d) = d.

(** Scripts that raise nothing but exceptions below [Exception]. *)
Definition raises_exceptions_only {A} (m : M A) : Prop :=
  forall d e, outcome (m d) = Raise e -> is_Exception e = true.

(** What the request of the consultation page returns in this run. *)
Definition consultation_answer (E : Mo7amAI.engine) (inp : Mo7amAI.inputs)
  : result (gmap string pyval) :=
  outcome (Mo7amAI.request E inp ∅).

(** Lines 91-96 of the first page: what is drawn for one source. *)
Definition persistent_excerpt (doc : Document) : Py.str :=
  Py.slice_to 500 (page_content doc) ++ Py.lit "...".

Definition persistent_source_block (doc : Document) : list event :=
  [st_expander_enter
     (Py.lit "📄 "
        ++ str_of_mval
             (get_default (metadata doc) "source"
                (MStr (Py.lit "Document inconnu")))
        ++ Py.lit " (page "
        ++ str_of_mval (get_default (metadata doc) "page" (MStr (Py.lit "?")))
        ++ Py.lit ")");
   st_markdown (VStr (persistent_excerpt doc)) false;
   st_expander_exit].

(** Lines 148-151 of the consultation page: what is drawn for one
    source. *)
Definition consultation_excerpt (doc : Document) : Py.str :=
  Py.slice_to 900 (page_content doc) ++ Py.lit "…".

Definition consultation_source_block (doc : Document) : list event :=
  [st_expander_enter
     (str_of_mval
        (get_default (metadata doc) "source" (MStr (Py.lit "Document")))
        ++ Py.lit " – p."
        ++ str_of_mval (get_default (metadata doc) "page" (MStr (Py.lit "?"))));
   st_markdown (VStr (consultation_excerpt doc)) false;
   st_expander_exit].

(** Line 158 of the first page: the bullet drawn for a source whose
    metadata has the key [source]. *)
Definition uploaded_source_bullet (source : mval) : event :=
  st_markdown (VStr (Py.lit "- `" ++ str_of_mval source ++ Py.lit "`")) false.

(** An engine whose temporary names are fresh by construction. *)
Definition E_fresh : RagAssistant.engine :=
  {| RagAssistant.ask_question := fun _ _ _ _ _ => Ok Samples.answer;
     RagAssistant.run_rag_on_uploaded_docs :=
       fun _ _ _ _ _ _ => Ok Samples.answer;
     RagAssistant.pdf_parse :=
       fun _ content =>
         match content with
         | [ _ ; Byte.x50 ] => Ok [Samples.doc "one" 0; Samples.doc "two" 1]
         | _ => Raise Samples.pdf_error
         end;
     RagAssistant.mkstemp := fun suffix used => fresh used;
     RagAssistant.format_exc := Samples.traceback |}.

(** The bullets the second path draws for documents that all have a
    source. *)
Definition uploaded_bullets (docs : list Document) : list event :=
  map (fun doc =>
         uploaded_source_bullet
           (get_default (metadata doc) "source" (MStr [])))
      docs.

(** A consultation engine whose pipeline returns an empty dict. *)
Definition C_empty : Mo7amAI.engine :=
  {| Mo7amAI.llm := unit;
     Mo7amAI.retriever := unit;
     Mo7amAI.pipeline := unit;
     Mo7amAI.load_api_key := fun _ => Ok tt;
     Mo7amAI.OpenAILLM := fun _ _ _ => Ok tt;
     Mo7amAI.FAISSRetriever := fun _ => Ok tt;
     Mo7amAI.RAGPipeline := fun _ _ => Ok tt;
     Mo7amAI.pipeline_ask := fun _ _ _ => Ok ∅;
     Mo7amAI.VECTORSTORE_PATH := Py.lit "vectorstore";
     Mo7amAI.format_exc := Samples.traceback |}.

(** A document without metadata. *)
Definition bare_doc : Document :=
  {| page_content := Py.lit "texte"; metadata := ∅ |}.

Definition answer_with_sources (docs : list Document) : gmap string pyval :=
  <["result" := VStr (Py.lit "Article 12.")]>
    (<["source_documents" := VDocs docs]> ∅).

(** An engine whose answers cite one document with a source and one
    without. *)
Definition E_sources : RagAssistant.engine :=
  {| RagAssistant.ask_question :=
       fun _ _ _ _ _ =>
         Ok (answer_with_sources [Samples.doc "one" 0; bare_doc]);
     RagAssistant.run_rag_on_uploaded_docs :=
       fun _ _ _ _ _ _ =>
         Ok (answer_with_sources [Samples.doc "one" 0; bare_doc]);
     RagAssistant.pdf_parse :=
       fun _ _ => Ok [Samples.doc "one" 0; Samples.doc "two" 1];
     RagAssistant.mkstemp := fun suffix _ => Py.lit "/tmp/tmpk3x9" ++ suffix;
     RagAssistant.format_exc := Samples.traceback |}.

(** ** Session state of the consultation app (lines 75-80 and 118-125) *)

Module Navigation.

(** The two entries of [st.session_state] the script uses: ["_redirect"],
    written only by [redirect] (a page name), and ["_ex_idx"], written only
    by line 125 (an [int]).  [None] is an absent key. *)
Record session := {
  redirect_target : option Py.str;
  ex_idx : option Z
}.

(** Lines 76-77: [st.session_state["_redirect"] = page_name] *)
Definition redirect (page_name : Py.str) (ss : session) : session :=
  {| redirect_target := Some page_name; ex_idx := ex_idx ss |}.

(** Lines 79-80: [if "_redirect" in st.session_state: nav =
    st.session_state.pop("_redirect")], where [menu] is what the sidebar
    menu returned. *)
Definition resolve_nav (menu : Py.str) (ss : session) : Py.str * session :=
  match redirect_target ss with
  | Some page_name =>
    (page_name, {| redirect_target := None; ex_idx := ex_idx ss |})
  | None => (menu, ss)
  end.

(** Lines 118-122. *)
Definition examples : list Py.str :=
  [Py.lit "Procédure de résiliation d’un bail commercial ?";
   Py.lit "Conditions du redressement judiciaire ?";
   Py.lit "Quels délais de paiement entre commerçants ?"].

Definition index_error : exn :=
  {| exc_class := OtherException "IndexError";
     exc_str := Py.lit "list index out of range" |}.

(** [l[i]] for a list and an [int]: a negative index counts from the
    end. *)
Definition list_getitem {A} (l : list A) (i : Z) : result A :=
  let n := Z.of_nat (length l) in
  let j := if (i <? 0)%Z then (i + n)%Z else i in
  if ((0 <=? j) && (j <? n))%Z
  then match l !! Z.to_nat j with
       | Some x => Ok x
       | None => Raise index_error
       end
  else Raise index_error.

(** Lines 123-125: the hint shown in the empty question field, and the
    counter moved on. *)
Definition rotate_placeholder (ss : session) : result Py.str * session :=
  let idx := default 0%Z (ex_idx ss) in
  match list_getitem examples (idx mod Z.of_nat (length examples)) with
  | Ok placeholder =>
    (Ok placeholder,
     {| redirect_target := redirect_target ss; ex_idx := Some (idx + 1)%Z |})
  | Raise e => (Raise e, ss)
  end.

(** The widget values of one run, with the sidebar menu's selection. *)
Record widgets := {
  menu : Py.str;
  model : Py.str;
  temperature : float;
  k : Z;
  user_api_key : Py.str;
  question : Py.str;
  clicked : bool
}.

Definition inputs_of (nav : Py.str) (w : widgets) : Mo7amAI.inputs :=
  {| Mo7amAI.nav := nav;
     Mo7amAI.model := model w;
     Mo7amAI.temperature := temperature w;
     Mo7amAI.k := k w;
     Mo7amAI.user_api_key := user_api_key w;
     Mo7amAI.question := question w;
     Mo7amAI.clicked := clicked w |}.

(** Lines 79-80 and 108-154 in one run: the page is resolved, and if it
    is the consultation page its section is drawn, the hint being picked
    before the question field. *)
Definition visit (E : Mo7amAI.engine) (w : widgets) (ss : session) (d : disk)
  : (result unit * disk * list event) * session :=
  match resolve_nav (menu w) ss with
  | (nav, ss1) =>
    if bool_decide (nav = Py.lit "Consultation IA")
    then
      match rotate_placeholder ss1 with
      | (Ok _, ss2) => (Mo7amAI.consultation E (inputs_of nav w) d, ss2)
      | (Raise e, ss2) =>
        ((Raise e, d,
          [st_header (Py.lit "🤖 Consultation juridique assistée par IA");
           st_write (Py.lit "Posez votre question, l’IA cite les articles de loi marocains pertinents.");
           st_expander_enter (Py.lit "Paramètres avancés du modèle");
           st_expander_exit]),
         ss2)
      end
    else (Mo7amAI.consultation E (inputs_of nav w) d, ss1)
  end.

(** The hints of [n] consecutive runs of the consultation section. *)
Fixpoint placeholders (n : nat) (ss : session) : list (result Py.str) :=
  match n with
  | O => []
  | S m =>
    match rotate_placeholder ss with
    | (r, ss') => r :: placeholders m ss'
    end
  end.

End Navigation.

(** Widget values of a run of the consultation app with the sidebar menu
    on the home page and nothing typed. *)
Definition idle_on_home : Navigation.widgets :=
  {| Navigation.menu := Py.lit "Accueil";
     Navigation.model := Py.lit "gpt-4";
     Navigation.temperature := 0%float;
     Navigation.k := 3;
     Navigation.user_api_key := [];
     Navigation.question := [];
     Navigation.clicked := false |}.

(** Markdown drawn with [unsafe_allow_html=True]. *)
Definition is_html (ev : event) : bool :=
  match ev with
  | st_markdown _ true => true
  | _ => false
  end.

(** ** What the upload step computes *)

(** What the PDF loader returns for file [f] when the temporary copy gets
    the name picked on disk [d]. *)
Definition parse_at (E : RagAssistant.engine) (d : disk) (f : UploadedFile)
  : result (list Document) :=
  RagAssistant.pdf_parse E
    (RagAssistant.mkstemp E (Py.lit ".pdf") (dom d)) (uf_bytes f).

(** The session document set of [files]: the pages of each file, tagged
    with its name, in the order of the files; the first file that fails
    to load gives its exception to the whole. *)
Fixpoint collected (parse : UploadedFile -> result (list Document))
    (files : list UploadedFile) : result (list Document) :=
  match files with
  | [] => Ok []
  | f :: rest =>
    match parse f with
    | Raise e => Raise e
    | Ok pages =>
      match collected parse rest with
      | Raise e => Raise e
      | Ok docs => Ok (map (set_source (uf_name f)) pages ++ docs)
      end
    end
  end.

(** The files the loader is called on: each file up to and including the
    first that fails to load. *)
Fixpoint attempted (parse : UploadedFile -> result (list Document))
    (files : list UploadedFile) : list UploadedFile :=
  match files with
  | [] => []
  | f :: rest =>
    match parse f with
    | Raise _ => [f]
    | Ok _ => f :: attempted parse rest
    end
  end.

(** * Properties *)

(** ** Python strings *)

Example lit_ascii : Py.lit "pdf" = [112; 100; 102]%N.
Proof. reflexivity. Qed.

Example lit_two_bytes : Py.lit "é" = [233]%N.
Proof. reflexivity. Qed.

Example lit_three_bytes : Py.lit "…" = [8230]%N.
Proof. reflexivity. Qed.

Example lit_four_bytes : Py.lit "🧠" = [129504]%N.
Proof. reflexivity. Qed.

Example str_of_int_12 : Py.str_of_int 12 = Py.lit "12".
Proof. reflexivity. Qed.

Example strip_example : Py.strip (Py.lit "  a b  ") = Py.lit "a b".
Proof. reflexivity. Qed.

(** ** Reasoning about scripts *)

Lemma bind_ok {A B} (m : M A) (k : A -> M B) d a d1 l1 :
  m d = (Ok a, d1, l1) ->
  bind m k d = (outcome (k a d1), final_disk (k a d1), l1 ++ events (k a d1)).
Proof.
  intros H. unfold bind, outcome, final_disk, events. rewrite H.
  destruct (k a d1) as [[r d2] l2]. reflexivity.
Qed.

Lemma bind_raise {A B} (m : M A) (k : A -> M B) d e d1 l1 :
  m d = (Raise e, d1, l1) -> bind m k d = (Raise e, d1, l1).
Proof. intros H. unfold bind. rewrite H. reflexivity. Qed.

(** The log of a sequence is the log of its first part followed by what
    the rest logs, if it runs. *)
Lemma events_bind {A B} (m : M A) (k : A -> M B) d :
  events (bind m k d) =
  events (m d) ++
    match outcome (m d) with
    | Ok a => events (k a (final_disk (m d)))
    | Raise _ => []
    end.
Proof.
  unfold bind, events, outcome, final_disk.
  destruct (m d) as [[[a|e] d1] l1]; simpl.
  - destruct (k a d1) as [[r d2] l2]. reflexivity.
  - symmetry. apply app_nil_r.
Qed.

Lemma events_with {A} (enter exit : event) (body : M A) d :
  events (with_ enter exit body d) = enter :: events (body d) ++ [exit].
Proof.
  unfold with_, events. destruct (body d) as [[r d1] l1]. reflexivity.
Qed.

Lemma outcome_with {A} (enter exit : event) (body : M A) d :
  outcome (with_ enter exit body d) = outcome (body d).
Proof.
  unfold with_, outcome. destruct (body d) as [[r d1] l1]. reflexivity.
Qed.

Lemma events_try_except {A} (body : M A) (handler : exn -> M A) d :
  events (try_except body handler d) =
  events (body d) ++
    match outcome (body d) with
    | Ok _ => []
    | Raise e =>
      if is_Exception e then events (handler e (final_disk (body d))) else []
    end.
Proof.
  unfold try_except, events, outcome, final_disk.
  destruct (body d) as [[[a|e] d1] l1]; simpl.
  - symmetry. apply app_nil_r.
  - destruct (is_Exception e).
    + destruct (handler e d1) as [[r d2] l2]. reflexivity.
    + symmetry. apply app_nil_r.
Qed.

Section AllEvents.

Context (Q : event -> Prop).

Lemma all_events_ret {A} (a : A) : all_events Q (ret a).
Proof. intros d. constructor. Qed.

Lemma all_events_raise {A} (e : exn) : all_events Q (@raise A e).
Proof. intros d. constructor. Qed.

Lemma all_events_lift {A} (r : result A) : all_events Q (lift r).
Proof. intros d. constructor. Qed.

Lemma all_events_emit ev : Q ev -> all_events Q (emit ev).
Proof. intros H d. repeat constructor. exact H. Qed.

Lemma all_events_bind {A B} (m : M A) (k : A -> M B) :
  all_events Q m -> (forall a, all_events Q (k a)) -> all_events Q (bind m k).
Proof.
  intros Hm Hk d. rewrite events_bind. apply Forall_app. split.
  - apply Hm.
  - destruct (outcome (m d)); [apply Hk | constructor].
Qed.

Lemma all_events_with {A} enter exit (body : M A) :
  Q enter -> Q exit -> all_events Q body -> all_events Q (with_ enter exit body).
Proof.
  intros He Hx Hb d. rewrite events_with. constructor; [exact He|].
  apply Forall_app. split; [apply Hb | repeat constructor; exact Hx].
Qed.

Lemma all_events_try_except {A} (body : M A) handler :
  all_events Q body -> (forall e, all_events Q (handler e)) ->
  all_events Q (try_except body handler).
Proof.
  intros Hb Hh d. rewrite events_try_except. apply Forall_app. split.
  - apply Hb.
  - destruct (outcome (body d)) as [a|e]; [constructor|].
    destruct (is_Exception e); [apply Hh | constructor].
Qed.

Lemma all_events_for_each {A} (xs : list A) (body : A -> M unit) :
  (forall x, all_events Q (body x)) -> all_events Q (for_each xs body).
Proof.
  intros Hb. induction xs as [|x r IH]; simpl.
  - apply all_events_ret.
  - apply all_events_bind; [apply Hb | intros _; exact IH].
Qed.

Lemma all_events_invoke {A} c (r : result A) :
  Q (call c) -> all_events Q (invoke c r).
Proof.
  intros H. apply all_events_bind.
  - apply all_events_emit, H.
  - intros _. apply all_events_lift.
Qed.

End AllEvents.

Create HintDb script discriminated.

#[export] Hint Resolve all_events_ret all_events_raise all_events_lift
  all_events_emit all_events_bind all_events_with all_events_try_except
  all_events_for_each all_events_invoke : script.

(** ** [strip] and whitespace *)






(** ** The upload loop *)

(** One turn of the loop: the temporary copy is written, loaded and, when
    loading returns, removed before the next file is taken; when loading
    raises, the loop stops with the copy still on disk. *)
Lemma upload_loop_cons E f rest acc d :
  let p := RagAssistant.mkstemp E (Py.lit ".pdf") (dom d) in
  RagAssistant.upload_loop E (f :: rest) acc d =
  match RagAssistant.pdf_parse E p (uf_bytes f) with
  | Ok ps =>
    match RagAssistant.upload_loop E rest
            (acc ++ map (set_source (uf_name f)) ps) (delete p d) with
    | (r, d', l) => (r, d', call c_PyPDFLoader_load :: l)
    end
  | Raise e => (Raise e, <[p := uf_bytes f]> d, [call c_PyPDFLoader_load])
  end.
Proof.
  intros p. cbn [RagAssistant.upload_loop].
  unfold bind at 1. unfold RagAssistant.NamedTemporaryFile_write at 1.
  fold p. unfold bind at 1. unfold RagAssistant.PyPDFLoader_load at 1.
  rewrite lookup_insert_eq.
  destruct (RagAssistant.pdf_parse E p (uf_bytes f)) as [ps|e]; [|reflexivity].
  unfold bind at 1. unfold RagAssistant.os_remove at 1.
  rewrite lookup_insert_eq, delete_insert_eq.
  destruct (RagAssistant.upload_loop E rest _ (delete p d)) as [[r d'] l].
  reflexivity.
Qed.

Lemma set_source_tagged f doc : tagged f (set_source (uf_name f) doc).
Proof. unfold tagged, set_source. simpl. apply lookup_insert_eq. Qed.

Lemma upload_loop_pages E files counts :
  Forall2 (has_pages E) files counts ->
  forall acc d,
  exists groups,
    outcome (RagAssistant.upload_loop E files acc d) = Ok (acc ++ concat groups)
    /\ Forall2 (fun f g => Forall (tagged f) g) files groups
    /\ Forall2 (fun n g => length g = n) counts groups.
Proof.
  induction 1 as [|f n files counts Hf _ IH]; intros acc d.
  - exists []. simpl. rewrite app_nil_r. repeat split; constructor.
  - rewrite upload_loop_cons.
    destruct (Hf (RagAssistant.mkstemp E (Py.lit ".pdf") (dom d)))
      as (ps & Hps & Hlen).
    rewrite Hps.
    destruct (IH (acc ++ map (set_source (uf_name f)) ps)
                 (delete (RagAssistant.mkstemp E (Py.lit ".pdf") (dom d)) d))
      as (groups & Hout & Htag & Hcount).
    exists (map (set_source (uf_name f)) ps :: groups).
    destruct (RagAssistant.upload_loop E files _ _) as [[r d'] l].
    unfold outcome in *. simpl in *. split; [|split].
    + rewrite Hout, <- app_assoc. reflexivity.
    + constructor; [|exact Htag].
      apply List.Forall_forall. intros doc Hdoc.
      apply in_map_iff in Hdoc as (doc0 & <- & _). apply set_source_tagged.
    + constructor; [|exact Hcount]. rewrite length_map. exact Hlen.
Qed.

Lemma length_concat_groups {A} (counts : list nat) (groups : list (list A)) :
  Forall2 (fun n g => length g = n) counts groups ->
  length (concat groups) = list_sum counts.
Proof.
  induction 1 as [|n g counts groups Hn _ IH]; simpl; [reflexivity|].
  rewrite length_app, Hn, IH. reflexivity.
Qed.

Lemma outcome_upload_step E files d :
  outcome (RagAssistant.upload_step E files d) =
  outcome (RagAssistant.upload_loop E files [] d).
Proof.
  destruct files as [|f rest]; [reflexivity|].
  unfold RagAssistant.upload_step, bind, outcome.
  destruct (RagAssistant.upload_loop E (f :: rest) [] d) as [[[docs|e] d1] l1];
    reflexivity.
Qed.

(** C3.  When the PDF loader reads [n_i] pages out of the i-th uploaded
    file, the upload step returns exactly the sum of the [n_i] documents:
    one group of [n_i] documents per file, in upload order, every document
    of a group carrying the name of its file as source. *)
Theorem upload_yields_one_document_per_page E files counts d :
  Forall2 (has_pages E) files counts ->
  exists docs groups,
    outcome (RagAssistant.upload_step E files d) = Ok docs
    /\ length docs = list_sum counts
    /\ docs = concat groups
    /\ Forall2 (fun f g => Forall (tagged f) g) files groups
    /\ Forall2 (fun n g => length g = n) counts groups.
Proof.
  intros H.
  destruct (upload_loop_pages E files counts H [] d)
    as (groups & Hout & Htag & Hcount).
  exists (concat groups), groups. rewrite outcome_upload_step.
  repeat split; try assumption.
  apply length_concat_groups, Hcount.
Qed.

Lemma upload_yields_one_document_per_page_witness :
  Forall2 (has_pages Samples.E_ok) [Samples.contract; Samples.lease] [2; 2]%nat
  /\ exists docs groups,
       outcome (RagAssistant.upload_step Samples.E_ok
                  [Samples.contract; Samples.lease] ∅) = Ok docs
       /\ length docs = list_sum [2; 2]%nat
       /\ docs = concat groups
       /\ Forall2 (fun f g => Forall (tagged f) g)
            [Samples.contract; Samples.lease] groups
       /\ Forall2 (fun n g => length g = n) [2; 2]%nat groups.
Proof.
  assert (H : Forall2 (has_pages Samples.E_ok)
                [Samples.contract; Samples.lease] [2; 2]%nat).
  { repeat constructor; intros path; eexists; split; reflexivity. }
  split; [exact H|].
  apply (upload_yields_one_document_per_page Samples.E_ok
           [Samples.contract; Samples.lease] [2; 2]%nat ∅ H).
Defined.

Example upload_two_files :
  outcome (RagAssistant.upload_step Samples.E_ok
             [Samples.contract; Samples.lease] ∅)
  = Ok [set_source (Py.lit "contrat.pdf") (Samples.doc "one" 0);
        set_source (Py.lit "contrat.pdf") (Samples.doc "two" 1);
        set_source (Py.lit "bail.PDF") (Samples.doc "one" 0);
        set_source (Py.lit "bail.PDF") (Samples.doc "two" 1)].
Proof. vm_compute. reflexivity. Qed.

(** ** The upload widget *)

Lemma file_uploader_pdf offered f :
  In f (file_uploader ["pdf"] offered) <->
  In f offered /\ pdf_name (uf_name f) = true.
Proof.
  unfold file_uploader. rewrite <- !list_elem_of_In, list_elem_of_filter.
  unfold pdf_name. simpl existsb. rewrite orb_false_r.
  change (Py.lit "." ++ map lower (Py.lit "pdf")) with (Py.lit ".pdf").
  tauto.
Qed.

Lemma upload_loop_origin E files :
  forall acc d docs,
    outcome (RagAssistant.upload_loop E files acc d) = Ok docs ->
    exists extra,
      docs = acc ++ extra
      /\ Forall (fun doc => exists f,
                   In f files /\ tagged f doc /\ parsed_from E f doc) extra.
Proof.
  induction files as [|f rest IH]; intros acc d docs Hout.
  - exists []. simpl in Hout. injection Hout as <-.
    rewrite app_nil_r. split; [reflexivity | constructor].
  - rewrite upload_loop_cons in Hout.
    set (p := RagAssistant.mkstemp E (Py.lit ".pdf") (dom d)) in *.
    destruct (RagAssistant.pdf_parse E p (uf_bytes f)) as [ps|e] eqn:Hps;
      [|discriminate].
    specialize (IH (acc ++ map (set_source (uf_name f)) ps) (delete p d) docs).
    destruct (RagAssistant.upload_loop E rest _ _) as [[r d'] l].
    destruct (IH Hout) as (extra & -> & Hextra).
    exists (map (set_source (uf_name f)) ps ++ extra).
    split; [rewrite app_assoc; reflexivity|].
    apply Forall_app. split.
    + apply List.Forall_forall. intros doc Hdoc. exists f.
      split; [left; reflexivity|]. split.
      * apply in_map_iff in Hdoc as (doc0 & <- & _). apply set_source_tagged.
      * exists p, ps. split; assumption.
    + eapply Forall_impl; [exact Hextra|].
      intros doc (f' & Hin & Htag & Hparsed). exists f'.
      split; [right; exact Hin|]. split; assumption.
Qed.

Lemma file_uploader_pdf_files offered :
  file_uploader ["pdf"] offered = pdf_files offered.
Proof.
  assert (Hkey : forall f,
             existsb (fun ext => endswith (map lower (uf_name f))
                                   (Py.lit "." ++ map lower (Py.lit ext)))
               ["pdf"]
             = pdf_name (uf_name f)).
  { intros f. unfold pdf_name. cbn [existsb]. rewrite orb_false_r.
    reflexivity. }
  unfold file_uploader, pdf_files.
  induction offered as [|f rest IH]; [reflexivity|].
  rewrite filter_cons, IH. cbn [List.filter].
  destruct (decide _) as [H|H]; rewrite Hkey in H;
    destruct (pdf_name (uf_name f)); congruence.
Qed.

Lemma pdf_files_idempotent offered :
  pdf_files (pdf_files offered) = pdf_files offered.
Proof.
  unfold pdf_files. induction offered as [|f rest IH]; [reflexivity|].
  cbn [List.filter]. destruct (pdf_name (uf_name f)) eqn:Hf; [|exact IH].
  cbn [List.filter]. rewrite Hf, IH. reflexivity.
Qed.

(** Sequences that agree wherever the first part can lead are the same
    run. *)
Lemma bind_agree {A B} (m : M A) (k k' : A -> M B) d :
  (forall a d1 l1, m d = (Ok a, d1, l1) -> k a d1 = k' a d1) ->
  bind m k d = bind m k' d.
Proof.
  intros Hk. unfold bind.
  destruct (m d) as [[[a|e] d1] l1]; [|reflexivity].
  rewrite (Hk a d1 l1 eq_refl). reflexivity.
Qed.

Lemma checking_upload_loop offered E files :
  forall acc d,
    RagAssistant.upload_loop (checking_documents offered E) files acc d
    = RagAssistant.upload_loop E files acc d.
Proof.
  induction files as [|f rest IH]; intros acc d; [reflexivity|].
  rewrite !upload_loop_cons.
  change (RagAssistant.mkstemp (checking_documents offered E))
    with (RagAssistant.mkstemp E).
  change (RagAssistant.pdf_parse (checking_documents offered E))
    with (RagAssistant.pdf_parse E).
  destruct (RagAssistant.pdf_parse E _ _) as [ps|e]; [|reflexivity].
  rewrite IH. reflexivity.
Qed.

Lemma checking_upload_step offered E files d :
  RagAssistant.upload_step (checking_documents offered E) files d
  = RagAssistant.upload_step E files d.
Proof.
  destruct files as [|f rest]; [reflexivity|].
  unfold RagAssistant.upload_step, bind.
  rewrite checking_upload_loop. reflexivity.
Qed.

(** A document set whose documents all carry the name of an offered PDF
    file passes the check. *)
Lemma checking_ephemeral_query offered E inp docs d :
  forallb (from_pdf_file offered) docs = true ->
  RagAssistant.ephemeral_query (checking_documents offered E) inp docs d
  = RagAssistant.ephemeral_query E inp docs d.
Proof.
  intros Hdocs.
  unfold RagAssistant.ephemeral_query, RagAssistant.ephemeral_body.
  unfold checking_documents at 1.
  cbn [RagAssistant.run_rag_on_uploaded_docs].
  rewrite Hdocs. reflexivity.
Qed.

Lemma uploaded_documents_from_pdf_files E offered d docs :
  outcome (RagAssistant.upload_step E (file_uploader ["pdf"] offered) d)
    = Ok docs ->
  forallb (from_pdf_file offered) docs = true.
Proof.
  intros Hout. rewrite outcome_upload_step in Hout.
  apply upload_loop_origin in Hout as (extra & -> & Hextra).
  cbn [app]. apply forallb_forall. intros doc Hdoc.
  rewrite List.Forall_forall in Hextra.
  destruct (Hextra doc Hdoc) as (f & Hin & Htag & _).
  apply file_uploader_pdf in Hin as [Hin Hpdf].
  unfold from_pdf_file. apply existsb_exists. exists f.
  split; [exact Hin|]. rewrite Hpdf. unfold tagged in Htag. rewrite Htag.
  cbn [andb]. apply bool_decide_eq_true_2. reflexivity.
Qed.

(** C6.  Only the offered files with the PDF extension take part in a run
    of the page.  First, the run is the same, in outcome, disk and
    everything drawn or called, as the run in which the other files were
    never offered: a refused file is neither written to disk nor loaded
    nor counted.  Second, the session document set holds only documents
    of PDF files: a check put in front of [run_rag_on_uploaded_docs], that
    refuses any set with a document not carrying the name of an offered
    PDF file, changes nothing in any run. *)
Theorem only_pdf_files_reach_the_session E inp d :
  RagAssistant.page E inp d
  = RagAssistant.page E
      (with_offered (pdf_files (RagAssistant.offered_files inp)) inp) d
  /\ RagAssistant.page
       (checking_documents (RagAssistant.offered_files inp) E) inp d
     = RagAssistant.page E inp d.
Proof.
  split.
  - unfold RagAssistant.page.
    cbn [with_offered RagAssistant.offered_files].
    rewrite !file_uploader_pdf_files, pdf_files_idempotent. reflexivity.
  - unfold RagAssistant.page.
    change (RagAssistant.persistent_query
              (checking_documents (RagAssistant.offered_files inp) E) inp)
      with (RagAssistant.persistent_query E inp).
    apply bind_agree. intros [] d1 l1 _.
    apply bind_agree. intros [] d2 l2 _.
    unfold bind at 1 3. rewrite checking_upload_step.
    destruct (RagAssistant.upload_step E _ d2) as [[[docs|e] d3] l3] eqn:Hup;
      [|reflexivity].
    unfold bind. rewrite checking_ephemeral_query; [reflexivity|].
    apply (uploaded_documents_from_pdf_files E _ d2).
    rewrite Hup. reflexivity.
Qed.

(** The check is a real one: it refuses a document read from the text
    file. *)
Example check_refuses_text_file_document :
  forallb (from_pdf_file [Samples.contract; Samples.notes; Samples.lease])
    [set_source (uf_name Samples.notes) (Samples.doc "one" 0)]
  = false
  /\ forallb (from_pdf_file [Samples.contract; Samples.notes; Samples.lease])
       [set_source (uf_name Samples.lease) (Samples.doc "one" 0)]
     = true.
Proof. split; vm_compute; reflexivity. Qed.

Example widget_refuses_text_file :
  file_uploader ["pdf"] [Samples.contract; Samples.notes; Samples.lease]
  = [Samples.contract; Samples.lease].
Proof. vm_compute. reflexivity. Qed.

(** ** Temporary files *)

(** When every file loads and temporary names are fresh, each turn of the
    loop hands the next turn the disk it started from, and the loop ends
    on the disk it started from. *)
Lemma upload_loop_restores_disk E files :
  (forall suffix used, RagAssistant.mkstemp E suffix used ∉ used) ->
  forall acc d docs,
    outcome (RagAssistant.upload_loop E files acc d) = Ok docs ->
    final_disk (RagAssistant.upload_loop E files acc d) = d.
Proof.
  intros Hfresh. induction files as [|f rest IH]; intros acc d docs Hout.
  - reflexivity.
  - rewrite upload_loop_cons in *.
    set (p := RagAssistant.mkstemp E (Py.lit ".pdf") (dom d)) in *.
    destruct (RagAssistant.pdf_parse E p (uf_bytes f)) as [ps|e];
      [|discriminate].
    assert (Hp : delete p d = d).
    { apply delete_id, not_elem_of_dom, Hfresh. }
    rewrite Hp in *.
    specialize (IH (acc ++ map (set_source (uf_name f)) ps) d docs).
    destruct (RagAssistant.upload_loop E rest _ d) as [[r d'] l].
    apply IH, Hout.
Qed.

(** When loading a file raises, the loop stops there and the temporary
    copy of that file is still on disk. *)
Lemma upload_loop_leaves_copy E f rest acc d e :
  RagAssistant.pdf_parse E
    (RagAssistant.mkstemp E (Py.lit ".pdf") (dom d)) (uf_bytes f) = Raise e ->
  outcome (RagAssistant.upload_loop E (f :: rest) acc d) = Raise e
  /\ final_disk (RagAssistant.upload_loop E (f :: rest) acc d)
       !! RagAssistant.mkstemp E (Py.lit ".pdf") (dom d) = Some (uf_bytes f).
Proof.
  intros H. rewrite upload_loop_cons, H. split; [reflexivity|].
  apply lookup_insert_eq.
Qed.

(** C1.  A run of the page in which the user has uploaded one file that
    the PDF loader rejects: the loader's exception ends the run, and the
    temporary copy of the file is still on the disk, which was empty
    before. *)
Theorem temporary_copy_survives_failed_load :
  outcome (RagAssistant.page Samples.E_unreadable Samples.uploading ∅)
    = Raise Samples.pdf_error
  /\ final_disk (RagAssistant.page Samples.E_unreadable Samples.uploading ∅)
     = {[ Py.lit "/tmp/tmpk3x9.pdf" := uf_bytes Samples.contract ]}.
Proof. split; vm_compute; reflexivity. Qed.

Example temporary_copy_removed_after_load :
  final_disk (RagAssistant.page Samples.E_ok Samples.uploading ∅) = ∅.
Proof. vm_compute. reflexivity. Qed.

(** ** The query on the persistent index *)

Lemma persistent_query_off E inp d :
  persistent_gate inp = false ->
  RagAssistant.persistent_query E inp d = (Ok tt, d, []).
Proof.
  unfold persistent_gate, RagAssistant.persistent_query. intros ->.
  reflexivity.
Qed.

Lemma persistent_body_answered E inp d r a :
  persistent_answer E inp = Ok r ->
  r !! "result" = Some a ->
  RagAssistant.persistent_body E inp d =
  (outcome (RagAssistant.render_sources r d),
   final_disk (RagAssistant.render_sources r d),
   [call c_ask_question; st_columns [2; 1]%nat; st_column_enter 0;
    st_success (Py.lit "✅ Réponse :"); st_markdown a false; st_column_exit]
   ++ events (RagAssistant.render_sources r d)).
Proof.
  unfold persistent_answer. intros Hr Ha.
  unfold RagAssistant.persistent_body, invoke, bind, emit, lift, with_, getitem.
  rewrite Hr, Ha. simpl.
  destruct (RagAssistant.render_sources r d) as [[res d'] l]. reflexivity.
Qed.

(** ** Logs: calls and spinner scopes *)

Ltac step_script :=
  match goal with
  | |- all_events _ (ret _) => apply all_events_ret
  | |- all_events _ (raise _) => apply all_events_raise
  | |- all_events _ (lift _) => apply all_events_lift
  | |- all_events _ (emit _) => apply all_events_emit
  | |- all_events _ (invoke _ _) => apply all_events_invoke
  | |- all_events _ (bind _ _) => apply all_events_bind
  | |- all_events _ (with_ _ _ _) => apply all_events_with
  | |- all_events _ (try_except _ _) => apply all_events_try_except
  | |- all_events _ (for_each _ _) => apply all_events_for_each
  | |- all_events _ (if ?b then _ else _) => destruct b
  | |- all_events _ (match ?x with _ => _ end) => destruct x
  | |- forall _, _ => intro
  end.

(** Proves [all_events Q m] for an unfolded script [m], given that [Q]
    holds of the events [m] can emit. *)
Ltac script_events := repeat step_script; auto.

Lemma calls_app l1 l2 : calls (l1 ++ l2) = calls l1 ++ calls l2.
Proof. apply omap_app. Qed.

Lemma calls_no_call l : Forall (fun ev => is_call ev = false) l -> calls l = [].
Proof.
  induction 1 as [|ev l Hev _ IH]; [reflexivity|].
  destruct ev; try discriminate; exact IH.
Qed.

Lemma display_no_call ev : display ev = true -> is_call ev = false.
Proof. destruct ev; cbv; intros H; first [reflexivity | discriminate H]. Qed.

Lemma display_passive ev : display ev = true -> passive ev = true.
Proof. destruct ev; cbv; intros H; first [reflexivity | discriminate H]. Qed.

Lemma all_events_impl {A} (P Q : event -> Prop) (m : M A) :
  (forall ev, P ev -> Q ev) -> all_events P m -> all_events Q m.
Proof. intros H Hm d. eapply Forall_impl; [apply Hm | exact H]. Qed.

Lemma scoped_app l1 l2 n :
  scoped n (l1 ++ l2) =
  match scoped n l1 with
  | Some m => scoped m l2
  | None => None
  end.
Proof.
  revert n. induction l1 as [|ev l1 IH]; intros n; [reflexivity|].
  destruct ev; simpl; try apply IH.
  - destruct n; [reflexivity | apply IH].
  - destruct (query_call c && (n =? 0)%nat); [reflexivity | apply IH].
Qed.

Lemma scoped_passive l n :
  Forall (fun ev => passive ev = true) l -> scoped n l = Some n.
Proof.
  induction 1 as [|ev l Hev _ IH]; [reflexivity|].
  destruct ev; simpl in *; try discriminate; try exact IH.
  unfold passive in Hev. simpl in Hev. destruct (query_call c);
    [discriminate | exact IH].
Qed.

Lemma scoped_under_spinner l n :
  Forall (fun ev => is_spinner ev = false) l -> scoped (S n) l = Some (S n).
Proof.
  induction 1 as [|ev l Hev _ IH]; [reflexivity|].
  destruct ev; simpl in *; try discriminate; try exact IH.
  rewrite andb_false_r. exact IH.
Qed.

Lemma well_scoped_bind {A B} (m : M A) (k : A -> M B) :
  well_scoped m -> (forall a, well_scoped (k a)) -> well_scoped (bind m k).
Proof.
  intros Hm Hk d n. rewrite events_bind, scoped_app, Hm.
  destruct (outcome (m d)); [apply Hk | reflexivity].
Qed.

Lemma well_scoped_passive {A} (m : M A) :
  all_events (fun ev => passive ev = true) m -> well_scoped m.
Proof. intros H d n. apply scoped_passive, H. Qed.

Lemma well_scoped_spinner {A} text (body : M A) :
  all_events (fun ev => is_spinner ev = false) body ->
  well_scoped (with_ (st_spinner_enter text) st_spinner_exit body).
Proof.
  intros H d n. rewrite events_with. simpl.
  rewrite scoped_app, (scoped_under_spinner _ _ (H d)). reflexivity.
Qed.

Lemma events_invoke_bind {A B} c (r : result A) (k : A -> M B) d :
  events (bind (invoke c r) k d) =
  call c :: match r with
            | Ok a => events (k a d)
            | Raise _ => []
            end.
Proof.
  unfold invoke, bind, emit, lift, events. simpl.
  destruct r as [a|e]; [|reflexivity].
  destruct (k a d) as [[res d'] l]. reflexivity.
Qed.

(** *** What the rendering code can emit *)

Section Rendering.

Context (Q : event -> Prop) (HQ : forall ev, display ev = true -> Q ev).

Lemma persistent_render_sources_display r :
  all_events Q (RagAssistant.render_sources r).
Proof.
  unfold RagAssistant.render_sources, RagAssistant.render_source.
  script_events.
Qed.

Lemma persistent_handler_display E e :
  all_events Q (RagAssistant.persistent_handler E e).
Proof. unfold RagAssistant.persistent_handler. script_events. Qed.

Lemma ephemeral_handler_display e :
  all_events Q (RagAssistant.ephemeral_handler e).
Proof. unfold RagAssistant.ephemeral_handler. script_events. Qed.

Lemma consultation_render_sources_display r :
  all_events Q (Mo7amAI.render_sources r).
Proof.
  unfold Mo7amAI.render_sources, Mo7amAI.render_source. script_events.
Qed.

Lemma consultation_handler_display E e : all_events Q (Mo7amAI.handler E e).
Proof. unfold Mo7amAI.handler. script_events. Qed.

End Rendering.

Ltac page_events :=
  repeat
    match goal with
    | |- all_events _ (RagAssistant.render_sources _) =>
      apply persistent_render_sources_display
    | |- all_events _ (RagAssistant.persistent_handler _ _) =>
      apply persistent_handler_display
    | |- all_events _ (RagAssistant.ephemeral_handler _) =>
      apply ephemeral_handler_display
    | |- all_events _ (Mo7amAI.render_sources _) =>
      apply consultation_render_sources_display
    | |- all_events _ (Mo7amAI.handler _ _) =>
      apply consultation_handler_display
    | _ => step_script
    end;
  auto.

Lemma Forall_display_app (l1 l2 : list event) :
  Forall (fun ev => display ev = true) l1 ->
  Forall (fun ev => display ev = true) l2 ->
  Forall (fun ev => display ev = true) (l1 ++ l2).
Proof. intros H1 H2. apply Forall_app. split; assumption. Qed.

(** ** Shape of the log of each query path *)

(** When the first button issues a query, the log is: spinner opened,
    [ask_question] called, things drawn, spinner closed. *)
Lemma persistent_query_events E inp d :
  persistent_gate inp = true ->
  exists drawn,
    events (RagAssistant.persistent_query E inp d) =
      st_spinner_enter (Py.lit "🤖 Le modèle réfléchit...")
        :: call c_ask_question :: drawn ++ [st_spinner_exit]
    /\ Forall (fun ev => display ev = true) drawn.
Proof.
  intros Hgate. unfold RagAssistant.persistent_query.
  unfold persistent_gate in Hgate. rewrite Hgate.
  rewrite events_with, events_try_except.
  unfold RagAssistant.persistent_body at 1.
  rewrite events_invoke_bind.
  match goal with
  | |- exists drawn, _ :: ((_ :: ?A) ++ ?B) ++ _ = _ /\ _ => exists (A ++ B)
  end.
  split; [reflexivity|].
  apply Forall_display_app.
  - destruct (RagAssistant.ask_question E _ _ _ _ _) as [r|e]; [|constructor].
    assert (H : all_events (fun ev => display ev = true)
                  (emit (st_columns [2; 1]%nat) ;;
                   with_ (st_column_enter 0) st_column_exit
                     (emit (st_success (Py.lit "✅ Réponse :")) ;;
                      answer <- lift (getitem r "result") ;;
                      emit (st_markdown answer false)) ;;
                   RagAssistant.render_sources r)).
    { page_events. }
    apply H.
  - destruct (outcome _) as [a|e]; [constructor|].
    destruct (is_Exception e); [|constructor].
    assert (H : all_events (fun ev => display ev = true)
                  (RagAssistant.persistent_handler E e)).
    { page_events. }
    apply H.
Qed.

(** When the second button issues a query, the log is: divider and
    heading, spinner opened, [run_rag_on_uploaded_docs] called, things
    drawn, spinner closed. *)
Lemma ephemeral_query_events E inp doc docs d :
  ephemeral_gate inp = true ->
  exists drawn,
    events (RagAssistant.ephemeral_query E inp (doc :: docs) d) =
      st_divider
        :: st_markdown
             (VStr (Py.lit "## 💬 Pose ta question sur le document uploadé"))
             false
        :: st_spinner_enter (Py.lit "💡 Génération en cours...")
        :: call c_run_rag_on_uploaded_docs :: drawn ++ [st_spinner_exit]
    /\ Forall (fun ev => display ev = true) drawn.
Proof.
  intros Hgate. unfold RagAssistant.ephemeral_query.
  unfold ephemeral_gate in Hgate. rewrite Hgate.
  rewrite !events_bind. cbn [emit events outcome final_disk fst snd app].
  rewrite events_with, events_try_except.
  unfold RagAssistant.ephemeral_body at 1.
  rewrite events_invoke_bind.
  match goal with
  | |- exists drawn, _ :: _ :: _ :: ((_ :: ?A) ++ ?B) ++ _ = _ /\ _ =>
    exists (A ++ B)
  end.
  split; [reflexivity|].
  apply Forall_display_app.
  - destruct (RagAssistant.run_rag_on_uploaded_docs E _ _ _ _ _ _) as [r|e];
      [|constructor].
    assert (H : all_events (fun ev => display ev = true)
                  (emit (st_success (Py.lit "🧠 Réponse :")) ;;
                   answer <- lift (getitem r "result") ;;
                   emit (st_markdown answer false) ;;
                   emit (st_markdown (VStr (Py.lit "📎 **Sources :**")) false) ;;
                   docs <- lift (getitem r "source_documents") ;;
                   its <- lift (py_iter docs) ;;
                   for_each its RagAssistant.render_uploaded_source)).
    { unfold RagAssistant.render_uploaded_source. page_events. }
    apply H.
  - destruct (outcome _) as [a|e]; [constructor|].
    destruct (is_Exception e); [|constructor].
    assert (H : all_events (fun ev => display ev = true)
                  (RagAssistant.ephemeral_handler e)).
    { page_events. }
    apply H.
Qed.

Lemma ephemeral_query_off E inp docs d :
  ephemeral_gate inp = false ->
  Forall (fun ev => display ev = true)
    (events (RagAssistant.ephemeral_query E inp docs d)).
Proof.
  intros Hgate. unfold RagAssistant.ephemeral_query.
  unfold ephemeral_gate in Hgate. rewrite Hgate.
  destruct docs; [constructor|].
  assert (H : all_events (fun ev => display ev = true)
                (emit st_divider ;;
                 emit (st_markdown
                         (VStr (Py.lit "## 💬 Pose ta question sur le document uploadé"))
                         false) ;;
                 @ret unit tt)).
  { page_events. }
  apply H.
Qed.

Lemma events_invoke {A} c (r : result A) d : events (invoke c r d) = [call c].
Proof. unfold invoke, bind, emit, lift, events. destruct r; reflexivity. Qed.

Lemma request_progress_bounds E inp :
  (1 <= request_progress E inp <= 5)%nat.
Proof.
  unfold request_progress.
  destruct (Mo7amAI.load_api_key E _) as [[]|e]; [|lia].
  destruct (Mo7amAI.OpenAILLM E _ _ _) as [llm|e]; [|lia].
  destruct (Mo7amAI.FAISSRetriever E _) as [retriever|e]; [|lia].
  destruct (Mo7amAI.RAGPipeline E _ _) as [pipeline|e]; lia.
Qed.

(** The request of the consultation page calls its steps in order, each
    once, and stops at the first that raises. *)
Lemma consultation_request_events E inp d :
  events (Mo7amAI.request E inp d)
  = map call (take (request_progress E inp) request_steps).
Proof.
  unfold Mo7amAI.request, request_progress.
  rewrite events_invoke_bind.
  destruct (Mo7amAI.load_api_key E _) as [[]|e]; [|reflexivity].
  rewrite events_invoke_bind.
  destruct (Mo7amAI.OpenAILLM E _ _ _) as [llm|e]; [|reflexivity].
  rewrite events_invoke_bind.
  destruct (Mo7amAI.FAISSRetriever E _) as [retriever|e]; [|reflexivity].
  rewrite events_invoke_bind.
  destruct (Mo7amAI.RAGPipeline E _ _) as [pipeline|e]; [|reflexivity].
  rewrite events_invoke. reflexivity.
Qed.

(** When the button of the consultation page issues a query, the log is:
    spinner opened, the steps of the request, things drawn, spinner
    closed. *)
Lemma consultation_query_events E inp d :
  consultation_gate inp = true ->
  exists drawn,
    events (Mo7amAI.query E inp d) =
      st_spinner_enter (Py.lit "Analyse en cours …")
        :: map call (take (request_progress E inp) request_steps)
           ++ drawn ++ [st_spinner_exit]
    /\ Forall (fun ev => display ev = true) drawn.
Proof.
  intros Hgate. unfold Mo7amAI.query.
  unfold consultation_gate in Hgate. rewrite Hgate.
  rewrite events_with, events_try_except.
  unfold Mo7amAI.body at 1. rewrite events_bind.
  rewrite consultation_request_events.
  match goal with
  | |- exists drawn, _ :: ((_ ++ ?X) ++ ?H) ++ _ = _ /\ _ =>
    exists (X ++ H)
  end.
  split; [rewrite <- !app_assoc; reflexivity|].
  apply Forall_display_app.
  - destruct (outcome (Mo7amAI.request E inp d)) as [r|e]; [|constructor].
    assert (H : all_events (fun ev => display ev = true)
                  (emit (st_columns [2; 1]%nat) ;;
                   with_ (st_column_enter 0) st_column_exit
                     (emit (st_success (Py.lit "## 🧠 Réponse")) ;;
                      answer <- lift (getitem r "result") ;;
                      emit (st_markdown answer true)) ;;
                   Mo7amAI.render_sources r)).
    { page_events. }
    apply H.
  - destruct (outcome (Mo7amAI.body E inp d)) as [a|e]; [constructor|].
    destruct (is_Exception e); [|constructor].
    assert (H : all_events (fun ev => display ev = true) (Mo7amAI.handler E e)).
    { page_events. }
    apply H.
Qed.

Lemma consultation_query_off E inp d :
  consultation_gate inp = false -> Mo7amAI.query E inp d = (Ok tt, d, []).
Proof.
  unfold consultation_gate, Mo7amAI.query. intros ->. reflexivity.
Qed.

(** ** Calls made by each query path *)

Lemma display_no_spinner ev : display ev = true -> is_spinner ev = false.
Proof. destruct ev; cbv; intros H; first [reflexivity | discriminate H]. Qed.

#[local] Hint Resolve display_no_call display_passive display_no_spinner : core.

Lemma calls_display l : Forall (fun ev => display ev = true) l -> calls l = [].
Proof.
  intros H. apply calls_no_call. eapply Forall_impl; [exact H|].
  apply display_no_call.
Qed.

Lemma calls_map_call cs : calls (map call cs) = cs.
Proof. induction cs as [|c cs IH]; [reflexivity|]. simpl. f_equal. exact IH. Qed.

Lemma persistent_query_calls E inp d :
  calls (events (RagAssistant.persistent_query E inp d)) =
  if persistent_gate inp then [c_ask_question] else [].
Proof.
  destruct (persistent_gate inp) eqn:Hgate.
  - destruct (persistent_query_events E inp d Hgate) as (drawn & -> & Hdrawn).
    simpl. rewrite calls_app, (calls_display _ Hdrawn). reflexivity.
  - rewrite persistent_query_off by exact Hgate. reflexivity.
Qed.

Lemma ephemeral_query_calls E inp docs d :
  calls (events (RagAssistant.ephemeral_query E inp docs d)) =
  if nonempty docs && ephemeral_gate inp
  then [c_run_rag_on_uploaded_docs]
  else [].
Proof.
  destruct (ephemeral_gate inp) eqn:Hgate.
  - destruct docs as [|doc docs]; [reflexivity|].
    destruct (ephemeral_query_events E inp doc docs d Hgate)
      as (drawn & -> & Hdrawn).
    simpl. rewrite calls_app, (calls_display _ Hdrawn). reflexivity.
  - rewrite andb_false_r. apply calls_display, ephemeral_query_off, Hgate.
Qed.

Lemma consultation_query_steps E inp d :
  calls (events (Mo7amAI.query E inp d)) =
  if consultation_gate inp
  then take (request_progress E inp) request_steps
  else [].
Proof.
  destruct (consultation_gate inp) eqn:Hgate.
  - destruct (consultation_query_events E inp d Hgate)
      as (drawn & -> & Hdrawn).
    simpl. rewrite !calls_app, calls_map_call, (calls_display _ Hdrawn).
    simpl. apply app_nil_r.
  - rewrite consultation_query_off by exact Hgate. reflexivity.
Qed.


Lemma questions_put_steps n :
  (n <= 5)%nat ->
  length (List.filter puts_question (take n request_steps))
  = if (n =? 5)%nat then 1%nat else 0%nat.
Proof.
  intros Hn.
  destruct n as [|[|[|[|[|[|n]]]]]]; try lia; reflexivity.
Qed.


(** ** Spinner scopes *)

Lemma persistent_query_well_scoped E inp :
  well_scoped (RagAssistant.persistent_query E inp).
Proof.
  unfold RagAssistant.persistent_query.
  destruct (_ && _).
  - apply well_scoped_spinner.
    unfold RagAssistant.persistent_body. page_events.
  - apply well_scoped_passive. page_events.
Qed.

Lemma ephemeral_query_well_scoped E inp docs :
  well_scoped (RagAssistant.ephemeral_query E inp docs).
Proof.
  unfold RagAssistant.ephemeral_query. destruct docs as [|doc docs].
  - apply well_scoped_passive. page_events.
  - apply well_scoped_bind; [apply well_scoped_passive; page_events|].
    intros _.
    apply well_scoped_bind; [apply well_scoped_passive; page_events|].
    intros _. destruct (_ && _).
    + apply well_scoped_spinner.
      unfold RagAssistant.ephemeral_body, RagAssistant.render_uploaded_source.
      page_events.
    + apply well_scoped_passive. page_events.
Qed.

Lemma upload_loop_passive E files :
  forall acc, all_events (fun ev => passive ev = true)
                (RagAssistant.upload_loop E files acc).
Proof.
  induction files as [|f rest IH]; intros acc d.
  - constructor.
  - rewrite upload_loop_cons.
    destruct (RagAssistant.pdf_parse E _ _) as [ps|e].
    + specialize (IH (acc ++ map (set_source (uf_name f)) ps)
                     (delete (RagAssistant.mkstemp E (Py.lit ".pdf") (dom d)) d)).
      destruct (RagAssistant.upload_loop E rest _ _) as [[r d'] l].
      constructor; [reflexivity | exact IH].
    + repeat constructor.
Qed.

Lemma upload_step_passive E files :
  all_events (fun ev => passive ev = true) (RagAssistant.upload_step E files).
Proof.
  unfold RagAssistant.upload_step. destruct files as [|f rest].
  - page_events.
  - apply all_events_bind; [apply upload_loop_passive|]. page_events.
Qed.

Lemma page_well_scoped E inp : well_scoped (RagAssistant.page E inp).
Proof.
  unfold RagAssistant.page.
  apply well_scoped_bind; [apply persistent_query_well_scoped|]. intros _.
  apply well_scoped_bind; [apply well_scoped_passive; page_events|]. intros _.
  apply well_scoped_bind;
    [apply well_scoped_passive, upload_step_passive|]. intros session_docs.
  apply well_scoped_bind; [apply ephemeral_query_well_scoped|]. intros _.
  apply well_scoped_passive. page_events.
Qed.

Lemma consultation_query_well_scoped E inp :
  well_scoped (Mo7amAI.query E inp).
Proof.
  unfold Mo7amAI.query. destruct (_ && _).
  - apply well_scoped_spinner.
    unfold Mo7amAI.body, Mo7amAI.request. page_events.
  - apply well_scoped_passive. page_events.
Qed.

Lemma consultation_well_scoped E inp :
  well_scoped (Mo7amAI.consultation E inp).
Proof.
  unfold Mo7amAI.consultation. destruct (bool_decide _).
  - apply well_scoped_bind; [apply well_scoped_passive; page_events|].
    intros _.
    apply well_scoped_bind; [apply well_scoped_passive; page_events|].
    intros _.
    apply well_scoped_bind; [apply well_scoped_passive; page_events|].
    intros _. apply consultation_query_well_scoped.
  - apply well_scoped_passive. page_events.
Qed.

Lemma in_calls c l : In (call c) l <-> In c (calls l).
Proof.
  induction l as [|ev l IH]; simpl; [reflexivity|].
  destruct ev; simpl; rewrite <- IH; try (split; [intros [H|H]|intros H];
    [discriminate H | exact H | right; exact H]).
  split; (intros [H|H]; [left; congruence | right; exact H]).
Qed.


Lemma request_count_ephemeral E inp docs d :
  request_count (events (RagAssistant.ephemeral_query E inp docs d)) =
  if nonempty docs && ephemeral_gate inp then 1%nat else 0%nat.
Proof.
  unfold request_count. rewrite ephemeral_query_calls.
  destruct (nonempty docs && ephemeral_gate inp); reflexivity.
Qed.


Example bad_key_request_progress :
  request_progress ConsultationSamples.C_bad_key ConsultationSamples.asking
  = 2%nat.
Proof. reflexivity. Qed.

(** A query action that puts no question to the Query Service, against
    C8 as stated.  On the consultation page the user presses the button
    on a question, the spinner opens, and building the language model
    raises on the API key: the steps called are [load_api_key] and
    [OpenAILLM], and [pipeline.ask] is never reached. *)
Lemma consultation_action_without_request :
  consultation_gate ConsultationSamples.asking = true
  /\ calls (events (Mo7amAI.consultation ConsultationSamples.C_bad_key
                      ConsultationSamples.asking ∅))
     = [c_load_api_key; c_OpenAILLM]
  /\ questions_put (events (Mo7amAI.consultation ConsultationSamples.C_bad_key
                              ConsultationSamples.asking ∅))
     = 0%nat
  /\ questions_put (events (Mo7amAI.consultation ConsultationSamples.C_bad_key
                              ConsultationSamples.asking ∅))
     <> 1%nat.
Proof.
  assert (H : calls (events (Mo7amAI.consultation ConsultationSamples.C_bad_key
                               ConsultationSamples.asking ∅))
              = [c_load_api_key; c_OpenAILLM]).
  { vm_compute. reflexivity. }
  split; [vm_compute; reflexivity|]. split; [exact H|].
  unfold questions_put. rewrite H. split; [reflexivity | discriminate].
Qed.

(** C8.  A query action puts at most one question to the Query Service,
    inside a spinner.  On the RAG Assistant page, when a button
    issues a query the only call is the one to [ask_question], resp. to
    [run_rag_on_uploaded_docs], made once; otherwise there is no call.  On
    the consultation page, when the button issues a query the calls are
    the first [request_progress] steps of lines 132-136 in order, each
    once: [pipeline.ask] is called once when the four steps before it
    return, and not at all when one of them raises.  In a whole run of
    either page every call of the Query Service lies between the opening
    and the closing of a spinner, and every spinner opened is closed. *)
Theorem at_most_one_request_per_action_under_spinner :
  (forall E inp d,
     calls (events (RagAssistant.persistent_query E inp d))
       = (if persistent_gate inp then [c_ask_question] else [])
     /\ questions_put (events (RagAssistant.persistent_query E inp d))
          = (if persistent_gate inp then 1%nat else 0%nat))
  /\ (forall E inp docs d,
        calls (events (RagAssistant.ephemeral_query E inp docs d))
          = (if nonempty docs && ephemeral_gate inp
             then [c_run_rag_on_uploaded_docs] else [])
        /\ questions_put (events (RagAssistant.ephemeral_query E inp docs d))
             = (if nonempty docs && ephemeral_gate inp
                then 1%nat else 0%nat))
  /\ (forall E inp d,
        (1 <= request_progress E inp <= 5)%nat
        /\ calls (events (Mo7amAI.query E inp d))
             = (if consultation_gate inp
                then take (request_progress E inp) request_steps else [])
        /\ questions_put (events (Mo7amAI.query E inp d))
             = (if consultation_gate inp && pipeline_built E inp
                then 1%nat else 0%nat))
  /\ (forall E inp d, scoped 0 (events (RagAssistant.page E inp d)) = Some 0%nat)
  /\ (forall E inp d,
        scoped 0 (events (Mo7amAI.consultation E inp d)) = Some 0%nat).
Proof.
  split; [|split; [|split; [|split]]].
  - intros E inp d. unfold questions_put.
    rewrite persistent_query_calls.
    split; [reflexivity | destruct (persistent_gate inp); reflexivity].
  - intros E inp docs d. unfold questions_put.
    rewrite ephemeral_query_calls.
    split; [reflexivity|].
    destruct (nonempty docs && ephemeral_gate inp); reflexivity.
  - intros E inp d. unfold questions_put, pipeline_built.
    rewrite consultation_query_steps.
    pose proof (request_progress_bounds E inp) as Hn.
    split; [exact Hn|]. split; [reflexivity|].
    destruct (consultation_gate inp); [|reflexivity].
    apply questions_put_steps. lia.
  - intros E inp d. apply page_well_scoped.
  - intros E inp d. apply consultation_well_scoped.
Qed.



(** ** What the first query path draws *)

Lemma persistent_render_no_sources r d :
  truthy (dict_get r "source_documents") = false ->
  RagAssistant.render_sources r d =
  (Ok tt, d,
   [st_column_enter 1;
    st_markdown (VStr RagAssistant.sources_heading) false;
    st_info RagAssistant.no_sources_message;
    st_column_exit]).
Proof.
  intros H. unfold RagAssistant.render_sources, with_, bind, emit.
  rewrite H. reflexivity.
Qed.

(** A result without sources: the answer on the left, the "no sources"
    notice on the right, no error. *)
Lemma persistent_query_no_sources E inp d r a :
  persistent_gate inp = true ->
  persistent_answer E inp = Ok r ->
  r !! "result" = Some a ->
  truthy (dict_get r "source_documents") = false ->
  RagAssistant.persistent_query E inp d =
  (Ok tt, d,
   [st_spinner_enter (Py.lit "🤖 Le modèle réfléchit...");
    call c_ask_question;
    st_columns [2; 1]%nat;
    st_column_enter 0;
    st_success (Py.lit "✅ Réponse :");
    st_markdown a false;
    st_column_exit;
    st_column_enter 1;
    st_markdown (VStr RagAssistant.sources_heading) false;
    st_info RagAssistant.no_sources_message;
    st_column_exit;
    st_spinner_exit]).
Proof.
  intros Hgate Hr Ha Hs. unfold RagAssistant.persistent_query.
  unfold persistent_gate in Hgate. rewrite Hgate.
  unfold with_, try_except.
  rewrite (persistent_body_answered E inp d r a Hr Ha).
  rewrite (persistent_render_no_sources r d Hs). reflexivity.
Qed.

(** A failing [ask_question]: the exception is caught, shown as an error
    message and followed by the traceback; nothing is called again. *)
Lemma persistent_query_raise E inp d e :
  persistent_gate inp = true ->
  persistent_answer E inp = Raise e ->
  is_Exception e = true ->
  RagAssistant.persistent_query E inp d =
  (Ok tt, d,
   [st_spinner_enter (Py.lit "🤖 Le modèle réfléchit...");
    call c_ask_question;
    st_error (Py.lit "❌ Une erreur est survenue : " ++ exc_str e);
    st_code (RagAssistant.format_exc E e) (Some (Py.lit "python"));
    st_spinner_exit]).
Proof.
  intros Hgate Hr He. unfold RagAssistant.persistent_query.
  unfold persistent_gate in Hgate. rewrite Hgate.
  unfold persistent_answer in Hr.
  unfold with_, try_except, RagAssistant.persistent_body, invoke, bind, emit,
    lift.
  rewrite Hr. cbn [app]. rewrite He. reflexivity.
Qed.

(** ** What the second query path draws *)

Lemma ephemeral_query_on E inp doc docs d :
  ephemeral_gate inp = true ->
  RagAssistant.ephemeral_query E inp (doc :: docs) d =
  match try_except (RagAssistant.ephemeral_body E inp (doc :: docs))
          RagAssistant.ephemeral_handler d with
  | (r, d', l) =>
    (r, d',
     st_divider
       :: st_markdown
            (VStr (Py.lit "## 💬 Pose ta question sur le document uploadé"))
            false
       :: st_spinner_enter (Py.lit "💡 Génération en cours...")
       :: l ++ [st_spinner_exit])
  end.
Proof.
  intros Hgate. unfold RagAssistant.ephemeral_query.
  unfold ephemeral_gate in Hgate. rewrite Hgate.
  unfold bind at 1. unfold emit at 1. unfold bind at 1. unfold emit at 1.
  unfold with_.
  destruct (try_except _ _ d) as [[r d'] l]. reflexivity.
Qed.

(** A failing [run_rag_on_uploaded_docs]: the exception is caught and
    shown as an error message; no traceback follows. *)
Lemma ephemeral_query_raise E inp doc docs d e :
  ephemeral_gate inp = true ->
  ephemeral_answer E inp (doc :: docs) = Raise e ->
  is_Exception e = true ->
  RagAssistant.ephemeral_query E inp (doc :: docs) d =
  (Ok tt, d,
   [st_divider;
    st_markdown
      (VStr (Py.lit "## 💬 Pose ta question sur le document uploadé")) false;
    st_spinner_enter (Py.lit "💡 Génération en cours...");
    call c_run_rag_on_uploaded_docs;
    st_error (Py.lit "❌ Erreur pendant l'exécution : " ++ exc_str e);
    st_spinner_exit]).
Proof.
  intros Hgate Hr He. rewrite ephemeral_query_on by exact Hgate.
  unfold ephemeral_answer in Hr.
  unfold try_except, RagAssistant.ephemeral_body, invoke, bind, emit, lift.
  rewrite Hr. cbn [app]. rewrite He. reflexivity.
Qed.

Lemma ephemeral_body_answered E inp docs d r a :
  ephemeral_answer E inp docs = Ok r ->
  r !! "result" = Some a ->
  RagAssistant.ephemeral_body E inp docs d =
  match (docs <- lift (getitem r "source_documents") ;;
         its <- lift (py_iter docs) ;;
         for_each its RagAssistant.render_uploaded_source) d with
  | (res, d', l) =>
    (res, d',
     call c_run_rag_on_uploaded_docs
       :: st_success (Py.lit "🧠 Réponse :")
       :: st_markdown a false
       :: st_markdown (VStr (Py.lit "📎 **Sources :**")) false
       :: l)
  end.
Proof.
  unfold ephemeral_answer. intros Hr Ha.
  unfold RagAssistant.ephemeral_body.
  unfold invoke. unfold bind at 1. unfold bind at 1. unfold emit at 1.
  unfold lift at 1. rewrite Hr.
  unfold bind at 1. unfold emit at 1.
  unfold bind at 1. unfold lift at 1. unfold getitem at 1. rewrite Ha.
  unfold bind at 1. unfold emit at 1.
  unfold bind at 1. unfold emit at 1.
  destruct ((docs0 <- lift (getitem r "source_documents") ;;
             its <- lift (py_iter docs0) ;;
             for_each its RagAssistant.render_uploaded_source) d)
    as [[res d'] l].
  reflexivity.
Qed.

(** A result with an empty list of sources: the answer and the heading of
    the sources, then nothing. *)
Lemma ephemeral_query_empty_sources E inp doc docs d r a :
  ephemeral_gate inp = true ->
  ephemeral_answer E inp (doc :: docs) = Ok r ->
  r !! "result" = Some a ->
  r !! "source_documents" = Some (VDocs []) ->
  RagAssistant.ephemeral_query E inp (doc :: docs) d =
  (Ok tt, d,
   [st_divider;
    st_markdown
      (VStr (Py.lit "## 💬 Pose ta question sur le document uploadé")) false;
    st_spinner_enter (Py.lit "💡 Génération en cours...");
    call c_run_rag_on_uploaded_docs;
    st_success (Py.lit "🧠 Réponse :");
    st_markdown a false;
    st_markdown (VStr (Py.lit "📎 **Sources :**")) false;
    st_spinner_exit]).
Proof.
  intros Hgate Hr Ha Hs. rewrite ephemeral_query_on by exact Hgate.
  unfold try_except.
  rewrite (ephemeral_body_answered E inp (doc :: docs) d r a Hr Ha).
  unfold bind, lift, getitem. rewrite Hs. reflexivity.
Qed.

(** A result without the key [source_documents]: the lookup raises
    [KeyError] after the answer is drawn, and the handler shows it. *)
Lemma ephemeral_query_missing_key E inp doc docs d r a :
  ephemeral_gate inp = true ->
  ephemeral_answer E inp (doc :: docs) = Ok r ->
  r !! "result" = Some a ->
  r !! "source_documents" = None ->
  outcome (RagAssistant.ephemeral_body E inp (doc :: docs) d)
    = Raise (key_error "source_documents")
  /\ RagAssistant.ephemeral_query E inp (doc :: docs) d =
     (Ok tt, d,
      [st_divider;
       st_markdown
         (VStr (Py.lit "## 💬 Pose ta question sur le document uploadé"))
         false;
       st_spinner_enter (Py.lit "💡 Génération en cours...");
       call c_run_rag_on_uploaded_docs;
       st_success (Py.lit "🧠 Réponse :");
       st_markdown a false;
       st_markdown (VStr (Py.lit "📎 **Sources :**")) false;
       st_error (Py.lit "❌ Erreur pendant l'exécution : "
                   ++ Py.repr_key "source_documents");
       st_spinner_exit]).
Proof.
  intros Hgate Hr Ha Hs. split.
  - rewrite (ephemeral_body_answered E inp (doc :: docs) d r a Hr Ha).
    unfold bind, lift, getitem. rewrite Hs. reflexivity.
  - rewrite ephemeral_query_on by exact Hgate.
    unfold try_except.
    rewrite (ephemeral_body_answered E inp (doc :: docs) d r a Hr Ha).
    unfold bind, lift, getitem. rewrite Hs. reflexivity.
Qed.

(** The second path never draws an [st.info] box and never draws a code
    block, whatever the engine does. *)
Lemma ephemeral_query_never_info E inp docs :
  all_events (fun ev => is_info ev = false)
    (RagAssistant.ephemeral_query E inp docs).
Proof.
  unfold RagAssistant.ephemeral_query, RagAssistant.ephemeral_body,
    RagAssistant.render_uploaded_source, RagAssistant.ephemeral_handler.
  script_events.
Qed.

Lemma ephemeral_query_never_code E inp docs :
  all_events (fun ev => is_code ev = false)
    (RagAssistant.ephemeral_query E inp docs).
Proof.
  unfold RagAssistant.ephemeral_query, RagAssistant.ephemeral_body,
    RagAssistant.render_uploaded_source, RagAssistant.ephemeral_handler.
  script_events.
Qed.

(** ** What the consultation page draws *)

Lemma consultation_request_ok E inp d r :
  outcome (Mo7amAI.request E inp d) = Ok r ->
  Mo7amAI.request E inp d = (Ok r, d, map call request_steps).
Proof.
  unfold Mo7amAI.request, invoke, bind, emit, lift, outcome.
  destruct (Mo7amAI.load_api_key E _) as [[]|e1]; [|discriminate].
  destruct (Mo7amAI.OpenAILLM E _ _ _) as [llm|e2]; [|discriminate].
  destruct (Mo7amAI.FAISSRetriever E _) as [retriever|e3]; [|discriminate].
  destruct (Mo7amAI.RAGPipeline E _ _) as [pipeline|e4]; [|discriminate].
  destruct (Mo7amAI.pipeline_ask E _ _ _) as [r'|e5]; [|discriminate].
  simpl. intros H. injection H as ->. reflexivity.
Qed.

Lemma consultation_request_raise E inp d e :
  outcome (Mo7amAI.request E inp d) = Raise e ->
  exists n,
    (1 <= n <= 5)%nat
    /\ Mo7amAI.request E inp d = (Raise e, d, map call (take n request_steps)).
Proof.
  unfold Mo7amAI.request, invoke, bind, emit, lift, outcome.
  destruct (Mo7amAI.load_api_key E _) as [[]|e1];
    [|simpl; intros H; injection H as ->; exists 1%nat; split;
      [lia | reflexivity]].
  destruct (Mo7amAI.OpenAILLM E _ _ _) as [llm|e2];
    [|simpl; intros H; injection H as ->; exists 2%nat; split;
      [lia | reflexivity]].
  destruct (Mo7amAI.FAISSRetriever E _) as [retriever|e3];
    [|simpl; intros H; injection H as ->; exists 3%nat; split;
      [lia | reflexivity]].
  destruct (Mo7amAI.RAGPipeline E _ _) as [pipeline|e4];
    [|simpl; intros H; injection H as ->; exists 4%nat; split;
      [lia | reflexivity]].
  destruct (Mo7amAI.pipeline_ask E _ _ _) as [r'|e5]; [discriminate|].
  simpl. intros H. injection H as ->. exists 5%nat. split; [lia | reflexivity].
Qed.

Lemma consultation_render_no_sources r d :
  truthy (dict_get r "source_documents") = false ->
  Mo7amAI.render_sources r d =
  (Ok tt, d,
   [st_column_enter 1;
    st_markdown (VStr (Py.lit "## 📑 Sources")) false;
    st_info Mo7amAI.no_sources_message;
    st_column_exit]).
Proof.
  intros H. unfold Mo7amAI.render_sources, with_, bind, emit.
  rewrite H. reflexivity.
Qed.

(** A result without sources: the answer on the left, the "no sources"
    notice on the right, no error. *)
Lemma consultation_query_no_sources E inp d r a :
  consultation_gate inp = true ->
  outcome (Mo7amAI.request E inp d) = Ok r ->
  r !! "result" = Some a ->
  truthy (dict_get r "source_documents") = false ->
  Mo7amAI.query E inp d =
  (Ok tt, d,
   st_spinner_enter (Py.lit "Analyse en cours …")
     :: map call request_steps
     ++ [st_columns [2; 1]%nat;
         st_column_enter 0;
         st_success (Py.lit "## 🧠 Réponse");
         st_markdown a true;
         st_column_exit;
         st_column_enter 1;
         st_markdown (VStr (Py.lit "## 📑 Sources")) false;
         st_info Mo7amAI.no_sources_message;
         st_column_exit;
         st_spinner_exit]).
Proof.
  intros Hgate Hr Ha Hs. unfold Mo7amAI.query.
  unfold consultation_gate in Hgate. rewrite Hgate.
  unfold with_, try_except, Mo7amAI.body.
  unfold bind at 1. rewrite (consultation_request_ok E inp d r Hr).
  unfold bind at 1. unfold emit at 1.
  unfold bind at 1. unfold with_ at 1.
  unfold bind at 1. unfold emit at 1.
  unfold bind at 1. unfold lift at 1. unfold getitem at 1. rewrite Ha.
  unfold emit at 1.
  rewrite (consultation_render_no_sources r d Hs). reflexivity.
Qed.

(** A failing request: the exception is caught, shown as an error message
    and followed by the traceback; no step is run again. *)
Lemma consultation_query_raise E inp d e :
  consultation_gate inp = true ->
  outcome (Mo7amAI.request E inp d) = Raise e ->
  is_Exception e = true ->
  exists n,
    (1 <= n <= 5)%nat
    /\ Mo7amAI.query E inp d =
       (Ok tt, d,
        st_spinner_enter (Py.lit "Analyse en cours …")
          :: map call (take n request_steps)
          ++ [st_error (Py.lit "Erreur : " ++ exc_str e);
              st_code (Mo7amAI.format_exc E e) None;
              st_spinner_exit]).
Proof.
  intros Hgate Hr He.
  destruct (consultation_request_raise E inp d e Hr) as (n & Hn & Hreq).
  exists n. split; [exact Hn|].
  unfold Mo7amAI.query.
  unfold consultation_gate in Hgate. rewrite Hgate.
  unfold with_, try_except, Mo7amAI.body.
  unfold bind at 1. rewrite Hreq. rewrite He.
  unfold Mo7amAI.handler, bind, emit. cbn [app].
  rewrite <- app_assoc. reflexivity.
Qed.

(** ** Empty and missing sources *)

(** C2.  A run of the first page in which the user has uploaded one file
    and asks about it, with an engine whose result has an empty list of
    sources: the run ends normally, the answer and the heading of the
    sources are drawn, and no [st.info] notice is drawn anywhere. *)
Theorem uploaded_document_query_draws_no_notice :
  outcome (RagAssistant.page Samples.E_ok Samples.asking_upload ∅) = Ok tt
  /\ events (RagAssistant.page Samples.E_ok Samples.asking_upload ∅) =
     [st_warning RagAssistant.not_saved_warning;
      call c_PyPDFLoader_load;
      st_success (RagAssistant.pages_loaded_message 2);
      st_divider;
      st_markdown
        (VStr (Py.lit "## 💬 Pose ta question sur le document uploadé")) false;
      st_spinner_enter (Py.lit "💡 Génération en cours...");
      call c_run_rag_on_uploaded_docs;
      st_success (Py.lit "🧠 Réponse :");
      st_markdown (VStr (Py.lit "Article 12.")) false;
      st_markdown (VStr (Py.lit "📎 **Sources :**")) false;
      st_spinner_exit;
      st_markdown (VStr RagAssistant.footer) true]
  /\ existsb is_info
       (events (RagAssistant.page Samples.E_ok Samples.asking_upload ∅))
     = false.
Proof. repeat split; vm_compute; reflexivity. Qed.

(** The same engine asked through the first button does draw the
    notice. *)
Example index_query_draws_notice :
  events (RagAssistant.page Samples.E_ok Samples.asking ∅) =
  [st_spinner_enter (Py.lit "🤖 Le modèle réfléchit...");
   call c_ask_question;
   st_columns [2; 1]%nat;
   st_column_enter 0;
   st_success (Py.lit "✅ Réponse :");
   st_markdown (VStr (Py.lit "Article 12.")) false;
   st_column_exit;
   st_column_enter 1;
   st_markdown (VStr RagAssistant.sources_heading) false;
   st_info RagAssistant.no_sources_message;
   st_column_exit;
   st_spinner_exit;
   st_warning RagAssistant.not_saved_warning;
   st_markdown (VStr RagAssistant.footer) true].
Proof. vm_compute. reflexivity. Qed.

(** C10.  Let a query return a dict that has the answer but no key
    [source_documents].  The first path of the RAG Assistant page draws
    the answer and the "no sources" notice, exactly as for an empty list of
    sources, and so does the consultation page; the second path of the RAG
    Assistant page raises [KeyError] on the lookup, which its handler shows
    as an error. *)
Theorem missing_sources_key r a :
  r !! "result" = Some a ->
  r !! "source_documents" = None ->
  (forall E inp d,
     persistent_gate inp = true ->
     persistent_answer E inp = Ok r ->
     RagAssistant.render_sources r d
       = RagAssistant.render_sources (<["source_documents" := VDocs []]> r) d
     /\ RagAssistant.persistent_query E inp d =
        (Ok tt, d,
         [st_spinner_enter (Py.lit "🤖 Le modèle réfléchit...");
          call c_ask_question;
          st_columns [2; 1]%nat;
          st_column_enter 0;
          st_success (Py.lit "✅ Réponse :");
          st_markdown a false;
          st_column_exit;
          st_column_enter 1;
          st_markdown (VStr RagAssistant.sources_heading) false;
          st_info RagAssistant.no_sources_message;
          st_column_exit;
          st_spinner_exit]))
  /\ (forall E inp doc docs d,
        ephemeral_gate inp = true ->
        ephemeral_answer E inp (doc :: docs) = Ok r ->
        outcome (RagAssistant.ephemeral_body E inp (doc :: docs) d)
          = Raise (key_error "source_documents")
        /\ RagAssistant.ephemeral_query E inp (doc :: docs) d =
           (Ok tt, d,
            [st_divider;
             st_markdown
               (VStr (Py.lit "## 💬 Pose ta question sur le document uploadé"))
               false;
             st_spinner_enter (Py.lit "💡 Génération en cours...");
             call c_run_rag_on_uploaded_docs;
             st_success (Py.lit "🧠 Réponse :");
             st_markdown a false;
             st_markdown (VStr (Py.lit "📎 **Sources :**")) false;
             st_error (Py.lit "❌ Erreur pendant l'exécution : "
                         ++ Py.repr_key "source_documents");
             st_spinner_exit]))
  /\ (forall E inp d,
        consultation_gate inp = true ->
        outcome (Mo7amAI.request E inp d) = Ok r ->
        Mo7amAI.query E inp d =
        (Ok tt, d,
         st_spinner_enter (Py.lit "Analyse en cours …")
           :: map call request_steps
           ++ [st_columns [2; 1]%nat;
               st_column_enter 0;
               st_success (Py.lit "## 🧠 Réponse");
               st_markdown a true;
               st_column_exit;
               st_column_enter 1;
               st_markdown (VStr (Py.lit "## 📑 Sources")) false;
               st_info Mo7amAI.no_sources_message;
               st_column_exit;
               st_spinner_exit])).
Proof.
  intros Ha Hs.
  assert (Hfalse : truthy (dict_get r "source_documents") = false).
  { unfold dict_get. rewrite Hs. reflexivity. }
  split; [|split].
  - intros E inp d Hgate Hr. split.
    + rewrite (persistent_render_no_sources r d Hfalse).
      symmetry. apply persistent_render_no_sources.
      unfold dict_get. rewrite lookup_insert_eq. reflexivity.
    + apply (persistent_query_no_sources E inp d r a); assumption.
  - intros E inp doc docs d Hgate Hr.
    apply (ephemeral_query_missing_key E inp doc docs d r a); assumption.
  - intros E inp d Hgate Hr.
    apply (consultation_query_no_sources E inp d r a); assumption.
Qed.

Lemma missing_sources_key_witness :
  Samples.answer_without_sources_key !! "result"
    = Some (VStr (Py.lit "Article 12."))
  /\ Samples.answer_without_sources_key !! "source_documents" = None
  /\ outcome (RagAssistant.ephemeral_body Samples.E_bare Samples.asking_upload
                [Samples.doc "one" 0] ∅)
     = Raise (key_error "source_documents").
Proof.
  assert (Ha : Samples.answer_without_sources_key !! "result"
               = Some (VStr (Py.lit "Article 12."))).
  { vm_compute. reflexivity. }
  assert (Hs : Samples.answer_without_sources_key !! "source_documents"
               = None).
  { vm_compute. reflexivity. }
  split; [exact Ha|]. split; [exact Hs|].
  exact (proj1
           (proj1 (proj2
                     (missing_sources_key Samples.answer_without_sources_key
                        (VStr (Py.lit "Article 12.")) Ha Hs))
              Samples.E_bare Samples.asking_upload (Samples.doc "one" 0) [] ∅
              eq_refl eq_refl)).
Defined.

(** ** Failures of the Query Service *)

(** C4.  A run of the first page in which the user has uploaded one file
    and asks about it, with an engine whose query function raises: the
    exception is caught and shown as an error message, the run ends
    normally and the query function is called once, but no traceback is
    drawn: the log has no [st.code] event. *)
Theorem uploaded_document_query_failure_has_no_trace :
  outcome (RagAssistant.page Samples.E_down Samples.asking_upload ∅) = Ok tt
  /\ events (RagAssistant.page Samples.E_down Samples.asking_upload ∅) =
     [st_warning RagAssistant.not_saved_warning;
      call c_PyPDFLoader_load;
      st_success (RagAssistant.pages_loaded_message 2);
      st_divider;
      st_markdown
        (VStr (Py.lit "## 💬 Pose ta question sur le document uploadé")) false;
      st_spinner_enter (Py.lit "💡 Génération en cours...");
      call c_run_rag_on_uploaded_docs;
      st_error (Py.lit "❌ Erreur pendant l'exécution : "
                  ++ Py.lit "upstream timed out");
      st_spinner_exit;
      st_markdown (VStr RagAssistant.footer) true]
  /\ existsb is_code
       (events (RagAssistant.page Samples.E_down Samples.asking_upload ∅))
     = false.
Proof. repeat split; vm_compute; reflexivity. Qed.

(** The same failure behind the first button is shown with its
    traceback. *)
Example index_query_failure_has_trace :
  events (RagAssistant.page Samples.E_down Samples.asking ∅) =
  [st_spinner_enter (Py.lit "🤖 Le modèle réfléchit...");
   call c_ask_question;
   st_error (Py.lit "❌ Une erreur est survenue : "
               ++ Py.lit "upstream timed out");
   st_code (Samples.traceback Samples.timeout) (Some (Py.lit "python"));
   st_spinner_exit;
   st_warning RagAssistant.not_saved_warning;
   st_markdown (VStr RagAssistant.footer) true].
Proof. vm_compute. reflexivity. Qed.

Lemma authentication_error_is_exception e :
  exc_class e = AuthenticationError -> is_Exception e = true.
Proof. unfold is_Exception. intros ->. reflexivity. Qed.

Lemma credential_missing S key :
  QueryService.default_credential S = None ->
  Py.truthy_str key && QueryService.accepts S key = false ->
  QueryService.credential S key = None.
Proof. unfold QueryService.credential. intros Hd ->. exact Hd. Qed.

(** C5.  With a Query Service that has no default credential and a user
    key that is missing or not accepted, a query through either button of
    the RAG Assistant page ends normally and shows the service's
    AuthenticationError as an error message (with the traceback on the
    first path); on the consultation page an AuthenticationError raised by
    the request is shown in the same way. *)
Theorem invalid_api_key_is_reported S E inp :
  QueryService.default_credential S = None ->
  Py.truthy_str (RagAssistant.user_api_key inp)
    && QueryService.accepts S (RagAssistant.user_api_key inp) = false ->
  (forall d,
     persistent_gate inp = true ->
     RagAssistant.persistent_query (QueryService.serve S E) inp d =
     (Ok tt, d,
      [st_spinner_enter (Py.lit "🤖 Le modèle réfléchit...");
       call c_ask_question;
       st_error (Py.lit "❌ Une erreur est survenue : "
                   ++ QueryService.auth_failure S);
       st_code
         (RagAssistant.format_exc E
            {| exc_class := AuthenticationError;
               exc_str := QueryService.auth_failure S |})
         (Some (Py.lit "python"));
       st_spinner_exit]))
  /\ (forall doc docs d,
        ephemeral_gate inp = true ->
        RagAssistant.ephemeral_query (QueryService.serve S E) inp
          (doc :: docs) d =
        (Ok tt, d,
         [st_divider;
          st_markdown
            (VStr (Py.lit "## 💬 Pose ta question sur le document uploadé"))
            false;
          st_spinner_enter (Py.lit "💡 Génération en cours...");
          call c_run_rag_on_uploaded_docs;
          st_error (Py.lit "❌ Erreur pendant l'exécution : "
                      ++ QueryService.auth_failure S);
          st_spinner_exit]))
  /\ (forall C inp' d e,
        consultation_gate inp' = true ->
        outcome (Mo7amAI.request C inp' d) = Raise e ->
        exc_class e = AuthenticationError ->
        outcome (Mo7amAI.query C inp' d) = Ok tt
        /\ In (st_error (Py.lit "Erreur : " ++ exc_str e))
              (events (Mo7amAI.query C inp' d))).
Proof.
  intros Hd Hkey.
  pose proof (credential_missing S _ Hd Hkey) as Hcred.
  split; [|split].
  - intros d Hgate.
    apply (persistent_query_raise (QueryService.serve S E) inp d
             {| exc_class := AuthenticationError;
                exc_str := QueryService.auth_failure S |});
      [exact Hgate | | reflexivity].
    unfold persistent_answer, QueryService.serve, QueryService.ask,
      QueryService.ask_with. simpl. rewrite Hcred. reflexivity.
  - intros doc docs d Hgate.
    apply (ephemeral_query_raise (QueryService.serve S E) inp doc docs d
             {| exc_class := AuthenticationError;
                exc_str := QueryService.auth_failure S |});
      [exact Hgate | | reflexivity].
    unfold ephemeral_answer, QueryService.serve, QueryService.ask_ephemeral,
      QueryService.ask_with. simpl. rewrite Hcred. reflexivity.
  - intros C inp' d e Hgate Hr He.
    destruct (consultation_query_raise C inp' d e Hgate Hr
                (authentication_error_is_exception e He))
      as (n & Hn & ->).
    split; [reflexivity|].
    unfold events. simpl. right. apply in_or_app. right. left. reflexivity.
Qed.

Lemma invalid_api_key_is_reported_witness :
  QueryService.default_credential (ServiceSamples.service None) = None
  /\ Py.truthy_str (RagAssistant.user_api_key Samples.asking)
       && QueryService.accepts (ServiceSamples.service None)
            (RagAssistant.user_api_key Samples.asking) = false
  /\ persistent_gate Samples.asking = true
  /\ RagAssistant.persistent_query
       (QueryService.serve (ServiceSamples.service None) Samples.E_ok)
       Samples.asking ∅ =
     (Ok tt, ∅,
      [st_spinner_enter (Py.lit "🤖 Le modèle réfléchit...");
       call c_ask_question;
       st_error (Py.lit "❌ Une erreur est survenue : "
                   ++ QueryService.auth_failure (ServiceSamples.service None));
       st_code
         (RagAssistant.format_exc Samples.E_ok
            {| exc_class := AuthenticationError;
               exc_str :=
                 QueryService.auth_failure (ServiceSamples.service None) |})
         (Some (Py.lit "python"));
       st_spinner_exit]).
Proof.
  assert (Hd : QueryService.default_credential (ServiceSamples.service None)
               = None) by reflexivity.
  assert (Hk : Py.truthy_str (RagAssistant.user_api_key Samples.asking)
               && QueryService.accepts (ServiceSamples.service None)
                    (RagAssistant.user_api_key Samples.asking) = false).
  { vm_compute. reflexivity. }
  assert (Hg : persistent_gate Samples.asking = true).
  { vm_compute. reflexivity. }
  split; [exact Hd|]. split; [exact Hk|]. split; [exact Hg|].
  exact (proj1 (invalid_api_key_is_reported (ServiceSamples.service None)
                  Samples.E_ok Samples.asking Hd Hk) ∅ Hg).
Defined.

(** ** Answers *)

Lemma persistent_render_source_doc i doc d :
  RagAssistant.render_source (i, IDoc doc) d =
  (Ok tt, d,
   [st_expander_enter
      (Py.lit "📄 "
         ++ str_of_mval
              (get_default (metadata doc) "source"
                 (MStr (Py.lit "Document inconnu")))
         ++ Py.lit " (page "
         ++ str_of_mval
              (get_default (metadata doc) "page" (MStr (Py.lit "?")))
         ++ Py.lit ")");
    st_markdown
      (VStr (Py.slice_to 500 (page_content doc) ++ Py.lit "...")) false;
    st_expander_exit]).
Proof. reflexivity. Qed.











(** The answer the sample service gives is the one the page renders. *)
Example sample_answer_is_rendered :
  events
    (RagAssistant.persistent_query
       (QueryService.serve
          (ServiceSamples.service (Some (Py.lit "sk-default"))) Samples.E_ok)
       ServiceSamples.asking ∅)
  = [st_spinner_enter (Py.lit "🤖 Le modèle réfléchit...");
     call c_ask_question;
     st_columns [2; 1]%nat;
     st_column_enter 0;
     st_success (Py.lit "✅ Réponse :");
     st_markdown (VStr (Py.lit "Article 12.")) false;
     st_column_exit;
     st_column_enter 1;
     st_markdown (VStr RagAssistant.sources_heading) false;
     st_info (Py.lit "Aucune source documentaire n'a été retournée.");
     st_column_exit;
     st_spinner_exit].
Proof. vm_compute. reflexivity. Qed.

(** * Further properties of the pages *)

(** ** Scripts and the disk *)

Lemma final_disk_bind {A B} (m : M A) (k : A -> M B) d :
  final_disk (bind m k d) =
  match outcome (m d) with
  | Ok a => final_disk (k a (final_disk (m d)))
  | Raise _ => final_disk (m d)
  end.
Proof.
  unfold bind, final_disk, outcome.
  destruct (m d) as [[[a|e] d1] l1]; simpl; [|reflexivity].
  destruct (k a d1) as [[r d2] l2]. reflexivity.
Qed.

Lemma outcome_bind {A B} (m : M A) (k : A -> M B) d :
  outcome (bind m k d) =
  match outcome (m d) with
  | Ok a => outcome (k a (final_disk (m d)))
  | Raise e => Raise e
  end.
Proof.
  unfold bind, final_disk, outcome.
  destruct (m d) as [[[a|e] d1] l1]; simpl; [|reflexivity].
  destruct (k a d1) as [[r d2] l2]. reflexivity.
Qed.

Lemma keeps_disk_ret {A} (a : A) : keeps_disk (ret a).
Proof. intros d. reflexivity. Qed.

Lemma keeps_disk_emit ev : keeps_disk (emit ev).
Proof. intros d. reflexivity. Qed.

Lemma keeps_disk_lift {A} (r : result A) : keeps_disk (lift r).
Proof. intros d. reflexivity. Qed.

Lemma keeps_disk_bind {A B} (m : M A) (k : A -> M B) :
  keeps_disk m -> (forall a, keeps_disk (k a)) -> keeps_disk (bind m k).
Proof.
  intros Hm Hk d. rewrite final_disk_bind, Hm.
  destruct (outcome (m d)); [apply Hk | reflexivity].
Qed.

Lemma keeps_disk_invoke {A} c (r : result A) : keeps_disk (invoke c r).
Proof.
  apply keeps_disk_bind; [apply keeps_disk_emit | intros _; apply keeps_disk_lift].
Qed.

Lemma keeps_disk_with {A} enter exit (body : M A) :
  keeps_disk body -> keeps_disk (with_ enter exit body).
Proof.
  intros H d. specialize (H d). unfold with_, final_disk in *.
  destruct (body d) as [[r d1] l1]. exact H.
Qed.

Lemma keeps_disk_try_except {A} (body : M A) handler :
  keeps_disk body -> (forall e, keeps_disk (handler e)) ->
  keeps_disk (try_except body handler).
Proof.
  intros Hb Hh d. specialize (Hb d). unfold try_except, final_disk in *.
  destruct (body d) as [[[a|e] d1] l1]; simpl in *; [exact Hb|].
  destruct (is_Exception e); [|exact Hb].
  specialize (Hh e d1). unfold final_disk in Hh.
  destruct (handler e d1) as [[r d2] l2]. simpl in *. congruence.
Qed.

Lemma keeps_disk_for_each {A} (xs : list A) (body : A -> M unit) :
  (forall x, keeps_disk (body x)) -> keeps_disk (for_each xs body).
Proof.
  intros Hb. induction xs as [|x r IH]; simpl.
  - apply keeps_disk_ret.
  - apply keeps_disk_bind; [apply Hb | intros _; exact IH].
Qed.

Ltac step_disk :=
  match goal with
  | |- keeps_disk (ret _) => apply keeps_disk_ret
  | |- keeps_disk (lift _) => apply keeps_disk_lift
  | |- keeps_disk (emit _) => apply keeps_disk_emit
  | |- keeps_disk (invoke _ _) => apply keeps_disk_invoke
  | |- keeps_disk (bind _ _) => apply keeps_disk_bind
  | |- keeps_disk (with_ _ _ _) => apply keeps_disk_with
  | |- keeps_disk (try_except _ _) => apply keeps_disk_try_except
  | |- keeps_disk (for_each _ _) => apply keeps_disk_for_each
  | |- keeps_disk (if ?b then _ else _) => destruct b
  | |- keeps_disk (match ?x with _ => _ end) => destruct x
  | |- forall _, _ => intro
  end.

Lemma persistent_query_keeps_disk E inp :
  keeps_disk (RagAssistant.persistent_query E inp).
Proof.
  unfold RagAssistant.persistent_query, RagAssistant.persistent_body,
    RagAssistant.persistent_handler, RagAssistant.render_sources,
    RagAssistant.render_source.
  repeat step_disk.
Qed.

Lemma ephemeral_query_keeps_disk E inp docs :
  keeps_disk (RagAssistant.ephemeral_query E inp docs).
Proof.
  unfold RagAssistant.ephemeral_query, RagAssistant.ephemeral_body,
    RagAssistant.ephemeral_handler, RagAssistant.render_uploaded_source.
  repeat step_disk.
Qed.

Lemma consultation_keeps_disk E inp :
  keeps_disk (Mo7amAI.consultation E inp).
Proof.
  unfold Mo7amAI.consultation, Mo7amAI.query, Mo7amAI.body, Mo7amAI.request,
    Mo7amAI.handler, Mo7amAI.render_sources, Mo7amAI.render_source.
  repeat step_disk.
Qed.

(** ** Scripts and exceptions *)

Lemma outcome_try_except {A} (body : M A) (handler : exn -> M A) d :
  outcome (try_except body handler d) =
  match outcome (body d) with
  | Ok a => Ok a
  | Raise e =>
    if is_Exception e
    then outcome (handler e (final_disk (body d)))
    else Raise e
  end.
Proof.
  unfold try_except, outcome, final_disk.
  destruct (body d) as [[[a|e] d1] l1]; simpl; [reflexivity|].
  destruct (is_Exception e); [|reflexivity].
  destruct (handler e d1) as [[r d2] l2]. reflexivity.
Qed.

Lemma reo_ret {A} (a : A) : raises_exceptions_only (ret a).
Proof. intros d e H. discriminate H. Qed.

Lemma reo_emit ev : raises_exceptions_only (emit ev).
Proof. intros d e H. discriminate H. Qed.

Lemma reo_lift {A} (r : result A) :
  (forall e, r = Raise e -> is_Exception e = true) ->
  raises_exceptions_only (lift r).
Proof. intros H d e He. apply H. exact He. Qed.

Lemma reo_bind {A B} (m : M A) (k : A -> M B) :
  raises_exceptions_only m -> (forall a, raises_exceptions_only (k a)) ->
  raises_exceptions_only (bind m k).
Proof.
  intros Hm Hk d e. rewrite outcome_bind.
  destruct (outcome (m d)) as [a|e'] eqn:Ho.
  - apply Hk.
  - intros H. injection H as <-. apply (Hm d), Ho.
Qed.

Lemma reo_with {A} enter exit (body : M A) :
  raises_exceptions_only body ->
  raises_exceptions_only (with_ enter exit body).
Proof. intros H d e. rewrite outcome_with. apply H. Qed.

Lemma reo_for_each {A} (xs : list A) (body : A -> M unit) :
  (forall x, raises_exceptions_only (body x)) ->
  raises_exceptions_only (for_each xs body).
Proof.
  intros Hb. induction xs as [|x r IH]; simpl.
  - apply reo_ret.
  - apply reo_bind; [apply Hb | intros _; exact IH].
Qed.

Lemma getitem_raises {V} (m : gmap string V) k e :
  getitem m k = Raise e -> is_Exception e = true.
Proof.
  unfold getitem. destruct (m !! k); [discriminate|].
  intros H. injection H as <-. reflexivity.
Qed.

Lemma py_iter_raises v e : py_iter v = Raise e -> is_Exception e = true.
Proof.
  destruct v; simpl; try discriminate. intros H. injection H as <-.
  reflexivity.
Qed.

Lemma attr_metadata_raises it e :
  attr_metadata it = Raise e -> is_Exception e = true.
Proof.
  destruct it; simpl; [discriminate|]. intros H. injection H as <-.
  reflexivity.
Qed.

Lemma attr_page_content_raises it e :
  attr_page_content it = Raise e -> is_Exception e = true.
Proof.
  destruct it; simpl; [discriminate|]. intros H. injection H as <-.
  reflexivity.
Qed.

Ltac step_raise :=
  match goal with
  | |- raises_exceptions_only (ret _) => apply reo_ret
  | |- raises_exceptions_only (emit _) => apply reo_emit
  | |- raises_exceptions_only (lift (getitem _ _)) =>
    apply reo_lift, getitem_raises
  | |- raises_exceptions_only (lift (py_iter _)) =>
    apply reo_lift, py_iter_raises
  | |- raises_exceptions_only (lift (attr_metadata _)) =>
    apply reo_lift, attr_metadata_raises
  | |- raises_exceptions_only (lift (attr_page_content _)) =>
    apply reo_lift, attr_page_content_raises
  | |- raises_exceptions_only (bind _ _) => apply reo_bind
  | |- raises_exceptions_only (with_ _ _ _) => apply reo_with
  | |- raises_exceptions_only (for_each _ _) => apply reo_for_each
  | |- raises_exceptions_only (if ?b then _ else _) => destruct b
  | |- raises_exceptions_only (match ?x with _ => _ end) => destruct x
  | |- forall _, _ => intro
  end.

Lemma outcome_invoke_bind {A B} c (r : result A) (k : A -> M B) d :
  outcome (bind (invoke c r) k d) =
  match r with
  | Ok a => outcome (k a d)
  | Raise e => Raise e
  end.
Proof.
  unfold invoke, bind, emit, lift, outcome. simpl.
  destruct r as [a|e]; [|reflexivity].
  destruct (k a d) as [[res d'] l]. reflexivity.
Qed.

(** The body of a [try] that starts with a call: it raises what the call
    raises, or an exception below [Exception]. *)
Lemma outcome_guarded_call {A} c (r : result A) (k : A -> M unit) handler d :
  (forall a, raises_exceptions_only (k a)) ->
  (forall e d', outcome (handler e d') = Ok tt) ->
  outcome (try_except (bind (invoke c r) k) handler d) =
  match r with
  | Ok _ => Ok tt
  | Raise e => if is_Exception e then Ok tt else Raise e
  end.
Proof.
  intros Hk Hh. rewrite outcome_try_except, outcome_invoke_bind.
  destruct r as [a|e].
  - destruct (outcome (k a d)) as [[]|e] eqn:Ho; [reflexivity|].
    rewrite (Hk a d e Ho). apply Hh.
  - destruct (is_Exception e); [apply Hh | reflexivity].
Qed.

Lemma persistent_query_outcome E inp d :
  outcome (RagAssistant.persistent_query E inp d) =
  match persistent_answer E inp with
  | Ok _ => Ok tt
  | Raise e =>
    if persistent_gate inp && negb (is_Exception e) then Raise e else Ok tt
  end.
Proof.
  unfold RagAssistant.persistent_query, persistent_gate, persistent_answer.
  destruct (_ && _).
  - rewrite outcome_with. unfold RagAssistant.persistent_body.
    rewrite outcome_guarded_call.
    + destruct (RagAssistant.ask_question E _ _ _ _ _) as [r|e];
        [reflexivity|]. destruct (is_Exception e); reflexivity.
    + intros r. unfold RagAssistant.render_sources,
        RagAssistant.render_source. repeat step_raise.
    + reflexivity.
  - destruct (RagAssistant.ask_question E _ _ _ _ _); reflexivity.
Qed.

Lemma ephemeral_query_outcome E inp docs d :
  outcome (RagAssistant.ephemeral_query E inp docs d) =
  match ephemeral_answer E inp docs with
  | Ok _ => Ok tt
  | Raise e =>
    if nonempty docs && ephemeral_gate inp && negb (is_Exception e)
    then Raise e else Ok tt
  end.
Proof.
  unfold RagAssistant.ephemeral_query, ephemeral_gate, ephemeral_answer.
  destruct docs as [|doc docs].
  - destruct (RagAssistant.run_rag_on_uploaded_docs E _ _ _ _ _ _);
      reflexivity.
  - cbn [nonempty andb]. rewrite !outcome_bind.
    cbn [emit outcome final_disk fst snd].
    destruct (_ && _).
    + rewrite outcome_with. unfold RagAssistant.ephemeral_body.
      rewrite outcome_guarded_call.
      * destruct (RagAssistant.run_rag_on_uploaded_docs E _ _ _ _ _ _)
          as [r|e]; [reflexivity|]. destruct (is_Exception e); reflexivity.
      * intros r. unfold RagAssistant.render_uploaded_source.
        repeat step_raise.
      * reflexivity.
    + destruct (RagAssistant.run_rag_on_uploaded_docs E _ _ _ _ _ _);
        reflexivity.
Qed.

Lemma consultation_request_outcome E inp d :
  outcome (Mo7amAI.request E inp d) = consultation_answer E inp.
Proof.
  unfold consultation_answer, Mo7amAI.request, invoke, bind, emit, lift,
    outcome.
  destruct (Mo7amAI.load_api_key E _) as [[]|e1]; [|reflexivity].
  destruct (Mo7amAI.OpenAILLM E _ _ _) as [llm|e2]; [|reflexivity].
  destruct (Mo7amAI.FAISSRetriever E _) as [retriever|e3]; [|reflexivity].
  destruct (Mo7amAI.RAGPipeline E _ _) as [pipeline|e4]; [|reflexivity].
  destruct (Mo7amAI.pipeline_ask E _ _ _) as [r|e5]; reflexivity.
Qed.

Lemma consultation_query_outcome E inp d :
  outcome (Mo7amAI.query E inp d) =
  match consultation_answer E inp with
  | Ok _ => Ok tt
  | Raise e =>
    if consultation_gate inp && negb (is_Exception e) then Raise e else Ok tt
  end.
Proof.
  unfold Mo7amAI.query, consultation_gate.
  destruct (_ && _).
  - rewrite outcome_with, outcome_try_except. unfold Mo7amAI.body.
    rewrite outcome_bind, consultation_request_outcome.
    destruct (consultation_answer E inp) as [r|e].
    + match goal with
      | |- match outcome (?m ?d') with _ => _ end = _ =>
        assert (Hreo : raises_exceptions_only m)
      end.
      { unfold Mo7amAI.render_sources, Mo7amAI.render_source.
        repeat step_raise. }
      match goal with
      | |- match outcome (?m ?d') with _ => _ end = _ =>
        destruct (outcome (m d')) as [[]|e] eqn:Ho
      end; [reflexivity|].
      rewrite (Hreo _ _ Ho). reflexivity.
    + destruct (is_Exception e); reflexivity.
  - destruct (consultation_answer E inp); reflexivity.
Qed.

(** X2.  A query never aborts its page, except to let through an
    exception that is not below [Exception] and that the engine itself
    raised: whatever the engine returns, and whatever goes wrong while the
    result is drawn (missing keys, values of the wrong type), each query
    path ends normally. *)
Theorem queries_never_abort_the_page :
  (forall E inp d,
     outcome (RagAssistant.persistent_query E inp d) =
     match persistent_answer E inp with
     | Ok _ => Ok tt
     | Raise e =>
       if persistent_gate inp && negb (is_Exception e)
       then Raise e else Ok tt
     end)
  /\ (forall E inp docs d,
        outcome (RagAssistant.ephemeral_query E inp docs d) =
        match ephemeral_answer E inp docs with
        | Ok _ => Ok tt
        | Raise e =>
          if nonempty docs && ephemeral_gate inp && negb (is_Exception e)
          then Raise e else Ok tt
        end)
  /\ (forall E inp d,
        outcome (Mo7amAI.query E inp d) =
        match consultation_answer E inp with
        | Ok _ => Ok tt
        | Raise e =>
          if consultation_gate inp && negb (is_Exception e)
          then Raise e else Ok tt
        end).
Proof.
  split; [|split].
  - apply persistent_query_outcome.
  - apply ephemeral_query_outcome.
  - apply consultation_query_outcome.
Qed.

(** ** The upload step as a whole *)

Lemma final_disk_upload_step E files d :
  final_disk (RagAssistant.upload_step E files d) =
  final_disk (RagAssistant.upload_loop E files [] d).
Proof.
  destruct files as [|f rest]; [reflexivity|].
  unfold RagAssistant.upload_step, bind, final_disk.
  destruct (RagAssistant.upload_loop E (f :: rest) [] d) as [[[docs|e] d1] l1];
    reflexivity.
Qed.

(** X3.  With temporary names that are not in use when they are picked, a
    run of the RAG Assistant page that ends normally leaves the disk
    exactly as it found it: every temporary copy made for the upload has
    been removed. *)
Theorem normal_run_restores_the_disk E inp d :
  (forall suffix used, RagAssistant.mkstemp E suffix used ∉ used) ->
  outcome (RagAssistant.page E inp d) = Ok tt ->
  final_disk (RagAssistant.page E inp d) = d.
Proof.
  intros Hfresh. unfold RagAssistant.page.
  rewrite outcome_bind, final_disk_bind, persistent_query_keeps_disk.
  destruct (outcome (RagAssistant.persistent_query E inp d)) as [[]|e];
    [|discriminate].
  rewrite outcome_bind, final_disk_bind.
  cbn [emit outcome final_disk fst snd].
  rewrite outcome_bind, final_disk_bind.
  rewrite outcome_upload_step, final_disk_upload_step.
  destruct (outcome (RagAssistant.upload_loop E _ [] d)) as [docs|e] eqn:Hup;
    [|discriminate].
  rewrite (upload_loop_restores_disk E _ Hfresh [] d docs Hup).
  rewrite outcome_bind, final_disk_bind, ephemeral_query_keeps_disk.
  destruct (outcome (RagAssistant.ephemeral_query E inp docs d)) as [[]|e];
    [|discriminate].
  reflexivity.
Qed.

Lemma normal_run_restores_the_disk_witness :
  (forall suffix used, RagAssistant.mkstemp E_fresh suffix used ∉ used)
  /\ outcome (RagAssistant.page E_fresh Samples.asking_upload ∅) = Ok tt
  /\ final_disk (RagAssistant.page E_fresh Samples.asking_upload ∅) = ∅.
Proof.
  assert (Hf : forall suffix used,
             RagAssistant.mkstemp E_fresh suffix used ∉ used).
  { intros suffix used. apply is_fresh. }
  assert (Ho : outcome (RagAssistant.page E_fresh Samples.asking_upload ∅)
               = Ok tt).
  { vm_compute. reflexivity. }
  split; [exact Hf|]. split; [exact Ho|].
  exact (normal_run_restores_the_disk E_fresh Samples.asking_upload ∅ Hf Ho).
Defined.

Lemma upload_loop_good_prefix E good :
  (forall suffix used, RagAssistant.mkstemp E suffix used ∉ used) ->
  Forall (fun f => exists n, has_pages E f n) good ->
  forall rest acc d,
  exists acc',
    outcome (RagAssistant.upload_loop E (good ++ rest) acc d)
      = outcome (RagAssistant.upload_loop E rest acc' d)
    /\ final_disk (RagAssistant.upload_loop E (good ++ rest) acc d)
       = final_disk (RagAssistant.upload_loop E rest acc' d)
    /\ events (RagAssistant.upload_loop E (good ++ rest) acc d)
       = repeat (call c_PyPDFLoader_load) (length good)
           ++ events (RagAssistant.upload_loop E rest acc' d).
Proof.
  intros Hfresh. induction 1 as [|f good [n Hf] _ IH]; intros rest acc d.
  - exists acc. repeat split; reflexivity.
  - cbn [app]. rewrite upload_loop_cons.
    set (p := RagAssistant.mkstemp E (Py.lit ".pdf") (dom d)).
    destruct (Hf p) as (ps & Hps & _). rewrite Hps.
    assert (Hp : delete p d = d).
    { apply delete_id, not_elem_of_dom, Hfresh. }
    rewrite Hp.
    destruct (IH rest (acc ++ map (set_source (uf_name f)) ps) d)
      as (acc' & Ho & Hd & He).
    exists acc'.
    destruct (RagAssistant.upload_loop E (good ++ rest) _ d) as [[r d'] l].
    unfold outcome, final_disk, events in *. cbn [fst snd] in *.
    repeat split; try assumption.
    cbn [length repeat app]. f_equal. exact He.
Qed.

(** X4.  The upload loop stops at the first file that fails to load: the
    loader's exception ends the step, the files after it are never
    written or loaded, the loader has been called once for each file up to
    and including the failing one, and (with fresh temporary names) the
    only thing left on disk is the temporary copy of the failing file. *)
Theorem upload_stops_at_first_failure E good bad rest d e :
  (forall suffix used, RagAssistant.mkstemp E suffix used ∉ used) ->
  Forall (fun f => exists n, has_pages E f n) good ->
  (forall path, RagAssistant.pdf_parse E path (uf_bytes bad) = Raise e) ->
  outcome (RagAssistant.upload_step E (good ++ bad :: rest) d) = Raise e
  /\ final_disk (RagAssistant.upload_step E (good ++ bad :: rest) d)
     = <[RagAssistant.mkstemp E (Py.lit ".pdf") (dom d) := uf_bytes bad]> d
  /\ events (RagAssistant.upload_step E (good ++ bad :: rest) d)
     = repeat (call c_PyPDFLoader_load) (length good + 1).
Proof.
  intros Hfresh Hgood Hbad.
  destruct (upload_loop_good_prefix E good Hfresh Hgood (bad :: rest) [] d)
    as (acc' & Ho & Hd & He).
  rewrite upload_loop_cons, Hbad in Ho, Hd, He.
  rewrite outcome_upload_step, final_disk_upload_step.
  split; [exact Ho|]. split; [exact Hd|].
  assert (Hev : events (RagAssistant.upload_step E (good ++ bad :: rest) d)
                = events (RagAssistant.upload_loop E (good ++ bad :: rest) [] d)).
  { destruct (good ++ bad :: rest) as [|f fs] eqn:Hfs.
    - destruct good; discriminate Hfs.
    - unfold RagAssistant.upload_step, bind, events, outcome in *.
      destruct (RagAssistant.upload_loop E (f :: fs) [] d)
        as [[[docs|e'] d1] l1]; [discriminate Ho | reflexivity]. }
  rewrite Hev, He. unfold events. cbn [snd].
  rewrite repeat_app. reflexivity.
Qed.

Lemma upload_stops_at_first_failure_witness :
  (forall suffix used, RagAssistant.mkstemp E_fresh suffix used ∉ used)
  /\ Forall (fun f => exists n, has_pages E_fresh f n) [Samples.contract]
  /\ (forall path,
        RagAssistant.pdf_parse E_fresh path (uf_bytes Samples.lease)
        = Raise Samples.pdf_error)
  /\ outcome (RagAssistant.upload_step E_fresh
                ([Samples.contract] ++ Samples.lease :: [Samples.contract]) ∅)
     = Raise Samples.pdf_error.
Proof.
  assert (Hf : forall suffix used,
             RagAssistant.mkstemp E_fresh suffix used ∉ used).
  { intros suffix used. apply is_fresh. }
  assert (Hg : Forall (fun f => exists n, has_pages E_fresh f n)
                 [Samples.contract]).
  { repeat constructor. exists 2%nat. intros path. eexists.
    split; reflexivity. }
  assert (Hb : forall path,
             RagAssistant.pdf_parse E_fresh path (uf_bytes Samples.lease)
             = Raise Samples.pdf_error).
  { intros path. reflexivity. }
  split; [exact Hf|]. split; [exact Hg|]. split; [exact Hb|].
  exact (proj1 (upload_stops_at_first_failure E_fresh [Samples.contract]
                  Samples.lease [Samples.contract] ∅ Samples.pdf_error
                  Hf Hg Hb)).
Defined.

Lemma upload_loop_loads E files :
  forall acc d,
  exists n,
    (n <= length files)%nat
    /\ events (RagAssistant.upload_loop E files acc d)
       = repeat (call c_PyPDFLoader_load) n
    /\ (forall docs,
          outcome (RagAssistant.upload_loop E files acc d) = Ok docs ->
          n = length files).
Proof.
  induction files as [|f rest IH]; intros acc d.
  - exists 0%nat. split; [simpl; lia|]. split; [reflexivity|].
    intros docs _. reflexivity.
  - rewrite upload_loop_cons.
    destruct (RagAssistant.pdf_parse E _ _) as [ps|e].
    + destruct (IH (acc ++ map (set_source (uf_name f)) ps)
                   (delete (RagAssistant.mkstemp E (Py.lit ".pdf") (dom d)) d))
        as (n & Hn & He & Hok).
      destruct (RagAssistant.upload_loop E rest _ _) as [[r d'] l].
      exists (S n). unfold events, outcome in *. cbn [fst snd] in *.
      split; [simpl; lia|]. split; [simpl; f_equal; exact He|].
      intros docs Hd. simpl. f_equal. exact (Hok docs Hd).
    + exists 1%nat. split; [simpl; lia|]. split; [reflexivity|].
      intros docs Hd. discriminate Hd.
Qed.

Lemma upload_step_loads E files d :
  exists n,
    (n <= length files)%nat
    /\ calls (events (RagAssistant.upload_step E files d))
       = repeat c_PyPDFLoader_load n
    /\ (forall docs,
          outcome (RagAssistant.upload_step E files d) = Ok docs ->
          n = length files
          /\ events (RagAssistant.upload_step E files d) =
             repeat (call c_PyPDFLoader_load) n
               ++ match files with
                  | [] => []
                  | _ :: _ =>
                    [st_success
                       (RagAssistant.pages_loaded_message (length docs))]
                  end).
Proof.
  destruct (upload_loop_loads E files [] d) as (n & Hn & He & Hok).
  exists n. split; [exact Hn|].
  assert (Hcalls : calls (repeat (call c_PyPDFLoader_load) n)
                   = repeat c_PyPDFLoader_load n).
  { clear. induction n as [|n IH]; [reflexivity|]. simpl. f_equal. exact IH. }
  destruct files as [|f rest].
  - destruct n; [|simpl in Hn; lia]. split; [reflexivity|].
    intros docs _. split; reflexivity.
  - unfold RagAssistant.upload_step.
    rewrite events_bind, outcome_bind, He.
    destruct (outcome (RagAssistant.upload_loop E (f :: rest) [] d))
      as [docs0|e] eqn:Ho.
    + split.
      * rewrite calls_app, Hcalls. simpl. apply app_nil_r.
      * intros docs Hd. split; [exact (Hok docs0 eq_refl)|].
        rewrite outcome_bind in Hd. simpl in Hd. injection Hd as <-.
        reflexivity.
    + split; [rewrite app_nil_r; exact Hcalls|]. intros docs Hd.
      discriminate Hd.
Qed.

Lemma attempted_prefix parse files :
  exists rest, files = attempted parse files ++ rest.
Proof.
  induction files as [|f files [rest IH]]; [exists []; reflexivity|].
  cbn [attempted]. destruct (parse f).
  - exists rest. cbn [app]. f_equal. exact IH.
  - exists files. reflexivity.
Qed.

Lemma attempted_all parse files docs :
  collected parse files = Ok docs -> attempted parse files = files.
Proof.
  revert docs. induction files as [|f files IH]; intros docs; [reflexivity|].
  cbn [collected attempted]. destruct (parse f); [|discriminate].
  destruct (collected parse files) as [docs'|e]; [|discriminate].
  intros _. f_equal. apply (IH docs'). reflexivity.
Qed.

Lemma upload_loop_collected E d files :
  (forall suffix used, RagAssistant.mkstemp E suffix used ∉ used) ->
  forall acc,
    outcome (RagAssistant.upload_loop E files acc d)
    = match collected (parse_at E d) files with
      | Ok docs => Ok (acc ++ docs)
      | Raise e => Raise e
      end
    /\ events (RagAssistant.upload_loop E files acc d)
       = repeat (call c_PyPDFLoader_load)
           (length (attempted (parse_at E d) files)).
Proof.
  intros Hfresh. induction files as [|f rest IH]; intros acc.
  - cbn [collected attempted]. rewrite app_nil_r. split; reflexivity.
  - rewrite upload_loop_cons. cbn [collected attempted]. unfold parse_at at 1 3.
    set (p := RagAssistant.mkstemp E (Py.lit ".pdf") (dom d)).
    destruct (RagAssistant.pdf_parse E p (uf_bytes f)) as [ps|e];
      [|split; reflexivity].
    assert (Hp : delete p d = d).
    { apply delete_id, not_elem_of_dom, Hfresh. }
    rewrite Hp.
    destruct (IH (acc ++ map (set_source (uf_name f)) ps)) as [Ho He].
    destruct (RagAssistant.upload_loop E rest _ d) as [[r d'] l].
    unfold outcome, events in *. cbn [fst snd] in *. subst r l.
    split; [|reflexivity].
    destruct (collected (parse_at E d) rest) as [docs|e]; [|reflexivity].
    rewrite app_assoc. reflexivity.
Qed.

(** X5.  With temporary names that are not in use when they are picked,
    the upload step loads each uploaded file once, in order, up to and
    including the first that fails: what it returns is the pages of the
    first file, tagged with its name, then those of the second, and so
    on, or the exception of the first file that fails to load; what it
    logs is one call of the loader per file loaded and then, only when
    every file has been loaded and there was at least one, the page-count
    message with the number of documents returned. *)
Theorem upload_loads_each_file_once E files d :
  (forall suffix used, RagAssistant.mkstemp E suffix used ∉ used) ->
  outcome (RagAssistant.upload_step E files d)
  = collected (parse_at E d) files
  /\ events (RagAssistant.upload_step E files d)
     = repeat (call c_PyPDFLoader_load)
         (length (attempted (parse_at E d) files))
       ++ match collected (parse_at E d) files, files with
          | Ok docs, _ :: _ =>
            [st_success (RagAssistant.pages_loaded_message (length docs))]
          | _, _ => []
          end
  /\ (exists rest, files = attempted (parse_at E d) files ++ rest)
  /\ (forall docs,
        collected (parse_at E d) files = Ok docs ->
        attempted (parse_at E d) files = files).
Proof.
  intros Hfresh.
  split; [|split; [|split; [apply attempted_prefix | apply attempted_all]]].
  - rewrite outcome_upload_step.
    destruct (upload_loop_collected E d files Hfresh []) as [Ho _].
    rewrite Ho. destruct (collected (parse_at E d) files); reflexivity.
  - destruct files as [|f rest]; [reflexivity|].
    destruct (upload_loop_collected E d (f :: rest) Hfresh []) as [Ho He].
    unfold RagAssistant.upload_step. rewrite events_bind, He, Ho.
    destruct (collected (parse_at E d) (f :: rest)) as [docs|e];
      reflexivity.
Qed.

Lemma upload_loads_each_file_once_witness :
  (forall suffix used, RagAssistant.mkstemp E_fresh suffix used ∉ used)
  /\ outcome (RagAssistant.upload_step E_fresh
                [Samples.contract; Samples.contract] ∅)
     = collected (parse_at E_fresh ∅) [Samples.contract; Samples.contract]
  /\ collected (parse_at E_fresh ∅) [Samples.contract; Samples.contract]
     = Ok [set_source (Py.lit "contrat.pdf") (Samples.doc "one" 0);
           set_source (Py.lit "contrat.pdf") (Samples.doc "two" 1);
           set_source (Py.lit "contrat.pdf") (Samples.doc "one" 0);
           set_source (Py.lit "contrat.pdf") (Samples.doc "two" 1)].
Proof.
  assert (Hf : forall suffix used,
             RagAssistant.mkstemp E_fresh suffix used ∉ used).
  { intros suffix used. apply is_fresh. }
  split; [exact Hf|]. split.
  - exact (proj1 (upload_loads_each_file_once E_fresh
                    [Samples.contract; Samples.contract] ∅ Hf)).
  - vm_compute. reflexivity.
Defined.

Example failed_load_draws_no_message :
  RagAssistant.upload_step E_fresh
    [Samples.contract; Samples.lease; Samples.contract] ∅
  = (Raise Samples.pdf_error,
     {[ fresh (∅ : gset (list N)) := uf_bytes Samples.lease ]},
     [call c_PyPDFLoader_load; call c_PyPDFLoader_load]).
Proof. vm_compute. reflexivity. Qed.

Lemma calls_upload_step_no_query E files d c :
  In c (calls (events (RagAssistant.upload_step E files d))) ->
  c = c_PyPDFLoader_load.
Proof.
  destruct (upload_step_loads E files d) as (n & _ & -> & _).
  intros H. apply repeat_spec in H. exact H.
Qed.

Lemma uploaded_query_origin E inp d :
  In (call c_run_rag_on_uploaded_docs) (events (RagAssistant.page E inp d)) ->
  exists doc docs,
    outcome (RagAssistant.upload_step E
               (file_uploader ["pdf"] (RagAssistant.offered_files inp)) d)
      = Ok (doc :: docs)
    /\ ephemeral_gate inp = true.
Proof.
  rewrite in_calls. unfold RagAssistant.page.
  rewrite events_bind, calls_app, persistent_query_calls,
    persistent_query_keeps_disk.
  intros H. apply in_app_or in H as [H|H].
  { destruct (persistent_gate inp); simpl in H; [|contradiction].
    destruct H as [H|[]]. discriminate H. }
  destruct (outcome (RagAssistant.persistent_query E inp d)) as [[]|e];
    [|contradiction].
  rewrite events_bind in H. cbn [emit events outcome final_disk fst snd] in H.
  rewrite events_bind, !calls_app in H.
  apply in_app_or in H as [[]|H]. apply in_app_or in H as [H|H].
  { apply calls_upload_step_no_query in H. discriminate H. }
  destruct (outcome (RagAssistant.upload_step E _ d)) as [docs|e] eqn:Hup;
    [|contradiction].
  rewrite events_bind, calls_app, ephemeral_query_calls in H.
  apply in_app_or in H as [H|H].
  - destruct docs as [|doc docs]; [contradiction|].
    destruct (ephemeral_gate inp); [|contradiction].
    exists doc, docs. split; reflexivity.
  - destruct (outcome (RagAssistant.ephemeral_query E inp docs _));
      simpl in H; contradiction.
Qed.

(** X6.  In a run of the RAG Assistant page the query on the uploaded
    documents is issued only if the upload step returned at least one
    document and the second button was pressed with a non-empty question:
    an upload that yields no page never reaches the Query Service. *)
Theorem uploaded_query_needs_documents E inp d :
  In (call c_run_rag_on_uploaded_docs) (events (RagAssistant.page E inp d)) ->
  exists doc docs,
    outcome (RagAssistant.upload_step E
               (file_uploader ["pdf"] (RagAssistant.offered_files inp)) d)
      = Ok (doc :: docs)
    /\ ephemeral_gate inp = true.
Proof. apply uploaded_query_origin. Qed.

Lemma uploaded_query_needs_documents_witness :
  In (call c_run_rag_on_uploaded_docs)
     (events (RagAssistant.page Samples.E_ok Samples.asking_upload ∅))
  /\ exists doc docs,
       outcome (RagAssistant.upload_step Samples.E_ok
                  (file_uploader ["pdf"]
                     (RagAssistant.offered_files Samples.asking_upload)) ∅)
         = Ok (doc :: docs)
       /\ ephemeral_gate Samples.asking_upload = true.
Proof.
  assert (H : In (call c_run_rag_on_uploaded_docs)
                (events (RagAssistant.page Samples.E_ok
                           Samples.asking_upload ∅))).
  { apply in_calls. vm_compute. right. left. reflexivity. }
  split; [exact H|].
  exact (uploaded_query_needs_documents Samples.E_ok Samples.asking_upload ∅ H).
Defined.

(** ** Results with missing parts *)

(** X7.  When the dict returned by a query has no key [result], every
    path draws its "answer" banner first, then fails on the lookup; the
    [KeyError] is caught by the path's handler and shown (with the
    traceback except on the uploaded-document path), and the run goes
    on. *)
Theorem missing_result_key r :
  r !! "result" = None ->
  (forall E inp d,
     persistent_gate inp = true ->
     persistent_answer E inp = Ok r ->
     RagAssistant.persistent_query E inp d =
     (Ok tt, d,
      [st_spinner_enter (Py.lit "🤖 Le modèle réfléchit...");
       call c_ask_question;
       st_columns [2; 1]%nat;
       st_column_enter 0;
       st_success (Py.lit "✅ Réponse :");
       st_column_exit;
       st_error (Py.lit "❌ Une erreur est survenue : "
                   ++ Py.repr_key "result");
       st_code (RagAssistant.format_exc E (key_error "result"))
         (Some (Py.lit "python"));
       st_spinner_exit]))
  /\ (forall E inp doc docs d,
        ephemeral_gate inp = true ->
        ephemeral_answer E inp (doc :: docs) = Ok r ->
        RagAssistant.ephemeral_query E inp (doc :: docs) d =
        (Ok tt, d,
         [st_divider;
          st_markdown
            (VStr (Py.lit "## 💬 Pose ta question sur le document uploadé"))
            false;
          st_spinner_enter (Py.lit "💡 Génération en cours...");
          call c_run_rag_on_uploaded_docs;
          st_success (Py.lit "🧠 Réponse :");
          st_error (Py.lit "❌ Erreur pendant l'exécution : "
                      ++ Py.repr_key "result");
          st_spinner_exit]))
  /\ (forall E inp d,
        consultation_gate inp = true ->
        consultation_answer E inp = Ok r ->
        Mo7amAI.query E inp d =
        (Ok tt, d,
         st_spinner_enter (Py.lit "Analyse en cours …")
           :: map call request_steps
           ++ [st_columns [2; 1]%nat;
               st_column_enter 0;
               st_success (Py.lit "## 🧠 Réponse");
               st_column_exit;
               st_error (Py.lit "Erreur : " ++ Py.repr_key "result");
               st_code (Mo7amAI.format_exc E (key_error "result")) None;
               st_spinner_exit])).
Proof.
  intros Hres. split; [|split].
  - intros E inp d Hgate Hr. unfold RagAssistant.persistent_query.
    unfold persistent_gate in Hgate. rewrite Hgate.
    unfold persistent_answer in Hr.
    unfold with_ at 1. unfold try_except.
    unfold RagAssistant.persistent_body.
    unfold invoke. unfold bind at 1. unfold bind at 1. unfold emit at 1.
    unfold lift at 1. rewrite Hr.
    unfold bind at 1. unfold emit at 1.
    unfold bind at 1. unfold with_ at 1.
    unfold bind at 1. unfold emit at 1.
    unfold bind at 1. unfold lift at 1. unfold getitem at 1. rewrite Hres.
    reflexivity.
  - intros E inp doc docs d Hgate Hr.
    rewrite ephemeral_query_on by exact Hgate.
    unfold ephemeral_answer in Hr.
    unfold try_except, RagAssistant.ephemeral_body.
    unfold invoke. unfold bind at 1. unfold bind at 1. unfold emit at 1.
    unfold lift at 1. rewrite Hr.
    unfold bind at 1. unfold emit at 1.
    unfold bind at 1. unfold lift at 1. unfold getitem at 1. rewrite Hres.
    reflexivity.
  - intros E inp d Hgate Hr.
    rewrite <- (consultation_request_outcome E inp d) in Hr.
    unfold Mo7amAI.query.
    unfold consultation_gate in Hgate. rewrite Hgate.
    unfold with_ at 1. unfold try_except. unfold Mo7amAI.body.
    unfold bind at 1. rewrite (consultation_request_ok E inp d r Hr).
    unfold bind at 1. unfold emit at 1.
    unfold bind at 1. unfold with_ at 1.
    unfold bind at 1. unfold emit at 1.
    unfold bind at 1. unfold lift at 1. unfold getitem at 1. rewrite Hres.
    cbn [is_Exception key_error exc_class]. unfold Mo7amAI.handler, bind, emit.
    cbn [app]. rewrite <- app_assoc. reflexivity.
Qed.

Lemma missing_result_key_witness :
  (∅ : gmap string pyval) !! "result" = None
  /\ consultation_gate ConsultationSamples.asking = true
  /\ consultation_answer C_empty ConsultationSamples.asking = Ok ∅
  /\ Mo7amAI.query C_empty ConsultationSamples.asking ∅ =
     (Ok tt, ∅,
      st_spinner_enter (Py.lit "Analyse en cours …")
        :: map call request_steps
        ++ [st_columns [2; 1]%nat;
            st_column_enter 0;
            st_success (Py.lit "## 🧠 Réponse");
            st_column_exit;
            st_error (Py.lit "Erreur : " ++ Py.repr_key "result");
            st_code (Mo7amAI.format_exc C_empty (key_error "result")) None;
            st_spinner_exit]).
Proof.
  assert (H : (∅ : gmap string pyval) !! "result" = None) by reflexivity.
  assert (Hg : consultation_gate ConsultationSamples.asking = true).
  { vm_compute. reflexivity. }
  assert (Ha : consultation_answer C_empty ConsultationSamples.asking = Ok ∅).
  { vm_compute. reflexivity. }
  split; [exact H|]. split; [exact Hg|]. split; [exact Ha|].
  exact (proj2 (proj2 (missing_result_key ∅ H)) C_empty
           ConsultationSamples.asking ∅ Hg Ha).
Defined.

(** ** Drawing the sources *)

Lemma persistent_render_docs_events docs :
  forall start d,
    for_each (enumerate (map IDoc docs) start) RagAssistant.render_source d
    = (Ok tt, d, flat_map persistent_source_block docs).
Proof.
  induction docs as [|doc docs IH]; intros start d; [reflexivity|].
  cbn [map enumerate for_each flat_map]. unfold bind.
  rewrite persistent_render_source_doc, IH. reflexivity.
Qed.

Lemma consultation_render_source_doc doc d :
  Mo7amAI.render_source (IDoc doc) d
  = (Ok tt, d, consultation_source_block doc).
Proof. reflexivity. Qed.

Lemma consultation_render_docs_events docs :
  forall d,
    for_each (map IDoc docs) Mo7amAI.render_source d
    = (Ok tt, d, flat_map consultation_source_block docs).
Proof.
  induction docs as [|doc docs IH]; intros d; [reflexivity|].
  cbn [map for_each flat_map]. unfold bind.
  rewrite consultation_render_source_doc, IH. reflexivity.
Qed.

Lemma length_slice_to n (s : Py.str) :
  length (Py.slice_to n s) = Nat.min n (length s).
Proof. unfold Py.slice_to. apply length_firstn. Qed.

Lemma persistent_excerpt_length doc :
  length (persistent_excerpt doc)
  = (Nat.min 500 (length (page_content doc)) + 3)%nat.
Proof.
  unfold persistent_excerpt. rewrite length_app, length_slice_to.
  reflexivity.
Qed.

Lemma consultation_excerpt_length doc :
  length (consultation_excerpt doc)
  = (Nat.min 900 (length (page_content doc)) + 1)%nat.
Proof.
  unfold consultation_excerpt. rewrite length_app, length_slice_to.
  reflexivity.
Qed.

(** X8.  For a result with a non-empty list of source documents, both
    index pages draw the sources one by one, in order, one expander per
    document, and never fail on a document: a missing source or page in the
    metadata is replaced by a default label.  The text shown for a
    document is its first 500 characters followed by three dots on the RAG
    Assistant page (at most 503 characters, the dots being added to short
    texts too) and its first 900 characters followed by an ellipsis on the
    consultation page (at most 901). *)
Theorem sources_are_drawn_one_by_one r doc docs d :
  r !! "source_documents" = Some (VDocs (doc :: docs)) ->
  RagAssistant.render_sources r d =
    (Ok tt, d,
     st_column_enter 1
       :: st_markdown (VStr RagAssistant.sources_heading) false
       :: flat_map persistent_source_block (doc :: docs) ++ [st_column_exit])
  /\ Mo7amAI.render_sources r d =
     (Ok tt, d,
      st_column_enter 1
        :: st_markdown (VStr (Py.lit "## 📑 Sources")) false
        :: flat_map consultation_source_block (doc :: docs)
        ++ [st_column_exit])
  /\ Forall
       (fun doc' =>
          length (persistent_excerpt doc')
            = (Nat.min 500 (length (page_content doc')) + 3)%nat
          /\ (length (persistent_excerpt doc') <= 503)%nat
          /\ length (consultation_excerpt doc')
             = (Nat.min 900 (length (page_content doc')) + 1)%nat
          /\ (length (consultation_excerpt doc') <= 901)%nat)
       (doc :: docs).
Proof.
  intros H. split; [|split].
  - unfold RagAssistant.render_sources, with_.
    unfold bind at 1. unfold emit at 1. unfold dict_get. rewrite H.
    cbn [truthy]. unfold bind at 1. unfold lift at 1. unfold getitem.
    rewrite H. unfold bind at 1. unfold lift at 1. cbn [py_iter].
    rewrite persistent_render_docs_events. reflexivity.
  - unfold Mo7amAI.render_sources, with_.
    unfold bind at 1. unfold emit at 1. unfold dict_get. rewrite H.
    cbn [truthy negb]. unfold bind at 1. unfold lift at 1. unfold getitem.
    rewrite H. unfold bind at 1. unfold lift at 1. cbn [py_iter].
    rewrite consultation_render_docs_events. reflexivity.
  - apply List.Forall_forall. intros doc' _.
    rewrite persistent_excerpt_length, consultation_excerpt_length.
    repeat split; lia.
Qed.

Lemma sources_are_drawn_one_by_one_witness :
  answer_with_sources [Samples.doc "one" 0; bare_doc] !! "source_documents"
    = Some (VDocs [Samples.doc "one" 0; bare_doc])
  /\ RagAssistant.render_sources
       (answer_with_sources [Samples.doc "one" 0; bare_doc]) ∅ =
     (Ok tt, ∅,
      st_column_enter 1
        :: st_markdown (VStr RagAssistant.sources_heading) false
        :: flat_map persistent_source_block [Samples.doc "one" 0; bare_doc]
        ++ [st_column_exit]).
Proof.
  assert (H : answer_with_sources [Samples.doc "one" 0; bare_doc]
                !! "source_documents"
              = Some (VDocs [Samples.doc "one" 0; bare_doc])).
  { vm_compute. reflexivity. }
  split; [exact H|].
  exact (proj1 (sources_are_drawn_one_by_one
                  (answer_with_sources [Samples.doc "one" 0; bare_doc])
                  (Samples.doc "one" 0) [bare_doc] ∅ H)).
Defined.

Example source_without_metadata_gets_default_label :
  persistent_source_block bare_doc =
  [st_expander_enter (Py.lit "📄 Document inconnu (page ?)");
   st_markdown (VStr (Py.lit "texte...")) false;
   st_expander_exit].
Proof. vm_compute. reflexivity. Qed.

Lemma uploaded_source_good doc s d :
  metadata doc !! "source" = Some s ->
  RagAssistant.render_uploaded_source (IDoc doc) d
  = (Ok tt, d, [uploaded_source_bullet s]).
Proof.
  intros H. unfold RagAssistant.render_uploaded_source, bind, lift, emit,
    getitem. simpl. rewrite H. reflexivity.
Qed.

Lemma uploaded_source_bad doc d :
  metadata doc !! "source" = None ->
  RagAssistant.render_uploaded_source (IDoc doc) d
  = (Raise (key_error "source"), d, []).
Proof.
  intros H. unfold RagAssistant.render_uploaded_source, bind, lift, emit,
    getitem. simpl. rewrite H. reflexivity.
Qed.

Lemma uploaded_bullets_loop good :
  Forall (fun doc => is_Some (metadata doc !! "source")) good ->
  forall rest d,
    for_each (map IDoc (good ++ rest)) RagAssistant.render_uploaded_source d =
    match for_each (map IDoc rest) RagAssistant.render_uploaded_source d with
    | (r, d', l) => (r, d', uploaded_bullets good ++ l)
    end.
Proof.
  induction 1 as [|doc good [s Hs] _ IH]; intros rest d.
  - simpl. destruct (for_each _ _ d) as [[r d'] l]. reflexivity.
  - cbn [app map for_each]. unfold bind at 1.
    rewrite (uploaded_source_good doc s d Hs), IH.
    destruct (for_each (map IDoc rest) _ d) as [[r d'] l].
    unfold uploaded_bullets. cbn [map app]. unfold get_default.
    rewrite Hs. reflexivity.
Qed.

(** X9.  On the uploaded-document path the sources are drawn as one bullet
    per document, in order, as long as each document's metadata has the
    key [source]; the first document without it raises [KeyError] (the
    lookup has no default here), the bullets drawn so far stay, and the
    handler shows the error in place of the remaining ones. *)
Theorem uploaded_sources_are_bulleted a good :
  Forall (fun doc => is_Some (metadata doc !! "source")) good ->
  (forall E inp doc docs d r,
     ephemeral_gate inp = true ->
     ephemeral_answer E inp (doc :: docs) = Ok r ->
     r !! "result" = Some a ->
     r !! "source_documents" = Some (VDocs good) ->
     RagAssistant.ephemeral_query E inp (doc :: docs) d =
     (Ok tt, d,
      [st_divider;
       st_markdown
         (VStr (Py.lit "## 💬 Pose ta question sur le document uploadé"))
         false;
       st_spinner_enter (Py.lit "💡 Génération en cours...");
       call c_run_rag_on_uploaded_docs;
       st_success (Py.lit "🧠 Réponse :");
       st_markdown a false;
       st_markdown (VStr (Py.lit "📎 **Sources :**")) false]
      ++ uploaded_bullets good ++ [st_spinner_exit]))
  /\ (forall E inp doc docs d r bad rest,
        ephemeral_gate inp = true ->
        ephemeral_answer E inp (doc :: docs) = Ok r ->
        r !! "result" = Some a ->
        r !! "source_documents" = Some (VDocs (good ++ bad :: rest)) ->
        metadata bad !! "source" = None ->
        RagAssistant.ephemeral_query E inp (doc :: docs) d =
        (Ok tt, d,
         [st_divider;
          st_markdown
            (VStr (Py.lit "## 💬 Pose ta question sur le document uploadé"))
            false;
          st_spinner_enter (Py.lit "💡 Génération en cours...");
          call c_run_rag_on_uploaded_docs;
          st_success (Py.lit "🧠 Réponse :");
          st_markdown a false;
          st_markdown (VStr (Py.lit "📎 **Sources :**")) false]
         ++ uploaded_bullets good
         ++ [st_error (Py.lit "❌ Erreur pendant l'exécution : "
                         ++ Py.repr_key "source");
             st_spinner_exit])).
Proof.
  intros Hgood. split.
  - intros E inp doc docs d r Hgate Hr Ha Hs.
    rewrite ephemeral_query_on by exact Hgate. unfold try_except.
    rewrite (ephemeral_body_answered E inp (doc :: docs) d r a Hr Ha).
    unfold bind at 1. unfold lift at 1. unfold getitem. rewrite Hs.
    unfold bind at 1. unfold lift at 1. cbn [py_iter].
    pose proof (uploaded_bullets_loop good Hgood [] d) as Hloop.
    rewrite app_nil_r in Hloop. rewrite Hloop. cbn [map for_each ret].
    rewrite app_nil_r. cbn [app]. reflexivity.
  - intros E inp doc docs d r bad rest Hgate Hr Ha Hs Hbad.
    rewrite ephemeral_query_on by exact Hgate. unfold try_except.
    rewrite (ephemeral_body_answered E inp (doc :: docs) d r a Hr Ha).
    unfold bind at 1. unfold lift at 1. unfold getitem. rewrite Hs.
    unfold bind at 1. unfold lift at 1. cbn [py_iter].
    rewrite (uploaded_bullets_loop good Hgood (bad :: rest) d).
    cbn [map for_each]. unfold bind at 1.
    rewrite (uploaded_source_bad bad d Hbad).
    cbn [is_Exception key_error exc_class].
    unfold RagAssistant.ephemeral_handler, emit. cbn [app exc_str].
    rewrite app_nil_r, <- !app_assoc. reflexivity.
Qed.

Lemma uploaded_sources_are_bulleted_witness :
  Forall (fun doc => is_Some (metadata doc !! "source")) [Samples.doc "one" 0]
  /\ ephemeral_gate Samples.asking_upload = true
  /\ metadata bare_doc !! "source" = None
  /\ RagAssistant.ephemeral_query E_sources Samples.asking_upload
       [Samples.doc "one" 0] ∅ =
     (Ok tt, ∅,
      [st_divider;
       st_markdown
         (VStr (Py.lit "## 💬 Pose ta question sur le document uploadé"))
         false;
       st_spinner_enter (Py.lit "💡 Génération en cours...");
       call c_run_rag_on_uploaded_docs;
       st_success (Py.lit "🧠 Réponse :");
       st_markdown (VStr (Py.lit "Article 12.")) false;
       st_markdown (VStr (Py.lit "📎 **Sources :**")) false]
      ++ uploaded_bullets [Samples.doc "one" 0]
      ++ [st_error (Py.lit "❌ Erreur pendant l'exécution : "
                      ++ Py.repr_key "source");
          st_spinner_exit]).
Proof.
  assert (Hg : Forall (fun doc => is_Some (metadata doc !! "source"))
                 [Samples.doc "one" 0]).
  { repeat constructor. eexists. vm_compute. reflexivity. }
  assert (Hgate : ephemeral_gate Samples.asking_upload = true).
  { vm_compute. reflexivity. }
  assert (Hb : metadata bare_doc !! "source" = None) by reflexivity.
  assert (Ha : answer_with_sources [Samples.doc "one" 0; bare_doc] !! "result"
               = Some (VStr (Py.lit "Article 12."))).
  { vm_compute. reflexivity. }
  assert (Hs : answer_with_sources [Samples.doc "one" 0; bare_doc]
                 !! "source_documents"
               = Some (VDocs ([Samples.doc "one" 0] ++ bare_doc :: []))).
  { vm_compute. reflexivity. }
  split; [exact Hg|]. split; [exact Hgate|]. split; [exact Hb|].
  exact (proj2 (uploaded_sources_are_bulleted (VStr (Py.lit "Article 12."))
                  [Samples.doc "one" 0] Hg)
           E_sources Samples.asking_upload (Samples.doc "one" 0) [] ∅
           (answer_with_sources [Samples.doc "one" 0; bare_doc])
           bare_doc [] Hgate eq_refl Ha Hs Hb).
Defined.

(** ** Navigation and the rotating hint of the consultation app *)

Lemma list_getitem_in_range {A} (l : list A) (i : Z) :
  (0 <= i < Z.of_nat (length l))%Z ->
  exists x, Navigation.list_getitem l i = Ok x /\ l !! Z.to_nat i = Some x.
Proof.
  intros Hi. unfold Navigation.list_getitem.
  destruct (i <? 0)%Z eqn:Hneg; [apply Z.ltb_lt in Hneg; lia|].
  replace ((0 <=? i)%Z && (i <? Z.of_nat (length l))%Z) with true.
  - destruct (l !! Z.to_nat i) as [x|] eqn:Hx.
    + exists x. split; reflexivity.
    + apply lookup_ge_None in Hx. lia.
  - symmetry. apply andb_true_iff. split;
      [apply Z.leb_le | apply Z.ltb_lt]; lia.
Qed.

Lemma rotate_placeholder_ok ss :
  exists p,
    Navigation.rotate_placeholder ss =
      (Ok p,
       {| Navigation.redirect_target := Navigation.redirect_target ss;
          Navigation.ex_idx :=
            Some (default 0%Z (Navigation.ex_idx ss) + 1)%Z |})
    /\ Navigation.examples
         !! Z.to_nat (default 0%Z (Navigation.ex_idx ss) mod 3) = Some p.
Proof.
  unfold Navigation.rotate_placeholder.
  set (idx := default 0%Z (Navigation.ex_idx ss)).
  change (Z.of_nat (length Navigation.examples)) with 3%Z.
  destruct (list_getitem_in_range Navigation.examples (idx mod 3))
    as (p & Hp & Hl).
  { change (Z.of_nat (length Navigation.examples)) with 3%Z.
    apply Z.mod_pos_bound. lia. }
  exists p. rewrite Hp. split; [reflexivity | exact Hl].
Qed.

(** X10.  The hint of the question field never fails and cycles: whatever
    integer the counter holds (absent, zero, negative, large), a run of the
    consultation section picks one of the three examples and moves the
    counter on by one, and the hints of consecutive runs follow the list
    in order and start again after the third. *)
Theorem question_hint_rotates ss :
  (exists p,
     Navigation.rotate_placeholder ss =
       (Ok p,
        {| Navigation.redirect_target := Navigation.redirect_target ss;
           Navigation.ex_idx :=
             Some (default 0%Z (Navigation.ex_idx ss) + 1)%Z |})
     /\ In p Navigation.examples)
  /\ (forall n,
        Navigation.placeholders n ss =
        map (fun j =>
               match Navigation.examples
                       !! Z.to_nat ((default 0%Z (Navigation.ex_idx ss)
                                     + Z.of_nat j) mod 3) with
               | Some p => Ok p
               | None => Raise Navigation.index_error
               end)
            (seq 0 n))
  /\ Navigation.placeholders 3
       {| Navigation.redirect_target := Navigation.redirect_target ss;
          Navigation.ex_idx := None |}
     = map Ok Navigation.examples.
Proof.
  split; [|split].
  - destruct (rotate_placeholder_ok ss) as (p & Hr & Hl).
    exists p. split; [exact Hr|].
    apply list_elem_of_In. eapply list_elem_of_lookup_2. exact Hl.
  - intros n. revert ss.
    assert (Hgen : forall n ss start,
               Navigation.placeholders n ss =
               map (fun j =>
                      match Navigation.examples
                              !! Z.to_nat
                                   ((default 0%Z (Navigation.ex_idx ss)
                                     + Z.of_nat j - Z.of_nat start) mod 3) with
                      | Some p => Ok p
                      | None => Raise Navigation.index_error
                      end)
                   (seq start n)).
    { clear. induction n as [|n IH]; intros ss start; [reflexivity|].
      cbn [Navigation.placeholders seq map].
      destruct (rotate_placeholder_ok ss) as (p & -> & Hl).
      f_equal.
      - replace (default 0%Z (Navigation.ex_idx ss) + Z.of_nat start
                 - Z.of_nat start)%Z
          with (default 0%Z (Navigation.ex_idx ss)) by lia.
        rewrite Hl. reflexivity.
      - rewrite (IH _ (S start)). apply map_ext_in. intros j _.
        cbn [Navigation.ex_idx default from_option id].
        match goal with
        | |- match _ !! Z.to_nat (?A mod 3) with _ => _ end
             = match _ !! Z.to_nat (?B mod 3) with _ => _ end =>
          replace A with B by lia
        end.
        reflexivity. }
    intros ss. rewrite (Hgen n ss 0%nat). apply map_ext_in. intros j _.
    match goal with
    | |- match _ !! Z.to_nat (?A mod 3) with _ => _ end
         = match _ !! Z.to_nat (?B mod 3) with _ => _ end =>
      replace A with B by lia
    end.
    reflexivity.
  - vm_compute. reflexivity.
Qed.

Lemma consultation_section_shown E inp d :
  Mo7amAI.nav inp = Py.lit "Consultation IA" ->
  exists rest,
    events (Mo7amAI.consultation E inp d) =
    st_header (Py.lit "🤖 Consultation juridique assistée par IA") :: rest.
Proof.
  intros Hnav. unfold Mo7amAI.consultation. rewrite Hnav.
  rewrite bool_decide_eq_true_2 by reflexivity.
  rewrite events_bind. cbn [emit events outcome final_disk fst snd app].
  eexists. reflexivity.
Qed.

(** X11.  A redirect wins over the sidebar menu exactly once: after
    [redirect p] the next run resolves to page [p] whatever the menu says
    and removes the request, so the run after that follows the menu again
    (the hint counter is not touched by either).  In particular, after
    [redirect "Consultation IA"] the next run draws the consultation
    section even with the menu on another page, and counts one more
    visit; without a redirect and with the menu elsewhere the section
    draws nothing and the session is unchanged. *)
Theorem redirect_wins_once E w ss d p :
  Navigation.resolve_nav (Navigation.menu w) (Navigation.redirect p ss)
    = (p, {| Navigation.redirect_target := None;
             Navigation.ex_idx := Navigation.ex_idx ss |})
  /\ (forall menu',
        Navigation.resolve_nav menu'
          (snd (Navigation.resolve_nav (Navigation.menu w)
                  (Navigation.redirect p ss)))
        = (menu', {| Navigation.redirect_target := None;
                     Navigation.ex_idx := Navigation.ex_idx ss |}))
  /\ (exists rest,
        events
          (fst (Navigation.visit E w
                  (Navigation.redirect (Py.lit "Consultation IA") ss) d))
        = st_header (Py.lit "🤖 Consultation juridique assistée par IA")
            :: rest)
  /\ snd (Navigation.visit E w
            (Navigation.redirect (Py.lit "Consultation IA") ss) d)
     = {| Navigation.redirect_target := None;
          Navigation.ex_idx :=
            Some (default 0%Z (Navigation.ex_idx ss) + 1)%Z |}
  /\ (Navigation.redirect_target ss = None ->
      Navigation.menu w <> Py.lit "Consultation IA" ->
      Navigation.visit E w ss d = ((Ok tt, d, []), ss)).
Proof.
  split; [reflexivity|]. split; [intros menu'; reflexivity|].
  assert (Hvisit :
    Navigation.visit E w
      (Navigation.redirect (Py.lit "Consultation IA") ss) d
    = (Mo7amAI.consultation E
         (Navigation.inputs_of (Py.lit "Consultation IA") w) d,
       {| Navigation.redirect_target := None;
          Navigation.ex_idx :=
            Some (default 0%Z (Navigation.ex_idx ss) + 1)%Z |})).
  { unfold Navigation.visit.
    cbn [Navigation.resolve_nav Navigation.redirect
           Navigation.redirect_target Navigation.ex_idx].
    rewrite bool_decide_eq_true_2 by reflexivity.
    destruct (rotate_placeholder_ok
                {| Navigation.redirect_target := None;
                   Navigation.ex_idx := Navigation.ex_idx ss |})
      as (p0 & -> & _).
    reflexivity. }
  split; [|split].
  - rewrite Hvisit. cbn [fst].
    apply consultation_section_shown. reflexivity.
  - rewrite Hvisit. reflexivity.
  - intros Hnone Hmenu. unfold Navigation.visit, Navigation.resolve_nav.
    rewrite Hnone. rewrite bool_decide_eq_false_2 by exact Hmenu.
    unfold Mo7amAI.consultation.
    cbn [Navigation.inputs_of Mo7amAI.nav].
    rewrite bool_decide_eq_false_2 by exact Hmenu. reflexivity.
Qed.

Lemma redirect_wins_once_witness :
  Navigation.redirect_target
    {| Navigation.redirect_target := None; Navigation.ex_idx := Some 4%Z |}
    = None
  /\ Navigation.menu idle_on_home <> Py.lit "Consultation IA"
  /\ Navigation.visit ConsultationSamples.C_ok idle_on_home
       {| Navigation.redirect_target := None; Navigation.ex_idx := Some 4%Z |}
       ∅
     = ((Ok tt, ∅, []),
        {| Navigation.redirect_target := None;
           Navigation.ex_idx := Some 4%Z |}).
Proof.
  assert (H1 : Navigation.redirect_target
                 {| Navigation.redirect_target := None;
                    Navigation.ex_idx := Some 4%Z |} = None) by reflexivity.
  assert (H2 : Navigation.menu idle_on_home <> Py.lit "Consultation IA").
  { intros H. vm_compute in H. discriminate H. }
  split; [exact H1|]. split; [exact H2|].
  exact (proj2 (proj2 (proj2 (proj2
           (redirect_wins_once ConsultationSamples.C_ok idle_on_home
              {| Navigation.redirect_target := None;
                 Navigation.ex_idx := Some 4%Z |}
              ∅ [])))) H1 H2).
Defined.

Example button_on_home_opens_the_consultation :
  events
    (fst (Navigation.visit ConsultationSamples.C_ok idle_on_home
            (Navigation.redirect (Py.lit "Consultation IA")
               {| Navigation.redirect_target := None;
                  Navigation.ex_idx := None |}) ∅))
  = [st_header (Py.lit "🤖 Consultation juridique assistée par IA");
     st_write (Py.lit "Posez votre question, l’IA cite les articles de loi marocains pertinents.");
     st_expander_enter (Py.lit "Paramètres avancés du modèle");
     st_expander_exit].
Proof. vm_compute. reflexivity. Qed.

(** ** The first page as a whole *)

(** X12.  A failed query on the persistent index does not stop the page
    when the failure is an exception below [Exception]: the page goes on to
    the warning about uploaded documents and to the upload.  An exception
    that is not below [Exception] ends the run there: the spinner is
    closed, nothing else is drawn and no file is loaded. *)
Theorem page_goes_on_after_failed_query E inp d e :
  persistent_gate inp = true ->
  persistent_answer E inp = Raise e ->
  (is_Exception e = true ->
   exists rest,
     events (RagAssistant.page E inp d) =
     [st_spinner_enter (Py.lit "🤖 Le modèle réfléchit...");
      call c_ask_question;
      st_error (Py.lit "❌ Une erreur est survenue : " ++ exc_str e);
      st_code (RagAssistant.format_exc E e) (Some (Py.lit "python"));
      st_spinner_exit;
      st_warning RagAssistant.not_saved_warning]
     ++ events (RagAssistant.upload_step E
                  (file_uploader ["pdf"] (RagAssistant.offered_files inp)) d)
     ++ rest)
  /\ (is_Exception e = false ->
      RagAssistant.page E inp d =
      (Raise e, d,
       [st_spinner_enter (Py.lit "🤖 Le modèle réfléchit...");
        call c_ask_question;
        st_spinner_exit])).
Proof.
  intros Hgate Hr. split; intros He.
  - unfold RagAssistant.page.
    rewrite events_bind.
    rewrite (persistent_query_raise E inp d e Hgate Hr He).
    cbn [events outcome final_disk fst snd].
    rewrite events_bind. cbn [emit events outcome final_disk fst snd].
    rewrite events_bind. eexists. cbn [app]. reflexivity.
  - unfold RagAssistant.page. unfold bind at 1.
    unfold RagAssistant.persistent_query.
    unfold persistent_gate in Hgate. rewrite Hgate.
    unfold persistent_answer in Hr.
    unfold with_, try_except, RagAssistant.persistent_body, invoke, bind,
      emit, lift.
    rewrite Hr. cbn [app]. rewrite He. reflexivity.
Qed.

Lemma page_goes_on_after_failed_query_witness :
  persistent_gate Samples.asking = true
  /\ persistent_answer Samples.E_down Samples.asking = Raise Samples.timeout
  /\ is_Exception Samples.timeout = true
  /\ exists rest,
       events (RagAssistant.page Samples.E_down Samples.asking ∅) =
       [st_spinner_enter (Py.lit "🤖 Le modèle réfléchit...");
        call c_ask_question;
        st_error (Py.lit "❌ Une erreur est survenue : "
                    ++ exc_str Samples.timeout);
        st_code (RagAssistant.format_exc Samples.E_down Samples.timeout)
          (Some (Py.lit "python"));
        st_spinner_exit;
        st_warning RagAssistant.not_saved_warning]
       ++ events (RagAssistant.upload_step Samples.E_down
                    (file_uploader ["pdf"]
                       (RagAssistant.offered_files Samples.asking)) ∅)
       ++ rest.
Proof.
  assert (Hg : persistent_gate Samples.asking = true).
  { vm_compute. reflexivity. }
  assert (Hr : persistent_answer Samples.E_down Samples.asking
               = Raise Samples.timeout) by reflexivity.
  assert (He : is_Exception Samples.timeout = true) by reflexivity.
  split; [exact Hg|]. split; [exact Hr|]. split; [exact He|].
  exact (proj1 (page_goes_on_after_failed_query Samples.E_down Samples.asking
                  ∅ Samples.timeout Hg Hr) He).
Defined.

Lemma upload_loop_events (Q : event -> Prop) E files :
  Q (call c_PyPDFLoader_load) ->
  forall acc, all_events Q (RagAssistant.upload_loop E files acc).
Proof.
  intros HQ. induction files as [|f rest IH]; intros acc d.
  - constructor.
  - rewrite upload_loop_cons.
    destruct (RagAssistant.pdf_parse E _ _) as [ps|e].
    + specialize (IH (acc ++ map (set_source (uf_name f)) ps)
                     (delete (RagAssistant.mkstemp E (Py.lit ".pdf") (dom d)) d)).
      destruct (RagAssistant.upload_loop E rest _ _) as [[r d'] l].
      constructor; [exact HQ | exact IH].
    + repeat constructor. exact HQ.
Qed.

Lemma upload_step_events (Q : event -> Prop) E files :
  Q (call c_PyPDFLoader_load) ->
  (forall n, Q (st_success (RagAssistant.pages_loaded_message n))) ->
  all_events Q (RagAssistant.upload_step E files).
Proof.
  intros HQ HS. unfold RagAssistant.upload_step. destruct files as [|f rest].
  - apply all_events_ret.
  - apply all_events_bind; [apply upload_loop_events, HQ|].
    intros docs. apply all_events_bind; [apply all_events_emit, HS|].
    intros _. apply all_events_ret.
Qed.

Lemma persistent_query_no_html E inp :
  all_events (fun ev => is_html ev = false)
    (RagAssistant.persistent_query E inp).
Proof.
  unfold RagAssistant.persistent_query, RagAssistant.persistent_body,
    RagAssistant.persistent_handler, RagAssistant.render_sources,
    RagAssistant.render_source.
  script_events.
Qed.

Lemma upload_step_raise_events E files d e :
  outcome (RagAssistant.upload_step E files d) = Raise e ->
  exists n,
    (1 <= n <= length files)%nat
    /\ events (RagAssistant.upload_step E files d)
       = repeat (call c_PyPDFLoader_load) n.
Proof.
  intros Hup.
  destruct files as [|f rest]; [discriminate Hup|].
  destruct (upload_loop_loads E (f :: rest) [] d) as (n & Hn & He & _).
  assert (Hloop : outcome (RagAssistant.upload_loop E (f :: rest) [] d)
                  = Raise e).
  { rewrite <- outcome_upload_step. exact Hup. }
  exists n. split.
  - split; [|exact Hn].
    destruct n as [|n]; [|lia].
    rewrite upload_loop_cons in He.
    destruct (RagAssistant.pdf_parse E _ _) as [ps|e'].
    + destruct (RagAssistant.upload_loop E rest _ _) as [[r d'] l].
      discriminate He.
    + discriminate He.
  - unfold RagAssistant.upload_step.
    rewrite events_bind, Hloop, app_nil_r. exact He.
Qed.

(** X13.  A file that fails to load aborts the page: nothing catches the
    loader's exception, so the run ends with it.  The log of the run is
    the log of the first query, then the warning, then one call of the
    loader for each file up to the failing one, and nothing more: after
    the loads come no page-count message, no question form for the
    uploaded documents, no call of [run_rag_on_uploaded_docs] and no
    footer. *)
Theorem failed_upload_aborts_the_page E inp d e :
  outcome (RagAssistant.persistent_query E inp d) = Ok tt ->
  outcome (RagAssistant.upload_step E
             (file_uploader ["pdf"] (RagAssistant.offered_files inp)) d)
    = Raise e ->
  outcome (RagAssistant.page E inp d) = Raise e
  /\ (exists n,
        (1 <= n <= length (pdf_files (RagAssistant.offered_files inp)))%nat
        /\ events (RagAssistant.page E inp d) =
           events (RagAssistant.persistent_query E inp d)
             ++ st_warning RagAssistant.not_saved_warning
             :: repeat (call c_PyPDFLoader_load) n)
  /\ events (RagAssistant.page E inp d) =
     events (RagAssistant.persistent_query E inp d)
       ++ st_warning RagAssistant.not_saved_warning
       :: events (RagAssistant.upload_step E
                    (file_uploader ["pdf"] (RagAssistant.offered_files inp)) d)
  /\ ~ In (call c_run_rag_on_uploaded_docs) (events (RagAssistant.page E inp d))
  /\ ~ In (st_markdown (VStr RagAssistant.footer) true)
          (events (RagAssistant.page E inp d)).
Proof.
  intros Hq Hup.
  assert (Hev : events (RagAssistant.page E inp d) =
                events (RagAssistant.persistent_query E inp d)
                  ++ st_warning RagAssistant.not_saved_warning
                  :: events (RagAssistant.upload_step E
                               (file_uploader ["pdf"]
                                  (RagAssistant.offered_files inp)) d)).
  { unfold RagAssistant.page.
    rewrite events_bind, Hq, persistent_query_keeps_disk.
    rewrite events_bind. cbn [emit events outcome final_disk fst snd].
    rewrite events_bind, Hup, app_nil_r. reflexivity. }
  destruct (upload_step_raise_events E _ d e Hup) as (n & Hn & Hloads).
  split; [|split; [|split; [exact Hev|split]]].
  - unfold RagAssistant.page.
    rewrite outcome_bind, Hq, persistent_query_keeps_disk.
    rewrite outcome_bind. cbn [emit events outcome final_disk fst snd].
    rewrite outcome_bind, Hup. reflexivity.
  - exists n. rewrite <- file_uploader_pdf_files.
    split; [exact Hn|]. rewrite Hev, Hloads. reflexivity.
  - intros Hin. apply uploaded_query_origin in Hin
      as (doc & docs & Hok & _).
    rewrite Hup in Hok. discriminate Hok.
  - assert (Hno : Forall (fun ev => is_html ev = false)
                    (events (RagAssistant.page E inp d))).
    { rewrite Hev. apply Forall_app. split;
        [apply persistent_query_no_html|].
      constructor; [reflexivity|].
      apply upload_step_events; [reflexivity | intros m; reflexivity]. }
    rewrite List.Forall_forall in Hno. intros Hin.
    specialize (Hno _ Hin). discriminate Hno.
Qed.

Lemma failed_upload_aborts_the_page_witness :
  outcome (RagAssistant.persistent_query Samples.E_unreadable
             Samples.uploading ∅) = Ok tt
  /\ outcome (RagAssistant.upload_step Samples.E_unreadable
                (file_uploader ["pdf"]
                   (RagAssistant.offered_files Samples.uploading)) ∅)
     = Raise Samples.pdf_error
  /\ outcome (RagAssistant.page Samples.E_unreadable Samples.uploading ∅)
     = Raise Samples.pdf_error.
Proof.
  assert (Hq : outcome (RagAssistant.persistent_query Samples.E_unreadable
                          Samples.uploading ∅) = Ok tt) by reflexivity.
  assert (Hu : outcome (RagAssistant.upload_step Samples.E_unreadable
                          (file_uploader ["pdf"]
                             (RagAssistant.offered_files Samples.uploading)) ∅)
               = Raise Samples.pdf_error).
  { vm_compute. reflexivity. }
  split; [exact Hq|]. split; [exact Hu|].
  exact (proj1 (failed_upload_aborts_the_page Samples.E_unreadable
                  Samples.uploading ∅ Samples.pdf_error Hq Hu)).
Defined.

Example failed_upload_page_log :
  RagAssistant.page Samples.E_unreadable Samples.uploading ∅
  = (Raise Samples.pdf_error,
     final_disk (RagAssistant.page Samples.E_unreadable Samples.uploading ∅),
     [st_warning RagAssistant.not_saved_warning; call c_PyPDFLoader_load]).
Proof. vm_compute. reflexivity. Qed.
